(** * auto_stock_trading: the decision-and-execution engine

    A shallow embedding of [strategy.py] (indicator engine, signal
    evaluator, position sizer, portfolio tracker, strategy runner), of the
    order submission of [api.py] and of the retrying request executor of
    [kis_open_api.py], with the properties the design document states
    about them.

    Conventions of the embedding.
    - In the indicators and the signal rules Python numbers ([int] and
      [float]) are exact rationals [Q]; integer quantities that the code
      obtains through [int(...)] are [Z].
    - The position sizer takes [int(...)] of a float quotient, where binary
      rounding decides the result: there an [int] is a [Z] and a [float] is
      an IEEE 754 binary64 value ([spec_float]), every product and quotient
      rounded to the nearest float, ties to even.
    - A Python call that may raise returns a [result]; [None] is [option].
    - Network, clock, sleeping and logging are explicit: a function that
      performs them takes the trace of events so far and returns the
      extended trace. *)

From Stdlib Require Import String Ascii DecimalString.
From Stdlib Require Import ZArith QArith Qround List Bool Lia Lqa.
From Stdlib Require DecimalZ DecimalPos.
From Stdlib Require Import SpecFloat.
Import ListNotations.

Local Open Scope Z_scope.

(** ** Exceptions and results *)

Inductive exn : Type :=
| ConnectTimeout                 (* requests.exceptions.ConnectTimeout *)
| ReadTimeout                    (* requests.exceptions.ReadTimeout *)
| ConnectionError                (* requests.exceptions.ConnectionError *)
| ValueError
| ZeroDivisionError
| IndexError
| OtherError (name : string)     (* any other class derived from Exception *)
| NonException (name : string)   (* a BaseException that is no Exception:
                                    KeyboardInterrupt, SystemExit *)
| UnsupportedMethod (method : string)
                                 (* ValueError(f"지원하지 않는 HTTP 메서드: {method}") *)
| RetriesExhausted (cause : exn) (* Exception("최대 재시도 횟수 초과: {e}") *)
| ConnectionFailed (cause : exn) (* Exception("연결 오류: {e}") *)
| RequestFailed.                 (* Exception("요청 실패") *)

Inductive result (A : Type) : Type :=
| Ok (a : A)
| Raise (e : exn).

Arguments Ok {A} a.
Arguments Raise {A} e.

(** [isinstance(e, Exception)] *)
Definition is_exception (e : exn) : bool :=
  match e with
  | NonException _ => false
  | _ => true
  end.

Definition bind {A B : Type} (r : result A) (k : A -> result B) : result B :=
  match r with
  | Ok a => k a
  | Raise e => Raise e
  end.

Notation "x <- c ;; k" := (bind c (fun x => k))
  (at level 61, c at next level, right associativity).

(** ** Python numbers *)

Module Py.

Local Open Scope Q_scope.

(** [x < y] and [x > y] on numbers. *)
Definition ltb (x y : Q) : bool := negb (Qle_bool y x).
Definition gtb (x y : Q) : bool := ltb y x.
Definition leb (x y : Q) : bool := Qle_bool x y.
Definition geb (x y : Q) : bool := Qle_bool y x.

(** True division [x / y]: raises ZeroDivisionError on a zero divisor. *)
Definition div (x y : Q) : result Q :=
  if Qeq_bool y 0 then Raise ZeroDivisionError else Ok (x / y).

(** [sum(xs)]. *)
Definition sum (xs : list Q) : Q := fold_left Qplus xs 0.

(** Truth value of a number or None: None and zero are false. *)
Definition truthy (v : option Q) : bool :=
  match v with
  | None => false
  | Some x => negb (Qeq_bool x 0)
  end.

(** [xs[k:]] for a possibly negative start index. *)
Definition slice_from {A : Type} (xs : list A) (k : Z) : list A :=
  let n := Z.of_nat (length xs) in
  let start := if (k <? 0)%Z then Z.max (n + k) 0 else Z.min k n in
  skipn (Z.to_nat start) xs.

(** [str(n)] on an int. *)
Definition str (n : Z) : string := NilZero.string_of_int (Z.to_int n).

(** [range(n)] *)
Definition range (n : Z) : list Z := map Z.of_nat (seq 0 (Z.to_nat n)).

(** [int(s)] on text made of an optional minus sign and decimal digits. *)
Definition int_of_decimal (s : string) : result Z :=
  match NilZero.int_of_string s with
  | Some d => Ok (Z.of_int d)
  | None => Raise ValueError
  end.

End Py.

(** ** Python ints and floats *)

Module PyNum.

(** IEEE 754 binary64: 53 bits of mantissa, infinities at exponent 1024. *)
Definition prec : Z := 53.
Definition emax : Z := 1024.

(** A Python number: an [int] of any size, or a [float]. *)
Inductive number : Type :=
| Int (n : Z)
| Float (x : spec_float).

Definition OverflowError : exn := OtherError "OverflowError".

(** The float nearest to the quotient of two ints. *)
Definition nearest (m : Z) (n : positive) : spec_float :=
  match m with
  | Z0 => S754_zero false
  | Zpos p => SFdiv prec emax (S754_finite false p 0) (S754_finite false n 0)
  | Zneg p => SFdiv prec emax (S754_finite true p 0) (S754_finite false n 0)
  end.

(** The number that a literal of the configuration denotes: an [int] when
    it has no fractional part, the nearest [float] otherwise. *)
Definition literal (q : Q) : number :=
  match Qden q with
  | xH => Int (Qnum q)
  | d => Float (nearest (Qnum q) d)
  end.

(** The conversion of an [int] operand of float arithmetic: the nearest
    float, OverflowError beyond the range of floats. *)
Definition float_of_int (n : Z) : result spec_float :=
  match binary_normalize prec emax n 0 false with
  | S754_infinity _ => Raise OverflowError
  | x => Ok x
  end.

Definition to_float (a : number) : result spec_float :=
  match a with
  | Int n => float_of_int n
  | Float x => Ok x
  end.

Definition is_zero (x : spec_float) : bool :=
  match x with
  | S754_zero _ => true
  | _ => false
  end.

(** [a * b]: exact on two ints, a rounded float product otherwise. *)
Definition mul (a b : number) : result number :=
  match a, b with
  | Int m, Int n => Ok (Int (m * n))
  | _, _ =>
      x <- to_float a ;;
      y <- to_float b ;;
      Ok (Float (SFmul prec emax x y))
  end.

(** [a / b]: true division.  Two ints give the float nearest to their
    quotient; otherwise the operands are converted and divided as floats.
    A zero divisor raises ZeroDivisionError. *)
Definition truediv (a b : number) : result number :=
  match a, b with
  | Int m, Int n =>
      match n with
      | Z0 => Raise ZeroDivisionError
      | Zpos d =>
          match nearest m d with
          | S754_infinity _ => Raise OverflowError
          | x => Ok (Float x)
          end
      | Zneg d =>
          match nearest (- m) d with
          | S754_infinity _ => Raise OverflowError
          | x => Ok (Float x)
          end
      end
  | _, _ =>
      x <- to_float a ;;
      y <- to_float b ;;
      if is_zero y then Raise ZeroDivisionError
      else Ok (Float (SFdiv prec emax x y))
  end.

(** [int(a)]: truncation towards zero; an infinity raises OverflowError,
    a NaN raises ValueError. *)
Definition int (a : number) : result Z :=
  match a with
  | Int n => Ok n
  | Float (S754_zero _) => Ok 0
  | Float (S754_finite s m e) => Ok (cond_Zopp s (Z.shiftl (Zpos m) e))
  | Float (S754_infinity _) => Raise OverflowError
  | Float S754_nan => Raise ValueError
  end.

End PyNum.

(** ** Indicator engine (strategy.py) *)

Section Indicators.

Local Open Scope Q_scope.

(** [calculate_moving_average(prices, period)] *)
Definition calculate_moving_average (prices : list Q) (period : Z)
  : result (option Q) :=
  if (Z.of_nat (length prices) >=? period)%Z then
    m <- Py.div (Py.sum (Py.slice_from prices (- period))) (inject_Z period) ;;
    Ok (Some m)
  else Ok None.

(** [[prices[i] - prices[i - 1] for i in range(1, len(prices))]] *)
Definition deltas (prices : list Q) : list Q :=
  map (fun i => nth i prices 0 - nth (i - 1) prices 0)
      (seq 1 (length prices - 1)).

(** [calculate_rsi(prices, period=14)] *)
Definition calculate_rsi (prices : list Q) (period : Z) : result (option Q) :=
  if (Z.of_nat (length prices) <? period + 1)%Z then Ok None
  else
    let gains := map (fun delta => if Py.gtb delta 0 then delta else 0)
                     (deltas prices) in
    let losses := map (fun delta => if Py.ltb delta 0 then - delta else 0)
                      (deltas prices) in
    avg_gain <- Py.div (Py.sum (Py.slice_from gains (- period)))
                       (inject_Z period) ;;
    avg_loss <- Py.div (Py.sum (Py.slice_from losses (- period)))
                       (inject_Z period) ;;
    if Qeq_bool avg_loss 0 then Ok (Some 100)
    else
      rs <- Py.div avg_gain avg_loss ;;
      q <- Py.div 100 (1 + rs) ;;
      Ok (Some (100 - q)).

Definition default_rsi_period : Z := 14.

End Indicators.


(** ** Data model (strategy.py and the gateway results it consumes) *)

(** Result of [get_current_price]. *)
Record Quote : Type := {
  quote_stock_code : string;
  quote_current_price : Z;
  quote_change_rate : Q;
  quote_volume : Z
}.

(** One element of the result of [get_chart_data]. *)
Record Bar : Type := {
  bar_date : string;
  bar_open : Z;
  bar_high : Z;
  bar_low : Z;
  bar_close : Z;
  bar_volume : Z
}.

(** The dict built by [analyze_stock]. *)
Record Analysis : Type := {
  stock_code : string;
  current_price : Z;
  change_rate : Q;
  volume : Z;
  avg_volume : Q;
  ma5 : option Q;
  ma20 : option Q;
  rsi : option Q;
  volume_ratio : Q
}.

(** One entry of [balance['stocks']]: the broker's fields, still text. *)
Record Stock : Type := {
  pdno : string;
  hldg_qty : string;
  pchs_avg_pric : string;
  evlu_amt : string;
  evlu_pfls_amt : string
}.

(** Result of [get_balance]. *)
Record Balance : Type := {
  balance_cash : Z;
  balance_stocks : list Stock
}.

(** One value of [holdings]. *)
Record Holding : Type := {
  quantity : Z;
  buy_price : Z;
  current_value : Z;
  profit_loss : Z
}.

(** A Python dict with string keys, in insertion order. *)
Definition dict (V : Type) : Type := list (string * V).

(** [d[k] = v]: replaces the value in place when the key is there,
    appends the entry otherwise. *)
Fixpoint dict_set {V : Type} (k : string) (v : V) (d : dict V) : dict V :=
  match d with
  | [] => [(k, v)]
  | (k', v') :: d' =>
      if String.eqb k k' then (k, v) :: d' else (k', v') :: dict_set k v d'
  end.

Fixpoint dict_get {V : Type} (k : string) (d : dict V) : option V :=
  match d with
  | [] => None
  | (k', v') :: d' => if String.eqb k k' then Some v' else dict_get k d'
  end.

(** [k in d] *)
Definition dict_mem {V : Type} (k : string) (d : dict V) : bool :=
  match dict_get k d with Some _ => true | None => false end.

Definition dict_keys {V : Type} (d : dict V) : list string := map fst d.

(** Result of [get_portfolio_status]. *)
Record Portfolio : Type := {
  cash : Z;
  holdings : dict Holding;
  position_count : Z
}.

(** Result of [buy_order] and [sell_order]. *)
Record OrderResult : Type := {
  order_no : option string;
  success : bool;
  message : string
}.

(** The fields [__init__] reads from the configuration, each the number
    that its literal states. *)
Record Config : Type := {
  watchlist : list string;
  max_position_count : Q;
  max_invest_ratio : Q;
  stop_loss_ratio : Q;
  take_profit_ratio : Q
}.

(** [config.get(key, default)] on an empty configuration. *)
Definition default_config : Config := {|
  watchlist := [];
  max_position_count := 5;
  max_invest_ratio := 8 # 10;
  stop_loss_ratio := 5 # 100;
  take_profit_ratio := 1 # 10
|}.

(** ** Clock *)

(** [datetime.time]: compared field by field, in this order. *)
Record time : Type := {
  hour : Z;
  minute : Z;
  second : Z;
  microsecond : Z
}.

(** What [is_market_open] observes of [datetime.now()]. *)
Record datetime : Type := {
  weekday : Z;        (* now.weekday(): Monday is 0, Sunday is 6 *)
  time_of_day : time  (* now.time() *)
}.

Definition time_compare (a b : time) : comparison :=
  match hour a ?= hour b with
  | Eq =>
      match minute a ?= minute b with
      | Eq =>
          match second a ?= second b with
          | Eq => microsecond a ?= microsecond b
          | c => c
          end
      | c => c
      end
  | c => c
  end.

(** [a <= b] on [datetime.time] values. *)
Definition time_le (a b : time) : bool :=
  match time_compare a b with
  | Gt => false
  | _ => true
  end.

(** [datetime.strptime("HH:MM", "%H:%M").time()] *)
Definition hhmm (h m : Z) : time :=
  {| hour := h; minute := m; second := 0; microsecond := 0 |}.

(** ** HTTP exchange (requests) *)

(** The arguments of [requests.get] and [requests.post] that the code
    passes.  A JSON object of text fields is a [dict string]; the body of a
    POST is the object given to [json.dumps]. *)
Record Request : Type := {
  req_method : string;
  req_url : string;
  req_headers : option (dict string);
  req_params : option (dict string);
  req_data : option (dict string);
  req_timeout : option Z
}.

(** What the order endpoints read from the object that [response.json()]
    returns, its values being text: each field is the value read, or the
    exception that reading it raises (KeyError for a missing key). *)
Record Reply : Type := {
  rt_cd : result string;          (* result["rt_cd"] *)
  output_ORD_NO : result string;  (* result["output"]["ORD_NO"] *)
  msg1 : result string            (* result["msg1"] *)
}.

(** [response_json] is [response.json()], which raises on a body that does
    not decode. *)
Record Response : Type := {
  status_code : Z;
  response_json : result Reply
}.

(** ** Events and the effect monad *)

Inductive level : Type := INFO | ERROR.

(** The log lines of strategy.py, with the values they interpolate. *)
Inductive log_message : Type :=
| MarketClosed                                   (* "장 시간이 아닙니다." *)
| StrategyStart
| StrategyDone
| PortfolioUnavailable
| PortfolioSummary (cash count : Z)
| StrategyError (e : exn)
| AnalysisError (code : string) (e : exn)
| AlreadyHeld (code : string)
| PositionLimitReached
| QuantityTooSmall
| BuyDone (code : string) (quantity : Z)
| BuyRejected (msg : string)
| BuyError (e : exn)
| SellDone (code : string) (quantity profit_loss : Z)
| SellRejected (msg : string)
| SellError (e : exn).

(** The lines [make_request] prints. *)
Inductive print_message : Type :=
| TimeoutOccurred (attempt max_retries : Z) (e : exn)
| ConnectionErrorOccurred (attempt max_retries : Z) (e : exn)
| UnexpectedError (e : exn).

(** Calls on [self.api]. *)
Inductive api_call : Type :=
| GetCurrentPrice (code : string)
| GetChartData (code period : string) (count : Z)
| GetBalance
| BuyOrder (code : string) (quantity price : Z)
| SellOrder (code : string) (quantity price : Z).

Inductive event : Type :=
| Call (c : api_call)      (* a method call on the injected gateway *)
| Http (r : Request)       (* requests.get / requests.post *)
| Sleep (seconds : Z)      (* time.sleep *)
| Log (l : level) (m : log_message)
| Print (m : print_message).

Definition trace : Type := list event.

(** The collaborators of a strategy object: the injected [kis_api] and the
    system clock.  Each answer may depend on everything that happened
    before. *)
Record World : Type := {
  get_current_price : trace -> string -> result (option Quote);
  get_chart_data : trace -> string -> string -> Z -> result (option (list Bar));
  get_balance : trace -> result (option Balance);
  buy_order : trace -> string -> Z -> Z -> result OrderResult;
  sell_order : trace -> string -> Z -> Z -> result OrderResult;
  now : trace -> datetime
}.

Definition action (A : Type) : Type := trace -> result A * trace.

Definition pure {A : Type} (a : A) : action A := fun t => (Ok a, t).

Definition lift {A : Type} (r : result A) : action A := fun t => (r, t).

Definition and_then {A B : Type} (c : action A) (k : A -> action B) : action B :=
  fun t =>
    match c t with
    | (Ok a, t') => k a t'
    | (Raise e, t') => (Raise e, t')
    end.

Notation "x <~ c ;; k" := (and_then c (fun x => k))
  (at level 61, c at next level, right associativity).
Notation "c ;;; k" := (and_then c (fun _ => k))
  (at level 61, right associativity).

(** [try: c  except Exception as e: handler(e)]: what is raised and is no
    [Exception] passes through. *)
Definition try_except {A : Type} (c : action A) (handler : exn -> action A)
  : action A :=
  fun t =>
    match c t with
    | (Ok a, t') => (Ok a, t')
    | (Raise e, t') => if is_exception e then handler e t' else (Raise e, t')
    end.

Definition emit (ev : event) : action unit := fun t => (Ok tt, t ++ [ev]).

Definition log (l : level) (m : log_message) : action unit := emit (Log l m).

Definition sleep (seconds : Z) : action unit := emit (Sleep seconds).

(** A call on [self.api]: answered from the history, then recorded. *)
Definition call {A : Type} (c : api_call) (answer : trace -> result A)
  : action A :=
  fun t => (answer t, t ++ [Call c]).

(** [for x in xs: body(x)] *)
Fixpoint for_each {A : Type} (xs : list A) (body : A -> action unit)
  : action unit :=
  match xs with
  | [] => pure tt
  | x :: rest => body x ;;; for_each rest body
  end.

(** The gateway calls recorded in a trace. *)
Definition api_calls (t : trace) : list api_call :=
  flat_map (fun ev => match ev with Call c => [c] | _ => [] end) t.

(** ** AutoTradingStrategy (strategy.py) *)

Section AutoTradingStrategy.

(** Python's [int(s)] on the text of a broker field; it raises ValueError
    on text that is not an integer literal. *)
Variable int_of_str : string -> result Z.

Variable world : World.
Variable self : Config.

Local Open Scope Q_scope.

(** The body of [is_market_open] after [now = datetime.now()]. *)
Definition market_open_at (now : datetime) : bool :=
  if (weekday now >=? 5)%Z then false
  else
    let market_open := hhmm 9 0 in
    let market_close := hhmm 15 30 in
    time_le market_open (time_of_day now)
    && time_le (time_of_day now) market_close.

(** [is_market_open(self)] *)
Definition is_market_open : action bool :=
  fun t => (Ok (market_open_at (now world t)), t).

(** [should_buy(self, analysis)] *)
Definition should_buy (analysis : option Analysis) : bool :=
  match analysis with
  | None => false
  | Some a =>
      if negb (forallb Py.truthy [ma5 a; ma20 a; rsi a]) then false
      else
        match ma5 a, ma20 a, rsi a with
        | Some a_ma5, Some a_ma20, Some a_rsi =>
            let conditions := [
              Py.gtb a_ma5 a_ma20;
              Py.gtb a_rsi 30 && Py.ltb a_rsi 70;
              Py.gtb (volume_ratio a) (15 # 10);
              Py.gtb (change_rate a) (- (3))
            ] in
            (fold_left Z.add (map Z.b2z conditions) 0 >=? 3)%Z
        | _, _, _ => false (* not reached: None is not truthy *)
        end
  end.

(** The truth value of [v and rest], where [rest] reads the number [v]. *)
Definition truthy_and (v : option Q) (rest : Q -> bool) : bool :=
  match v with
  | Some x => if Py.truthy (Some x) then rest x else false
  | None => false
  end.

(** [should_sell(self, analysis, holding_info)] *)
Definition should_sell (analysis : option Analysis)
           (holding_info : option Holding) : result bool :=
  match analysis, holding_info with
  | Some a, Some h =>
      let a_current_price := inject_Z (current_price a) in
      let h_buy_price := inject_Z (buy_price h) in
      profit_rate <- Py.div (a_current_price - h_buy_price) h_buy_price ;;
      let conditions := [
        Py.leb profit_rate (- stop_loss_ratio self);
        Py.geb profit_rate (take_profit_ratio self);
        truthy_and (ma5 a) (fun a_ma5 =>
          truthy_and (ma20 a) (fun a_ma20 => Py.ltb a_ma5 a_ma20));
        truthy_and (rsi a) (fun a_rsi => Py.gtb a_rsi 80)
      ] in
      Ok (existsb (fun c => c) conditions)
  | _, _ => Ok false
  end.

(** The loop of [get_portfolio_status] over [balance['stocks']]. *)
Fixpoint collect_holdings (stocks : list Stock) (acc : dict Holding)
  : result (dict Holding) :=
  match stocks with
  | [] => Ok acc
  | stock :: rest =>
      guard <- int_of_str (hldg_qty stock) ;;
      if (guard >? 0)%Z then
        h_quantity <- int_of_str (hldg_qty stock) ;;
        h_buy_price <- int_of_str (pchs_avg_pric stock) ;;
        h_current_value <- int_of_str (evlu_amt stock) ;;
        h_profit_loss <- int_of_str (evlu_pfls_amt stock) ;;
        collect_holdings rest
          (dict_set (pdno stock)
             {| quantity := h_quantity;
                buy_price := h_buy_price;
                current_value := h_current_value;
                profit_loss := h_profit_loss |} acc)
      else collect_holdings rest acc
  end.

(** [get_portfolio_status] once [self.api.get_balance()] has answered. *)
Definition portfolio_of (balance : option Balance) : result (option Portfolio) :=
  match balance with
  | None => Ok None
  | Some b =>
      b_holdings <- collect_holdings (balance_stocks b) [] ;;
      Ok (Some {| cash := balance_cash b;
                  holdings := b_holdings;
                  position_count := Z.of_nat (length b_holdings) |})
  end.

(** [get_portfolio_status(self)] *)
Definition get_portfolio_status : action (option Portfolio) :=
  balance <~ call GetBalance (get_balance world) ;;
  lift (portfolio_of balance).

(** [calculate_position_size(self, stock_price, available_cash)], with
    the ints that [execute_buy_order] passes. *)
Definition calculate_position_size (stock_price available_cash : Z)
  : result Z :=
  max_invest_amount <- PyNum.mul (PyNum.Int available_cash)
                                 (PyNum.literal (max_invest_ratio self)) ;;
  max_position_amount <- PyNum.truediv max_invest_amount
                           (PyNum.literal (max_position_count self)) ;;
  ratio <- PyNum.truediv max_position_amount (PyNum.Int stock_price) ;;
  quantity <- PyNum.int ratio ;;
  Ok (Z.max quantity 0).

(** [analyze_stock(self, stock_code)] *)
Definition analyze_stock (code : string) : action (option Analysis) :=
  try_except
    (current_info <~ call (GetCurrentPrice code)
                          (fun t => get_current_price world t code) ;;
     match current_info with
     | None => pure None
     | Some info =>
         chart_data <~ call (GetChartData code "D" 30)
                            (fun t => get_chart_data world t code "D" 30%Z) ;;
         match chart_data with
         | None | Some [] => pure None
         | Some bars =>
             let closes := map (fun data => inject_Z (bar_close data)) bars in
             let volumes := map (fun data => inject_Z (bar_volume data)) bars in
             a_ma5 <~ lift (calculate_moving_average closes 5) ;;
             a_ma20 <~ lift (calculate_moving_average closes 20) ;;
             a_rsi <~ lift (calculate_rsi closes default_rsi_period) ;;
             a_avg_volume <~ lift (Py.div (Py.sum (Py.slice_from volumes (-5))) 5) ;;
             a_volume_ratio <~
               (if Py.gtb a_avg_volume 0
                then lift (Py.div (inject_Z (quote_volume info)) a_avg_volume)
                else pure 0) ;;
             pure (Some {| stock_code := code;
                           current_price := quote_current_price info;
                           change_rate := quote_change_rate info;
                           volume := quote_volume info;
                           avg_volume := a_avg_volume;
                           ma5 := a_ma5;
                           ma20 := a_ma20;
                           rsi := a_rsi;
                           volume_ratio := a_volume_ratio |})
         end
     end)
    (fun e => log ERROR (AnalysisError code e) ;;; pure None).

(** [execute_buy_order(self, stock_code, analysis)] *)
Definition execute_buy_order (code : string) (analysis : Analysis)
  : action bool :=
  try_except
    (portfolio <~ get_portfolio_status ;;
     match portfolio with
     | None => pure false
     | Some p =>
         if dict_mem code (holdings p) then
           log INFO (AlreadyHeld code) ;;; pure false
         else if Py.geb (inject_Z (position_count p)) (max_position_count self)
         then log INFO PositionLimitReached ;;; pure false
         else
           order_quantity <~ lift (calculate_position_size
                                     (current_price analysis) (cash p)) ;;
           if (order_quantity <=? 0)%Z then
             log INFO QuantityTooSmall ;;; pure false
           else
             order <~ call (BuyOrder code order_quantity 0)
                           (fun t => buy_order world t code order_quantity 0%Z) ;;
             if success order then
               log INFO (BuyDone code order_quantity) ;;; pure true
             else
               log ERROR (BuyRejected (message order)) ;;; pure false
     end)
    (fun e => log ERROR (BuyError e) ;;; pure false).

(** [execute_sell_order(self, stock_code, holding_info)] *)
Definition execute_sell_order (code : string) (holding_info : Holding)
  : action bool :=
  try_except
    (let order_quantity := quantity holding_info in
     order <~ call (SellOrder code order_quantity 0)
                   (fun t => sell_order world t code order_quantity 0%Z) ;;
     if success order then
       log INFO (SellDone code order_quantity (profit_loss holding_info)) ;;;
       pure true
     else
       log ERROR (SellRejected (message order)) ;;; pure false)
    (fun e => log ERROR (SellError e) ;;; pure false).

(** The [try] block of [run_strategy]; the result tells whether the block
    left the function with [return]. *)
Definition run_strategy_body : action bool :=
  portfolio <~ get_portfolio_status ;;
  match portfolio with
  | None => log ERROR PortfolioUnavailable ;;; pure true
  | Some p =>
      log INFO (PortfolioSummary (cash p) (position_count p)) ;;;
      for_each (holdings p) (fun '(code, holding_info) =>
        analysis <~ analyze_stock code ;;
        match analysis with
        | None => pure tt
        | Some a =>
            sell <~ lift (should_sell (Some a) (Some holding_info)) ;;
            if sell then
              execute_sell_order code holding_info ;;; sleep 1
            else pure tt
        end) ;;;
      for_each (watchlist self) (fun code =>
        analysis <~ analyze_stock code ;;
        match analysis with
        | None => pure tt
        | Some a =>
            if should_buy (Some a) then
              execute_buy_order code a ;;; sleep 1
            else pure tt
        end) ;;;
      pure false
  end.

(** [run_strategy(self)] *)
Definition run_strategy : action unit :=
  is_open <~ is_market_open ;;
  if negb is_open then log INFO MarketClosed
  else
    log INFO StrategyStart ;;;
    returned <~ try_except run_strategy_body
                  (fun e => log ERROR (StrategyError e) ;;; pure false) ;;
    if returned then pure tt else log INFO StrategyDone.

End AutoTradingStrategy.

(** ** KISOpenAPI (api.py, kis_open_api.py) *)

Module KISOpenAPI.

Local Open Scope string_scope.

(** The attributes of a [KISOpenAPI] object. *)
Record Self : Type := {
  app_key : string;
  app_secret : string;
  account_no : string;
  base_url : string;
  access_token : string
}.

(** The remote end: the outcome of a request, given what happened before. *)
Definition Network : Type := trace -> Request -> result Response.

(** [s.upper()] on ASCII text: the letters a to z become A to Z. *)
Definition upper_ascii (c : ascii) : ascii :=
  let n := nat_of_ascii c in
  if ((97 <=? n) && (n <=? 122))%nat then ascii_of_nat (n - 32) else c.

Fixpoint upper (s : string) : string :=
  match s with
  | EmptyString => EmptyString
  | String c rest => String (upper_ascii c) (upper rest)
  end.

(** [s.split(sep)] for a one-character separator. *)
Fixpoint split (sep : ascii) (s : string) : list string :=
  match s with
  | EmptyString => [EmptyString]
  | String c rest =>
      if Ascii.eqb c sep then EmptyString :: split sep rest
      else
        match split sep rest with
        | part :: parts => String c part :: parts
        | [] => [String c EmptyString]
        end
  end.

(** [xs[i]] for [i >= 0]. *)
Definition index {A : Type} (xs : list A) (i : nat) : result A :=
  match nth_error xs i with
  | Some x => Ok x
  | None => Raise IndexError
  end.

(** [get_headers(self, tr_id, tr_cont="")] *)
Definition get_headers (self : Self) (tr_id tr_cont : string) : dict string :=
  [ ("Content-Type", "application/json; charset=utf-8");
    ("authorization", "Bearer " ++ access_token self);
    ("appkey", app_key self);
    ("appsecret", app_secret self);
    ("tr_id", tr_id);
    ("tr_cont", tr_cont) ].

(** [requests.post(url, headers=headers, data=json.dumps(data))] *)
Definition requests_post (net : Network) (url : string)
           (headers : option (dict string)) (data : option (dict string))
           (timeout : option Z) : action Response :=
  let r := {| req_method := "POST"; req_url := url; req_headers := headers;
              req_params := None; req_data := data;
              req_timeout := timeout |} in
  fun t => (net t r, (t ++ [Http r])%list).

(** [requests.get(url, headers=headers, params=params)] *)
Definition requests_get (net : Network) (url : string)
           (headers : option (dict string)) (params : option (dict string))
           (timeout : option Z) : action Response :=
  let r := {| req_method := "GET"; req_url := url; req_headers := headers;
              req_params := params; req_data := None;
              req_timeout := timeout |} in
  fun t => (net t r, (t ++ [Http r])%list).

Section Orders.

Variable self : Self.
Variable net : Network.

(** [buy_order(self, stock_code, quantity, price=0, order_type="01")] *)
Definition buy_order (stock_code : string) (quantity price : Z)
           (order_type : string) : action OrderResult :=
  let url := base_url self ++ "/uapi/domestic-stock/v1/trading/order-cash" in
  let headers := get_headers self "TTTC0802U" "" in
  let '(order_type, price) :=
    if (price =? 0)%Z then ("01", "0") else ("00", Py.str price) in
  cano <~ lift (index (split "-" (account_no self)) 0) ;;
  acnt_prdt_cd <~ lift (index (split "-" (account_no self)) 1) ;;
  let data := [ ("CANO", cano);
                ("ACNT_PRDT_CD", acnt_prdt_cd);
                ("PDNO", stock_code);
                ("ORD_DVSN", order_type);
                ("ORD_QTY", Py.str quantity);
                ("ORD_UNPR", price) ] in
  response <~ requests_post net url (Some headers) (Some data) None ;;
  if (status_code response =? 200)%Z then
    reply <~ lift (response_json response) ;;
    reply_rt_cd <~ lift (rt_cd reply) ;;
    if String.eqb reply_rt_cd "0" then
      reply_order_no <~ lift (output_ORD_NO reply) ;;
      pure {| order_no := Some reply_order_no;
              success := true;
              message := "매수 주문 성공" |}
    else
      reply_msg1 <~ lift (msg1 reply) ;;
      pure {| order_no := None; success := false; message := reply_msg1 |}
  else
    pure {| order_no := None; success := false; message := "주문 실패" |}.

(** [sell_order(self, stock_code, quantity, price=0, order_type="01")] *)
Definition sell_order (stock_code : string) (quantity price : Z)
           (order_type : string) : action OrderResult :=
  let url := base_url self ++ "/uapi/domestic-stock/v1/trading/order-cash" in
  let headers := get_headers self "TTTC0801U" "" in
  let '(order_type, price) :=
    if (price =? 0)%Z then ("01", "0") else ("00", Py.str price) in
  cano <~ lift (index (split "-" (account_no self)) 0) ;;
  acnt_prdt_cd <~ lift (index (split "-" (account_no self)) 1) ;;
  let data := [ ("CANO", cano);
                ("ACNT_PRDT_CD", acnt_prdt_cd);
                ("PDNO", stock_code);
                ("ORD_DVSN", order_type);
                ("ORD_QTY", Py.str quantity);
                ("ORD_UNPR", price) ] in
  response <~ requests_post net url (Some headers) (Some data) None ;;
  if (status_code response =? 200)%Z then
    reply <~ lift (response_json response) ;;
    reply_rt_cd <~ lift (rt_cd reply) ;;
    if String.eqb reply_rt_cd "0" then
      reply_order_no <~ lift (output_ORD_NO reply) ;;
      pure {| order_no := Some reply_order_no;
              success := true;
              message := "매도 주문 성공" |}
    else
      reply_msg1 <~ lift (msg1 reply) ;;
      pure {| order_no := None; success := false; message := reply_msg1 |}
  else
    pure {| order_no := None; success := false; message := "주문 실패" |}.

End Orders.

Section MakeRequest.

(** Python's [str.upper], which maps every cased character of Unicode;
    [upper] is its restriction to ASCII text. *)
Variable str_upper : string -> string.

Variable net : Network.
Variables method url : string.
Variables headers params data : option (dict string).
Variables timeout max_retries : Z.

(** The [try] body of one pass of the loop of [make_request]. *)
Definition send_once : action Response :=
  if String.eqb (str_upper method) "GET" then
    requests_get net url headers params (Some timeout)
  else if String.eqb (str_upper method) "POST" then
    requests_post net url headers data (Some timeout)
  else lift (Raise (UnsupportedMethod method)).

(** The loop of [make_request] over the remaining values of [attempt],
    and the [raise] after it. *)
Fixpoint make_request_loop (attempts : list Z) : action Response :=
  match attempts with
  | [] => lift (Raise RequestFailed)
  | attempt :: rest =>
      try_except send_once (fun e =>
        match e with
        | ConnectTimeout | ReadTimeout =>
            emit (Print (TimeoutOccurred (attempt + 1) max_retries e)) ;;;
            if (attempt <? max_retries - 1)%Z then
              sleep (2 ^ attempt) ;;; make_request_loop rest
            else lift (Raise (RetriesExhausted e))
        | ConnectionError =>
            emit (Print (ConnectionErrorOccurred (attempt + 1) max_retries e)) ;;;
            if (attempt <? max_retries - 1)%Z then
              sleep (2 ^ attempt) ;;; make_request_loop rest
            else lift (Raise (ConnectionFailed e))
        | _ =>
            emit (Print (UnexpectedError e)) ;;; lift (Raise e)
        end)
  end.

(** [make_request(self, method, url, headers, params, data, timeout,
    max_retries)] *)
Definition make_request : action Response :=
  make_request_loop (Py.range max_retries).

End MakeRequest.

Definition default_timeout : Z := 30.
Definition default_max_retries : Z := 3.

End KISOpenAPI.

(** ** Read operations of KISOpenAPI (api.py) *)

Module ApiReads.

Import KISOpenAPI.
Local Open Scope string_scope.

(** [xs[:k]] for a possibly negative stop index. *)
Definition slice_to {A : Type} (xs : list A) (k : Z) : list A :=
  let n := Z.of_nat (length xs) in
  let stop := if (k <? 0)%Z then Z.max (n + k) 0 else Z.min k n in
  firstn (Z.to_nat stop) xs.

(** One element of [data["output2"]] of the chart reply: the fields that
    [get_chart_data] reads, still text. *)
Record ChartItem : Type := {
  stck_bsop_date : string;
  stck_oprc : string;
  stck_hgpr : string;
  stck_lwpr : string;
  stck_clpr : string;
  acml_vol : string
}.

(** What [get_chart_data] reads from [response.json()]. *)
Record ChartReply : Type := {
  chart_rt_cd : string;
  chart_output2 : list ChartItem
}.

Record ChartResponse : Type := {
  chart_status_code : Z;
  chart_json : ChartReply
}.

(** One element of [data["output2"]] of the balance reply. *)
Record Deposit : Type := {
  dnca_tot_amt : string
}.

(** What [get_balance] reads from [response.json()]. *)
Record BalanceReply : Type := {
  balance_rt_cd : string;
  balance_output1 : list Stock;
  balance_output2 : list Deposit
}.

Record BalanceResponse : Type := {
  balance_status_code : Z;
  balance_json : BalanceReply
}.

(** [requests.get(url, headers=headers, params=params)] against a remote
    end that answers with replies of type [R]. *)
Definition get {R : Type} (net : trace -> Request -> result R) (url : string)
           (headers params : dict string) : action R :=
  let r := {| req_method := "GET"; req_url := url;
              req_headers := Some headers; req_params := Some params;
              req_data := None; req_timeout := None |} in
  fun t => (net t r, (t ++ [Http r])%list).

Section Reads.

Variable int_of_str : string -> result Z.
Variable self : Self.

(** The loop of [get_chart_data] over the items it keeps. *)
Fixpoint chart_bars (items : list ChartItem) : result (list Bar) :=
  match items with
  | [] => Ok []
  | item :: rest =>
      b_open <- int_of_str (stck_oprc item) ;;
      b_high <- int_of_str (stck_hgpr item) ;;
      b_low <- int_of_str (stck_lwpr item) ;;
      b_close <- int_of_str (stck_clpr item) ;;
      b_volume <- int_of_str (acml_vol item) ;;
      chart_data <- chart_bars rest ;;
      Ok ({| bar_date := stck_bsop_date item;
             bar_open := b_open;
             bar_high := b_high;
             bar_low := b_low;
             bar_close := b_close;
             bar_volume := b_volume |} :: chart_data)
  end.

(** [get_chart_data(self, stock_code, period="D", count=30)] *)
Definition get_chart_data (net : trace -> Request -> result ChartResponse)
           (stock_code period : string) (count : Z)
  : action (option (list Bar)) :=
  let url := base_url self
             ++ "/uapi/domestic-stock/v1/quotations/inquire-daily-itemchartprice" in
  let headers := get_headers self "FHKST03010100" "" in
  let params := [ ("FID_COND_MRKT_DIV_CODE", "J");
                  ("FID_INPUT_ISCD", stock_code);
                  ("FID_INPUT_DATE_1", "");
                  ("FID_INPUT_DATE_2", "");
                  ("FID_PERIOD_DIV_CODE", period);
                  ("FID_ORG_ADJ_PRC", "0") ] in
  response <~ get net url headers params ;;
  if (chart_status_code response =? 200)%Z then
    let data := chart_json response in
    if String.eqb (chart_rt_cd data) "0" then
      chart_data <~ lift (chart_bars (slice_to (chart_output2 data) count)) ;;
      pure (Some chart_data)
    else pure None
  else pure None.

(** [get_balance(self)] *)
Definition get_balance (net : trace -> Request -> result BalanceResponse)
  : action (option Balance) :=
  let url := base_url self ++ "/uapi/domestic-stock/v1/trading/inquire-balance" in
  let headers := get_headers self "TTTC8434R" "" in
  cano <~ lift (index (split "-" (account_no self)) 0) ;;
  acnt_prdt_cd <~ lift (index (split "-" (account_no self)) 1) ;;
  let params := [ ("CANO", cano);
                  ("ACNT_PRDT_CD", acnt_prdt_cd);
                  ("AFHR_FLPR_YN", "N");
                  ("OFL_YN", "");
                  ("INQR_DVSN", "02");
                  ("UNPR_DVSN", "01");
                  ("FUND_STTL_ICLD_YN", "N");
                  ("FNCG_AMT_AUTO_RDPT_YN", "N");
                  ("PRCS_DVSN", "01");
                  ("CTX_AREA_FK100", "");
                  ("CTX_AREA_NK100", "") ] in
  response <~ get net url headers params ;;
  if (balance_status_code response =? 200)%Z then
    let data := balance_json response in
    if String.eqb (balance_rt_cd data) "0" then
      first <~ lift (index (balance_output2 data) 0) ;;
      b_cash <~ lift (int_of_str (dnca_tot_amt first)) ;;
      pure (Some {| balance_cash := b_cash;
                    balance_stocks := balance_output1 data |})
    else pure None
  else pure None.

End Reads.

End ApiReads.

(** ** Token issue (kis_open_api.py) *)

Module TokenIssue.

Local Open Scope string_scope.

(** The lines [get_access_token] prints. *)
Inductive token_print : Type :=
| IssueAttempt (attempt max_retries : Z)   (* "토큰 발급 시도 {attempt + 1}/{max_retries}" *)
| IssueDone                                (* "토큰 발급 성공" *)
| IssueRefused (status : Z) (text : string) (* "토큰 발급 실패: {status} - {text}" *)
| ConnectTimedOut (attempt max_retries : Z) (* "연결 타임아웃 (시도 {attempt + 1}/{max_retries})" *)
| ConnectionBroken (e : exn)               (* "연결 오류: {e}" *)
| RequestBroken (e : exn).                 (* "요청 오류: {e}" *)

Inductive token_event : Type :=
| Post (r : Request)      (* requests.post *)
| Wait (seconds : Z)      (* time.sleep *)
| Say (m : token_print).  (* print *)

(** The exceptions that leave [get_access_token]. *)
Inductive token_error : Type :=
| ConnectTimeoutGivenUp    (* Exception("연결 타임아웃: ...") *)
| ConnectionGivenUp        (* Exception("연결 오류: ...") *)
| RequestGivenUp (e : exn) (* Exception(f"요청 오류: {e}") *)
| RetriesGivenUp           (* Exception("토큰 발급 실패: 최대 재시도 횟수 초과") *)
| Uncaught (e : exn).      (* an exception that no clause catches *)

Inductive outcome : Type :=
| Issued
| Failed (e : token_error).

(** What [get_access_token] reads from the decoded body: a key that is
    missing is [None]. *)
Record TokenReply : Type := {
  reply_access_token : option string;
  reply_access_token_token_expired : option string
}.

(** [token_json] is [response.json()], which raises on a body that does
    not decode. *)
Record TokenResponse : Type := {
  token_status_code : Z;
  token_text : string;
  token_json : result TokenReply
}.

(** [self.access_token] and [self.token_expired]. *)
Record Tokens : Type := {
  access_token : option string;
  token_expired : option string
}.

Definition TokenNetwork : Type :=
  list token_event -> Request -> result TokenResponse.

(** The exception raised by [d[key]] for a missing key. *)
Definition KeyError : exn := OtherError "KeyError".

(** How the [try] body of one pass ends when it does not raise. *)
Inductive pass_end : Type :=
| Returned      (* the [return] after the token is stored *)
| FellThrough.  (* the end of the [else] branch *)

Section GetAccessToken.

(** Whether an exception class other than those of [exn] derives from
    [requests.exceptions.RequestException]. *)
Variable other_request_exception : string -> bool.

(** [isinstance(e, requests.exceptions.RequestException)]; the built-in
    [KeyError] is a [LookupError]. *)
Definition request_exception (e : exn) : bool :=
  match e with
  | ConnectTimeout | ReadTimeout | ConnectionError => true
  | OtherError name =>
      if String.eqb name "KeyError" then false
      else other_request_exception name
  | _ => false
  end.

Variable net : TokenNetwork.
Variables base_url app_key app_secret : string.

Definition token_request (timeout : Z) : Request :=
  {| req_method := "POST";
     req_url := base_url ++ "/oauth2/tokenP";
     req_headers := Some [ ("content-type", "application/json") ];
     req_params := None;
     req_data := Some [ ("grant_type", "client_credentials");
                        ("appkey", app_key);
                        ("appsecret", app_secret) ];
     req_timeout := Some timeout |}.

(** The [try] body of one pass of the loop of [get_access_token]. *)
Definition issue_once (max_retries timeout attempt : Z)
           (self : Tokens) (t : list token_event)
  : result pass_end * Tokens * list token_event :=
  let t := (t ++ [Say (IssueAttempt (attempt + 1) max_retries)])%list in
  let r := token_request timeout in
  match net t r with
  | Raise e => (Raise e, self, (t ++ [Post r])%list)
  | Ok response =>
      let t := (t ++ [Post r])%list in
      if (token_status_code response =? 200)%Z then
        match token_json response with
        | Raise e => (Raise e, self, t)
        | Ok reply =>
            match reply_access_token reply with
            | None => (Raise KeyError, self, t)
            | Some token =>
                let self := {| access_token := Some token;
                               token_expired := token_expired self |} in
                match reply_access_token_token_expired reply with
                | None => (Raise KeyError, self, t)
                | Some expired =>
                    ( Ok Returned,
                      {| access_token := access_token self;
                         token_expired := Some expired |},
                      (t ++ [Say IssueDone])%list )
                end
            end
        end
      else
        ( Ok FellThrough, self,
          (t ++ [Say (IssueRefused (token_status_code response)
                                   (token_text response))])%list )
  end.

(** The loop of [get_access_token] over the remaining values of [attempt],
    and the [raise] after it. *)
Fixpoint token_loop (max_retries timeout : Z) (attempts : list Z)
         (self : Tokens) (t : list token_event)
  : outcome * Tokens * list token_event :=
  match attempts with
  | [] => (Failed RetriesGivenUp, self, t)
  | attempt :: rest =>
      match issue_once max_retries timeout attempt self t with
      | (Ok Returned, self, t) => (Issued, self, t)
      | (Ok FellThrough, self, t) => token_loop max_retries timeout rest self t
      | (Raise e, self, t) =>
          match e with
          | ConnectTimeout =>
              let t :=
                (t ++ [Say (ConnectTimedOut (attempt + 1) max_retries)])%list in
              if (attempt <? max_retries - 1)%Z then
                token_loop max_retries timeout rest self (t ++ [Wait 5])%list
              else (Failed ConnectTimeoutGivenUp, self, t)
          | ConnectionError =>
              ( Failed ConnectionGivenUp, self,
                (t ++ [Say (ConnectionBroken e)])%list )
          | _ =>
              if request_exception e then
                ( Failed (RequestGivenUp e), self,
                  (t ++ [Say (RequestBroken e)])%list )
              else (Failed (Uncaught e), self, t)
          end
      end
  end.

(** [get_access_token(self)] *)
Definition get_access_token (self : Tokens) (t : list token_event)
  : outcome * Tokens * list token_event :=
  let max_retries := 3 in
  let timeout := 30 in
  token_loop max_retries timeout (Py.range max_retries) self t.

End GetAccessToken.

End TokenIssue.

(** * Specification *)

(** ** The rules as the design document words them *)

Section Rules.

Local Open Scope Q_scope.

(** At least three of four conditions hold. *)
Definition at_least_three (a b c d : Prop) : Prop :=
  (a /\ b /\ c) \/ (a /\ b /\ d) \/ (a /\ c /\ d) \/ (b /\ c /\ d).

(** Buy rule: ma5, ma20 and rsi present, and at least three of golden
    cross, 30 < rsi < 70, volume_ratio > 1.5, change_rate > -3.0. *)
Definition buy_rule (a : Analysis) : Prop :=
  exists m5 m20 r,
    ma5 a = Some m5 /\ ma20 a = Some m20 /\ rsi a = Some r /\
    at_least_three (m20 < m5) (30 < r /\ r < 70)
                   (15 # 10 < volume_ratio a) (- (3) < change_rate a).

(** profit_rate = (current_price - buy_price) / buy_price *)
Definition profit_rate_of (a : Analysis) (h : Holding) : Q :=
  (inject_Z (current_price a) - inject_Z (buy_price h)) / inject_Z (buy_price h).

(** Sell rule: stop-loss, take-profit, dead cross or overbought. *)
Definition sell_rule (self : Config) (a : Analysis) (h : Holding) : Prop :=
  profit_rate_of a h <= - stop_loss_ratio self
  \/ take_profit_ratio self <= profit_rate_of a h
  \/ (exists m5 m20, ma5 a = Some m5 /\ ma20 a = Some m20 /\ m5 < m20)
  \/ (exists r, rsi a = Some r /\ 80 < r).

(** An indicator that is absent, or present and not zero. *)
Definition not_zero (v : option Q) : Prop :=
  match v with
  | Some x => ~ x == 0
  | None => True
  end.

End Rules.

(** ** A falling market with a golden cross *)

(** Twenty daily closes: five at 1, one at 1000, fourteen at 999. *)
Definition falling_closes : list Z :=
  repeat 1%Z 5 ++ [1000%Z] ++ repeat 999%Z 14.

Definition falling_bars : list Bar :=
  map (fun c => {| bar_date := ""; bar_open := c; bar_high := c; bar_low := c;
                   bar_close := c; bar_volume := 1000 |}) falling_closes.

Definition falling_quote : Quote :=
  {| quote_stock_code := "005930"; quote_current_price := 999;
     quote_change_rate := 0; quote_volume := 3000 |}.

Definition falling_world : World :=
  {| get_current_price := fun _ _ => Ok (Some falling_quote);
     get_chart_data := fun _ _ _ _ => Ok (Some falling_bars);
     get_balance := fun _ => Ok None;
     buy_order := fun _ _ _ _ => Raise ConnectionError;
     sell_order := fun _ _ _ _ => Raise ConnectionError;
     now := fun _ => {| weekday := 0; time_of_day := hhmm 10 0 |} |}.

(** What [analyze_stock] computes in that market. *)
Definition falling_analysis : Analysis :=
  {| stock_code := "005930"; current_price := 999; change_rate := 0;
     volume := 3000;
     avg_volume := 5000 # 5;
     ma5 := Some (4995 # 5);
     ma20 := Some (14991 # 20);
     rsi := Some (0 # 14);
     volume_ratio := 15000 # 5000 |}.

(** ** Holdings that expose the corners of the sell rule *)

(** Shares booked at an average cost of zero. *)
Definition free_holding : Holding :=
  {| quantity := 10; buy_price := 0; current_value := 9990; profit_loss := 9990 |}.

(** A holding bought at 100. *)
Definition par_holding : Holding :=
  {| quantity := 10; buy_price := 100; current_value := 1000; profit_loss := 0 |}.

(** An analysis at the buying price whose five-day average is zero and
    whose twenty-day average is 5. *)
Definition zero_ma5_analysis : Analysis :=
  {| stock_code := "005930"; current_price := 100; change_rate := 0;
     volume := 0; avg_volume := 0;
     ma5 := Some 0%Q; ma20 := Some 5%Q; rsi := None;
     volume_ratio := 0 |}.

(** An analysis, 12 percent above [par_holding], with no indicator. *)
Definition gain_analysis : Analysis :=
  {| stock_code := "005930"; current_price := 112; change_rate := 0;
     volume := 0; avg_volume := 0;
     ma5 := None; ma20 := None; rsi := None;
     volume_ratio := 0 |}.

(** ** Broker payloads *)

Definition stock_entry (code qty avg_price : string) : Stock :=
  {| pdno := code; hldg_qty := qty; pchs_avg_pric := avg_price;
     evlu_amt := "0"; evlu_pfls_amt := "0" |}.

(** Two symbols, one reported with quantity 0 and one with quantity 10. *)
Definition mixed_balance : Balance :=
  {| balance_cash := 1000000;
     balance_stocks := [ stock_entry "005930" "0" "70000";
                         stock_entry "000660" "10" "50000" ] |}.

(** What [get_portfolio_status] builds from [mixed_balance]. *)
Definition mixed_portfolio : Portfolio :=
  {| cash := 1000000;
     holdings := [ ("000660"%string,
                    {| quantity := 10; buy_price := 50000;
                       current_value := 0; profit_loss := 0 |}) ];
     position_count := 1 |}.

(** A deposit total below zero and no stock. *)
Definition overdrawn_balance : Balance :=
  {| balance_cash := -1; balance_stocks := [] |}.

(** Ten shares reported with an average purchase price of zero. *)
Definition free_share_balance : Balance :=
  {| balance_cash := 0;
     balance_stocks := [ stock_entry "005930" "10" "0" ] |}.

(** A gateway that answers [get_balance] with the given payload and fails
    every other call. *)
Definition balance_world (b : Balance) : World :=
  {| get_current_price := fun _ _ => Raise ConnectionError;
     get_chart_data := fun _ _ _ _ => Raise ConnectionError;
     get_balance := fun _ => Ok (Some b);
     buy_order := fun _ _ _ _ => Raise ConnectionError;
     sell_order := fun _ _ _ _ => Raise ConnectionError;
     now := fun _ => {| weekday := 0; time_of_day := hhmm 10 0 |} |}.

(** Every holding of a dict has a quantity above zero. *)
Definition all_held (d : dict Holding) : Prop :=
  Forall (fun entry => (quantity (snd entry) > 0)%Z) d.

(** An entry of the holdings that stems from an entry of the payload with
    that symbol and that quantity. *)
Definition reported (int_of_str : string -> result Z) (stocks : list Stock)
           (entry : string * Holding) : Prop :=
  exists stock,
    In stock stocks
    /\ pdno stock = fst entry
    /\ int_of_str (hldg_qty stock) = Ok (quantity (snd entry)).

(** ** Market hours as an interval of the day *)

(** Microseconds since midnight. *)
Definition micros_of_day (t : time) : Z :=
  ((hour t * 60 + minute t) * 60 + second t) * 1000000 + microsecond t.

(** The ranges of the fields of a [datetime]. *)
Definition valid_datetime (d : datetime) : Prop :=
  0 <= weekday d <= 6
  /\ 0 <= hour (time_of_day d) < 24
  /\ 0 <= minute (time_of_day d) < 60
  /\ 0 <= second (time_of_day d) < 60
  /\ 0 <= microsecond (time_of_day d) < 1000000.

(** Monday to Friday, from 09:00 to 15:30, both ends included. *)
Definition market_hours (d : datetime) : Prop :=
  0 <= weekday d <= 4
  /\ micros_of_day (hhmm 9 0) <= micros_of_day (time_of_day d)
     <= micros_of_day (hhmm 15 30).

(** A gateway that is never reached, under a clock that shows [d]. *)
Definition clock_world (d : datetime) : World :=
  {| get_current_price := fun _ _ => Raise ConnectionError;
     get_chart_data := fun _ _ _ _ => Raise ConnectionError;
     get_balance := fun _ => Raise ConnectionError;
     buy_order := fun _ _ _ _ => Raise ConnectionError;
     sell_order := fun _ _ _ _ => Raise ConnectionError;
     now := fun _ => d |}.

(** Friday, half a minute after the close. *)
Definition friday_after_close : datetime :=
  {| weekday := 4;
     time_of_day := {| hour := 15; minute := 30; second := 30; microsecond := 0 |} |}.

(** ** Position sizing *)

(** The configuration defaults with a maximum position count of zero. *)
Definition no_position_config : Config :=
  {| watchlist := [];
     max_position_count := 0;
     max_invest_ratio := 8 # 10;
     stop_loss_ratio := 5 # 100;
     take_profit_ratio := 1 # 10 |}.

(** The configuration defaults with an investment ratio of 0.7. *)
Definition cautious_config : Config :=
  {| watchlist := [];
     max_position_count := 5;
     max_invest_ratio := 7 # 10;
     stop_loss_ratio := 5 # 100;
     take_profit_ratio := 1 # 10 |}.

(** [math.floor(a)] *)
Definition floor_of (a : PyNum.number) : result Z :=
  match a with
  | PyNum.Int n => Ok n
  | PyNum.Float (S754_zero _) => Ok 0
  | PyNum.Float (S754_finite s m e) => Ok (Z.shiftl (cond_Zopp s (Zpos m)) e)
  | PyNum.Float (S754_infinity _) => Raise PyNum.OverflowError
  | PyNum.Float S754_nan => Raise ValueError
  end.

(** size = floor((availableCash x maxInvestRatio) / maxPositionCount /
    currentPrice), floored to >= 0, the product and the quotients being
    those of Python. *)
Definition size_rule (current_price available_cash : Z)
           (max_invest_ratio max_position_count : PyNum.number) : result Z :=
  invested <- PyNum.mul (PyNum.Int available_cash) max_invest_ratio ;;
  per_position <- PyNum.truediv invested max_position_count ;;
  shares <- PyNum.truediv per_position (PyNum.Int current_price) ;;
  whole <- floor_of shares ;;
  Ok (Z.max whole 0).

(** The same formula over the rationals, nothing rounded. *)
Definition exact_size (current_price available_cash : Z)
           (max_invest_ratio max_position_count : Q) : Z :=
  Z.max (Qfloor (inject_Z available_cash * max_invest_ratio
                 / max_position_count / inject_Z current_price)) 0.

(** A float on one side of zero: not above it for [s = true], not below
    it for [s = false]; a zero of either sign and a NaN are on both. *)
Definition float_on_side (s : bool) (x : spec_float) : Prop :=
  match x with
  | S754_finite s' _ _ | S754_infinity s' => s' = s
  | S754_zero _ | S754_nan => True
  end.

Definition on_side (s : bool) (a : PyNum.number) : Prop :=
  match a with
  | PyNum.Int n => if s then n <= 0 else 0 <= n
  | PyNum.Float x => float_on_side s x
  end.

(** ** RSI as the design document words it *)

Section RsiRule.

Local Open Scope Q_scope.

(** Period-over-period deltas. *)
Fixpoint consecutive_deltas (closes : list Q) : list Q :=
  match closes with
  | previous :: (close :: _) as rest =>
      (close - previous) :: consecutive_deltas rest
  | _ => []
  end.

(** Gains: positive deltas, else 0.  Losses: negated negative deltas,
    else 0. *)
Definition gain_of (delta : Q) : Q :=
  if Qlt_le_dec 0 delta then delta else 0.

Definition loss_of (delta : Q) : Q :=
  if Qlt_le_dec delta 0 then - delta else 0.

(** The last [n] values of a sequence (all of them when it is shorter). *)
Definition last_n {A : Type} (n : nat) (xs : list A) : list A :=
  skipn (length xs - n) xs.

Definition average_of_last (period : nat) (xs : list Q) : Q :=
  Py.sum (last_n period xs) / inject_Z (Z.of_nat period).

Definition average_gain (closes : list Q) (period : nat) : Q :=
  average_of_last period (map gain_of (consecutive_deltas closes)).

Definition average_loss (closes : list Q) (period : nat) : Q :=
  average_of_last period (map loss_of (consecutive_deltas closes)).

(** RS = avgGain / avgLoss, RSI = 100 - 100 / (1 + RS); 100 when the
    average loss is 0; absent with fewer than [period + 1] closes. *)
Definition rsi_rule (closes : list Q) (period : nat) : option Q :=
  if (length closes <? period + 1)%nat then None
  else if Qeq_dec (average_loss closes period) 0 then Some 100
  else Some (100 - 100 / (1 + average_gain closes period
                               / average_loss closes period)).

(** Fifteen closes that rise by 1 or 3 and fall by 1 in turn. *)
Definition zigzag_closes : list Q :=
  map inject_Z [1; 2; 3; 2; 5; 4; 7; 6; 9; 8; 11; 10; 13; 12; 15]%Z.

End RsiRule.

(** ** Orders and requests on the wire *)

Section Wire.

Local Open Scope string_scope.

(** The requests recorded in a trace. *)
Definition requests_of (t : trace) : list Request :=
  flat_map (fun ev => match ev with Http r => [r] | _ => [] end) t.

(** Order-type resolution: a price of 0 is a market order, code "01",
    with the price sent as "0"; any other price is a limit order, code
    "00", with the price as text; the quantity is sent as text. *)
Definition order_fields (quantity price : Z) (r : Request) : Prop :=
  exists data,
    req_data r = Some data
    /\ dict_get "ORD_DVSN" data = Some (if (price =? 0)%Z then "01" else "00")
    /\ dict_get "ORD_UNPR" data = Some (if (price =? 0)%Z then "0" else Py.str price)
    /\ dict_get "ORD_QTY" data = Some (Py.str quantity).

(** The failures that [make_request] answers with another attempt. *)
Definition retryable (e : exn) : bool :=
  match e with
  | ConnectTimeout | ReadTimeout | ConnectionError => true
  | _ => false
  end.

(** The line printed for a retryable failure of [attempt]. *)
Definition retry_print (attempt max_retries : Z) (e : exn) : print_message :=
  match e with
  | ConnectionError => ConnectionErrorOccurred (attempt + 1) max_retries e
  | _ => TimeoutOccurred (attempt + 1) max_retries e
  end.

(** The error raised when the last attempt fails with [e]. *)
Definition exhausted (e : exn) : exn :=
  match e with
  | ConnectionError => ConnectionFailed e
  | _ => RetriesExhausted e
  end.

(** The request that [make_request] sends for a method, if any. *)
Definition request_of (str_upper : string -> string) (method url : string)
           (headers params data : option (dict string)) (timeout : Z)
  : option Request :=
  if String.eqb (str_upper method) "GET" then
    Some {| req_method := "GET"; req_url := url; req_headers := headers;
            req_params := params; req_data := None;
            req_timeout := Some timeout |}
  else if String.eqb (str_upper method) "POST" then
    Some {| req_method := "POST"; req_url := url; req_headers := headers;
            req_params := None; req_data := data;
            req_timeout := Some timeout |}
  else None.

(** [retried net r max_retries t0 k t]: starting from the trace [t0], the
    first [k] attempts (0 to k - 1) to send [r] met a retryable failure,
    attempt [i] was followed by a wait of [2 ^ i] seconds, and [t] is the
    trace after them. *)
Inductive retried (net : KISOpenAPI.Network) (r : Request) (max_retries : Z)
          (t0 : trace) : nat -> trace -> Prop :=
| retried_none : retried net r max_retries t0 0 t0
| retried_again (k : nat) (t : trace) (e : exn) :
    retried net r max_retries t0 k t ->
    net t r = Raise e ->
    retryable e = true ->
    retried net r max_retries t0 (S k)
            (t ++ [ Http r;
                    Print (retry_print (Z.of_nat k) max_retries e);
                    Sleep (2 ^ Z.of_nat k) ])%list.

(** The values of [attempt] from [k] on. *)
Definition attempts_from (k : nat) (max_retries : Z) : list Z :=
  map Z.of_nat (seq k (Z.to_nat max_retries - k)).

(** A remote end that answers the n-th request with the n-th outcome of
    a script, and with a connection error after the script. *)
Definition scripted (outcomes : list (result Response)) : KISOpenAPI.Network :=
  fun t _ => nth (length (requests_of t)) outcomes (Raise ConnectionError).

(** A reply with status 500 and a body that is no JSON. *)
Definition server_error : Response :=
  {| status_code := 500; response_json := Raise ValueError |}.

Definition order_accepted : Response :=
  {| status_code := 200;
     response_json := Ok {| rt_cd := Ok "0";
                            output_ORD_NO := Ok "0000117057";
                            msg1 := Ok "" |} |}.

(** A reply that reports success and carries no order number. *)
Definition order_without_number : Response :=
  {| status_code := 200;
     response_json := Ok {| rt_cd := Ok "0";
                            output_ORD_NO := Raise TokenIssue.KeyError;
                            msg1 := Ok "" |} |}.

Definition paper_account : KISOpenAPI.Self :=
  {| KISOpenAPI.app_key := "key";
     KISOpenAPI.app_secret := "secret";
     KISOpenAPI.account_no := "12345678-01";
     KISOpenAPI.base_url := "https://openapivts.koreainvestment.com:29443";
     KISOpenAPI.access_token := "token" |}.

End Wire.

(** ** Scenarios for the request executor and the runner *)

Definition quote_url : string :=
  "https://openapivts.koreainvestment.com:29443/uapi/domestic-stock/v1/quotations/inquire-price".

(** The GET that [make_request] sends for [quote_url]. *)
Definition quote_request : Request :=
  {| req_method := "GET"; req_url := quote_url; req_headers := None;
     req_params := None; req_data := None;
     req_timeout := Some KISOpenAPI.default_timeout |}.

(** A remote end that times out once and then answers with status 500. *)
Definition flaky_net : KISOpenAPI.Network :=
  scripted [Raise ConnectTimeout; Ok server_error].

(** A remote end that refuses every connection. *)
Definition dead_net : KISOpenAPI.Network := scripted [].

(** Monday 10:00, ten shares booked at a price of zero, and a quote. *)
Definition free_share_world : World :=
  {| get_current_price := fun _ _ => Ok (Some falling_quote);
     get_chart_data := fun _ _ _ _ => Ok (Some falling_bars);
     get_balance := fun _ => Ok (Some free_share_balance);
     buy_order := fun _ _ _ _ => Raise ConnectionError;
     sell_order := fun _ _ _ _ => Raise ConnectionError;
     now := fun _ => {| weekday := 0; time_of_day := hhmm 10 0 |} |}.

(** ** What an action adds to the trace *)

(** From the trace [t], [c] only appends events, and each of them
    satisfies [P]. *)
Definition emits_at {A : Type} (P : event -> Prop) (c : action A) (t : trace)
  : Prop :=
  exists evs, snd (c t) = (t ++ evs)%list /\ Forall P evs.

(** From the trace [t], [c] raises no [Exception]: it returns, or lets
    through what is none. *)
Definition contains_at {A : Type} (c : action A) (t : trace) : Prop :=
  forall e, fst (c t) = Raise e -> is_exception e = false.

(** The orders of a cycle: market orders for a positive quantity, buys for
    symbols of the watchlist only, sells for the full quantity of a holding
    of the portfolio [p] only. *)
Definition cycle_order (watch : list string) (p : option Portfolio)
           (ev : event) : Prop :=
  match ev with
  | Call (BuyOrder code order_quantity price) =>
      In code watch /\ 0 < order_quantity /\ price = 0
  | Call (SellOrder code order_quantity price) =>
      price = 0 /\ 0 < order_quantity
      /\ exists held h,
          p = Some held /\ In (code, h) (holdings held)
          /\ order_quantity = quantity h
  | _ => True
  end.

(** An event that is not an order. *)
Definition no_order (ev : event) : Prop :=
  match ev with
  | Call (BuyOrder _ _ _) | Call (SellOrder _ _ _) => False
  | _ => True
  end.

(** The portfolio that a cycle started at the trace [t] reads first: the
    answer to its first balance request, after the opening log line. *)
Definition cycle_portfolio (int_of_str : string -> result Z) (world : World)
           (t : trace) : option Portfolio :=
  match portfolio_of int_of_str
          (match get_balance world (t ++ [Log INFO StrategyStart]) with
           | Ok balance => balance
           | Raise _ => None
           end) with
  | Ok p => p
  | Raise _ => None
  end.

(** ** Indicators of an analysis, from the quote and the bars *)

Section AnalysisRule.

Local Open Scope Q_scope.

(** Arithmetic mean of the last [period] prices; absent with fewer. *)
Definition moving_average_rule (prices : list Q) (period : nat) : option Q :=
  if (length prices <? period)%nat then None
  else Some (Py.sum (last_n period prices) / inject_Z (Z.of_nat period)).

Definition closes_of (bars : list Bar) : list Q :=
  map (fun data => inject_Z (bar_close data)) bars.

Definition volumes_of (bars : list Bar) : list Q :=
  map (fun data => inject_Z (bar_volume data)) bars.

(** Mean volume of the last five bars (of all bars when there are fewer,
    still divided by five). *)
Definition average_volume (bars : list Bar) : Q :=
  Py.sum (last_n 5 (volumes_of bars)) / 5.

(** The analysis of a quote and a non-empty chart. *)
Definition analysis_of (code : string) (info : Quote) (bars : list Bar)
  : Analysis :=
  {| stock_code := code;
     current_price := quote_current_price info;
     change_rate := quote_change_rate info;
     volume := quote_volume info;
     avg_volume := average_volume bars;
     ma5 := moving_average_rule (closes_of bars) 5;
     ma20 := moving_average_rule (closes_of bars) 20;
     rsi := rsi_rule (closes_of bars) 14;
     volume_ratio :=
       if Qlt_le_dec 0 (average_volume bars)
       then inject_Z (quote_volume info) / average_volume bars
       else 0 |}.

End AnalysisRule.

(** Ten flat bars and a quote, in a world that serves them. *)
Definition short_bars : list Bar :=
  repeat {| bar_date := ""; bar_open := 100; bar_high := 100; bar_low := 100;
            bar_close := 100; bar_volume := 1000 |} 10.

Definition short_history_world : World :=
  {| get_current_price := fun _ _ => Ok (Some falling_quote);
     get_chart_data := fun _ _ _ _ => Ok (Some short_bars);
     get_balance := fun _ => Ok None;
     buy_order := fun _ _ _ _ => Raise ConnectionError;
     sell_order := fun _ _ _ _ => Raise ConnectionError;
     now := fun _ => {| weekday := 0; time_of_day := hhmm 10 0 |} |}.

(** ** Scenarios for sizing and price exits *)

(** The position of [par_holding] at 95, five percent below its cost. *)
Definition loss_analysis : Analysis :=
  {| stock_code := "005930"; current_price := 95; change_rate := 0;
     volume := 0; avg_volume := 0;
     ma5 := Some 0%Q; ma20 := None; rsi := Some 0%Q;
     volume_ratio := 0 |}.

(** ** Payload entries and the holdings they become *)

(** The entry of the payload is for [code] and reports a quantity above
    zero. *)
Definition positive_entry (int_of_str : string -> result Z) (code : string)
           (stock : Stock) : Prop :=
  pdno stock = code
  /\ exists q, int_of_str (hldg_qty stock) = Ok q /\ q > 0.

(** The holding carries the four figures of the entry. *)
Definition holding_from (int_of_str : string -> result Z) (stock : Stock)
           (h : Holding) : Prop :=
  int_of_str (hldg_qty stock) = Ok (quantity h)
  /\ int_of_str (pchs_avg_pric stock) = Ok (buy_price h)
  /\ int_of_str (evlu_amt stock) = Ok (current_value h)
  /\ int_of_str (evlu_pfls_amt stock) = Ok (profit_loss h).

(** The same symbol reported twice, first with 10 shares, then with 3. *)
Definition repeated_balance : Balance :=
  {| balance_cash := 0;
     balance_stocks := [ stock_entry "005930" "10" "70000";
                         stock_entry "000660" "0" "50000";
                         stock_entry "005930" "3" "71000" ] |}.

(** ** Replies of the read operations *)

Section ReadReplies.

Import ApiReads.
Local Open Scope string_scope.

(** The bar carries the date of the item and the integer values of its
    five figures. *)
Definition bar_from (int_of_str : string -> result Z) (item : ChartItem)
           (bar : Bar) : Prop :=
  bar_date bar = stck_bsop_date item
  /\ int_of_str (stck_oprc item) = Ok (bar_open bar)
  /\ int_of_str (stck_hgpr item) = Ok (bar_high bar)
  /\ int_of_str (stck_lwpr item) = Ok (bar_low bar)
  /\ int_of_str (stck_clpr item) = Ok (bar_close bar)
  /\ int_of_str (acml_vol item) = Ok (bar_volume bar).

Definition chart_item (date price : string) : ChartItem :=
  {| stck_bsop_date := date; stck_oprc := price; stck_hgpr := price;
     stck_lwpr := price; stck_clpr := price; acml_vol := "1000" |}.

(** A chart reply of three items, the last of them with a price that is
    no integer. *)
Definition chart_reply : ChartResponse :=
  {| chart_status_code := 200;
     chart_json :=
       {| chart_rt_cd := "0";
          chart_output2 := [ chart_item "20240105" "71000";
                             chart_item "20240104" "70500";
                             chart_item "20240103" "n/a" ] |} |}.

Definition chart_net : trace -> Request -> result ChartResponse :=
  fun _ _ => Ok chart_reply.

(** An accepted balance reply without any deposit entry. *)
Definition empty_deposit_reply : BalanceResponse :=
  {| balance_status_code := 200;
     balance_json := {| balance_rt_cd := "0";
                        balance_output1 := [];
                        balance_output2 := [] |} |}.

(** An accepted balance reply with a deposit of 1000000 and one stock. *)
Definition deposit_reply : BalanceResponse :=
  {| balance_status_code := 200;
     balance_json :=
       {| balance_rt_cd := "0";
          balance_output1 := [ stock_entry "000660" "10" "50000" ];
          balance_output2 := [ {| dnca_tot_amt := "1000000" |} ] |} |}.

End ReadReplies.

(** ** Time spent waiting *)

(** The seconds slept in a trace, added up. *)
Definition sleeps_of (t : trace) : Z :=
  fold_right (fun ev total => match ev with
                              | Sleep seconds => seconds + total
                              | _ => total
                              end) 0 t.

(** The longest total wait of [make_request]: 1 + 2 + ... + 2^(n - 2) for
    [n] allowed attempts. *)
Definition longest_wait (max_retries : Z) : Z :=
  if max_retries <=? 0 then 0 else 2 ^ (max_retries - 1) - 1.

(** What the attempts [k], ..., [k + m - 1] of [make_request] may add to
    the trace: at most [m] requests, each of them an expected one, and
    waits that add up to at most 2^k + ... + 2^(k + m - 2) seconds. *)
Definition attempts_within (expected : Request -> Prop) (k m : nat)
           (evs : trace) : Prop :=
  (length (requests_of evs) <= m)%nat
  /\ (m = 0%nat -> sleeps_of evs = 0)
  /\ ((0 < m)%nat ->
      0 <= sleeps_of evs
      /\ sleeps_of evs + 2 ^ Z.of_nat k <= 2 ^ Z.of_nat (k + m - 1))
  /\ Forall expected (requests_of evs).

(** ** Account numbers *)

(** The character [c] occurs in [s]. *)
Fixpoint occurs (c : ascii) (s : string) : bool :=
  match s with
  | EmptyString => false
  | String c' rest => Ascii.eqb c' c || occurs c rest
  end.

(** An account without the dash between its two parts. *)
Definition undashed_account : KISOpenAPI.Self :=
  {| KISOpenAPI.app_key := "key";
     KISOpenAPI.app_secret := "secret";
     KISOpenAPI.account_no := "1234567801";
     KISOpenAPI.base_url := "https://openapivts.koreainvestment.com:29443";
     KISOpenAPI.access_token := "token" |}.

(** The two order functions differ in the transaction id and in the
    message of a success only; [order] stands for either. *)
Definition is_order_call (self : KISOpenAPI.Self) (net : KISOpenAPI.Network)
           (order : string -> Z -> Z -> string -> action OrderResult) : Prop :=
  order = KISOpenAPI.buy_order self net \/ order = KISOpenAPI.sell_order self net.

(** The request of an order for an account of the parts [cano] and
    [prdt]. *)
Definition order_request (self : KISOpenAPI.Self) (tr_id cano prdt : string)
           (stock_code : string) (quantity price : Z) : Request :=
  {| req_method := "POST";
     req_url := (KISOpenAPI.base_url self
                 ++ "/uapi/domestic-stock/v1/trading/order-cash")%string;
     req_headers := Some (KISOpenAPI.get_headers self tr_id "");
     req_params := None;
     req_data :=
       Some [ ("CANO", cano);
              ("ACNT_PRDT_CD", prdt);
              ("PDNO", stock_code);
              ("ORD_DVSN", if (price =? 0)%Z then "01" else "00");
              ("ORD_QTY", Py.str quantity);
              ("ORD_UNPR", if (price =? 0)%Z then "0" else Py.str price) ]%string;
     req_timeout := None |}.

(** What reading a reply to an order raises, if it raises: decoding the
    body, reading rt_cd, reading the order number of an accepted order,
    or reading the message of a refused one, all for status 200 only. *)
Definition reading_raises (response : Response) (e : exn) : Prop :=
  status_code response = 200
  /\ (response_json response = Raise e
      \/ exists reply,
           response_json response = Ok reply
           /\ (rt_cd reply = Raise e
               \/ (rt_cd reply = Ok "0"%string /\ output_ORD_NO reply = Raise e)
               \/ (exists code, rt_cd reply = Ok code /\ code <> "0"%string
                                /\ msg1 reply = Raise e))).

(** The reply accepts the order: status 200 and rt_cd "0". *)
Definition accepted (response : Response) : Prop :=
  status_code response = 200
  /\ exists reply, response_json response = Ok reply
                   /\ rt_cd reply = Ok "0"%string.

(** The order number that the reply carries. *)
Definition reply_order_no (response : Response) (number : string) : Prop :=
  exists reply, response_json response = Ok reply
                /\ output_ORD_NO reply = Ok number.

(** ** Traces of the token issue *)

Section TokenTraces.

Import TokenIssue.
Local Open Scope string_scope.

(** The requests posted in a trace of [get_access_token]. *)
Definition posts_of (evs : list token_event) : list Request :=
  flat_map (fun ev => match ev with Post r => [r] | _ => [] end) evs.

(** The waits of such a trace, in seconds. *)
Definition waits_of (evs : list token_event) : list Z :=
  flat_map (fun ev => match ev with Wait seconds => [seconds] | _ => [] end) evs.

(** The passes of the loop after which a connect timeout is waited out. *)
Definition retry_waits (max_retries : Z) (attempts : list Z) : nat :=
  length (filter (fun attempt => attempt <? max_retries - 1)%Z attempts).

(** The [try] body of a pass ended in a connect timeout: the post raised
    it, or decoding the body of a reply with status 200 did. *)
Definition timed_out (answer : result TokenResponse) : Prop :=
  answer = Raise ConnectTimeout
  \/ exists response,
       answer = Ok response
       /\ token_status_code response = 200
       /\ token_json response = Raise ConnectTimeout.

(** A token reply with both fields. *)
Definition token_granted : TokenResponse :=
  {| token_status_code := 200;
     token_text := "";
     token_json := Ok {| reply_access_token := Some "token";
                         reply_access_token_token_expired :=
                           Some "2026-01-01 00:00:00" |} |}.

(** A remote end that times out on the first connection and grants the
    token on the second. *)
Definition slow_start_net : TokenNetwork :=
  fun t _ =>
    match posts_of t with
    | [] => Raise ConnectTimeout
    | _ => Ok token_granted
    end.

(** The token request of a paper-trading account. *)
Definition paper_token_request : Request :=
  token_request "https://openapivts.koreainvestment.com:29443"
                "key" "secret" 30.

(** What follows the first post against [slow_start_net]. *)
Definition slow_start_rest : list token_event :=
  [ Say (ConnectTimedOut 1 3); Wait 5; Say (IssueAttempt 2 3);
    Post paper_token_request; Say IssueDone ].

(** The object before the first token is issued. *)
Definition no_tokens : Tokens :=
  {| access_token := None; token_expired := None |}.

End TokenTraces.

(** * Verification *)

(** ** Numbers *)

Module PyFacts.

Local Open Scope Q_scope.

Lemma ltb_true (x y : Q) : Py.ltb x y = true <-> x < y.
Proof.
  unfold Py.ltb. rewrite negb_true_iff.
  split; intros H.
  - apply Qnot_le_lt. intros Hle. apply Qle_bool_iff in Hle. congruence.
  - destruct (Qle_bool y x) eqn:E; [|reflexivity].
    apply Qle_bool_iff in E. exfalso. apply (Qlt_not_le _ _ H E).
Qed.

Lemma gtb_true (x y : Q) : Py.gtb x y = true <-> y < x.
Proof. unfold Py.gtb. apply ltb_true. Qed.

Lemma leb_true (x y : Q) : Py.leb x y = true <-> x <= y.
Proof. unfold Py.leb. apply Qle_bool_iff. Qed.

Lemma geb_true (x y : Q) : Py.geb x y = true <-> y <= x.
Proof. unfold Py.geb. apply Qle_bool_iff. Qed.

Lemma truthy_some (x : Q) : Py.truthy (Some x) = true <-> ~ x == 0.
Proof.
  simpl. rewrite negb_true_iff. split; intros H.
  - intros E. apply Qeq_bool_iff in E. congruence.
  - destruct (Qeq_bool x 0) eqn:E; [|reflexivity].
    apply Qeq_bool_iff in E. contradiction.
Qed.

Lemma div_nonzero (x y : Q) : ~ y == 0 -> Py.div x y = Ok (x / y).
Proof.
  intros H. unfold Py.div.
  destruct (Qeq_bool y 0) eqn:E; [|reflexivity].
  apply Qeq_bool_iff in E. contradiction.
Qed.

Lemma div_zero (x y : Q) : y == 0 -> Py.div x y = Raise ZeroDivisionError.
Proof.
  intros H. unfold Py.div. apply Qeq_bool_iff in H. rewrite H. reflexivity.
Qed.

Lemma div_ok_inv (x y q : Q) : Py.div x y = Ok q -> ~ y == 0 /\ q = x / y.
Proof.
  unfold Py.div. destruct (Qeq_bool y 0) eqn:E; [discriminate|].
  intros H. injection H as <-. split; [|reflexivity].
  intros Hy. apply Qeq_bool_iff in Hy. congruence.
Qed.

End PyFacts.

(** ** Signal evaluator *)

Section SignalEvaluator.

Local Open Scope Q_scope.

(** Reading a boolean test of the code as the proposition it decides. *)
Ltac reflect_tests :=
  repeat match goal with
  | H : Py.gtb _ _ = true |- _ => apply PyFacts.gtb_true in H
  | H : Py.ltb _ _ = true |- _ => apply PyFacts.ltb_true in H
  | H : Py.leb _ _ = true |- _ => apply PyFacts.leb_true in H
  | H : Py.geb _ _ = true |- _ => apply PyFacts.geb_true in H
  | H : Py.gtb ?x ?y = false |- _ =>
      assert (~ y < x) by (rewrite <- PyFacts.gtb_true; congruence); clear H
  | H : Py.ltb ?x ?y = false |- _ =>
      assert (~ x < y) by (rewrite <- PyFacts.ltb_true; congruence); clear H
  | H : Py.leb ?x ?y = false |- _ =>
      assert (~ x <= y) by (rewrite <- PyFacts.leb_true; congruence); clear H
  | H : Py.geb ?x ?y = false |- _ =>
      assert (~ y <= x) by (rewrite <- PyFacts.geb_true; congruence); clear H
  end.

(** With the three indicators present and not zero, the buy decision is
    the quorum of the design: at least three of the four conditions. *)
Lemma should_buy_quorum (a : Analysis) (m5 m20 r : Q) :
  ma5 a = Some m5 -> ma20 a = Some m20 -> rsi a = Some r ->
  ~ m5 == 0 -> ~ m20 == 0 -> ~ r == 0 ->
  (should_buy (Some a) = true <-> buy_rule a).
Proof.
  intros E5 E20 Er N5 N20 Nr.
  apply PyFacts.truthy_some in N5, N20, Nr.
  unfold should_buy, buy_rule. rewrite E5, E20, Er.
  cbn [forallb]. rewrite N5, N20, Nr. cbn [andb negb].
  destruct (Py.gtb m5 m20) eqn:Ca;
    destruct (Py.gtb r 30) eqn:Cb1;
    destruct (Py.ltb r 70) eqn:Cb2;
    destruct (Py.gtb (volume_ratio a) (15 # 10)) eqn:Cc;
    destruct (Py.gtb (change_rate a) (- (3))) eqn:Cd;
    cbn; reflect_tests;
    (split;
     [ intros G; try discriminate G;
       exists m5, m20, r; repeat split; try reflexivity;
       unfold at_least_three; tauto
     | intros (x5 & x20 & xr & X5 & X20 & Xr & Q3);
       injection X5 as <-; injection X20 as <-; injection Xr as <-;
       unfold at_least_three in Q3; try reflexivity; tauto ]).
Qed.

(** Without one of the three indicators there is no buy. *)
Lemma should_buy_absent (a : Analysis) :
  ma5 a = None \/ ma20 a = None \/ rsi a = None ->
  should_buy (Some a) = false.
Proof.
  intros H. unfold should_buy. cbn [forallb].
  destruct (ma5 a), (ma20 a), (rsi a);
    try reflexivity; destruct H as [H | [H | H]]; try discriminate H;
    cbn [Py.truthy]; rewrite ?andb_false_r; reflexivity.
Qed.

(** C1 (the code departs from the claim).  In a market whose last
    fourteen moves are all downward the RSI is exactly zero, and the
    presence test of [should_buy] takes that zero for a missing value:
    golden cross, volume ratio and change rate hold, three of the four
    conditions, and yet the code does not buy. *)
Theorem should_buy_rejects_zero_rsi :
  fst (analyze_stock falling_world "005930" []) = Ok (Some falling_analysis)
  /\ rsi falling_analysis = Some (0 # 14)
  /\ buy_rule falling_analysis
  /\ should_buy (Some falling_analysis) = false.
Proof.
  split; [vm_compute; reflexivity|].
  split; [reflexivity|].
  split; [|vm_compute; reflexivity].
  exists (4995 # 5), (14991 # 20), (0 # 14).
  repeat split; try reflexivity.
  right; right; left.
  repeat split; reflexivity.
Qed.

(** The truth value of [v and rest] when [v] is absent or not zero. *)
Lemma truthy_and_not_zero (v : option Q) (rest : Q -> bool) :
  not_zero v ->
  (truthy_and v rest = true <-> exists x, v = Some x /\ rest x = true).
Proof.
  intros N. destruct v as [x|]; simpl in *.
  - apply PyFacts.truthy_some in N. simpl in N. rewrite N.
    split.
    + intros H. exists x. auto.
    + intros (y & E & H). injection E as ->. exact H.
  - split; [discriminate|]. intros (y & E & _). discriminate E.
Qed.

(** C2 (amended).  For an analysis and a holding, both present, with a
    buying price other than zero and with ma5 and ma20 not zero when
    present, [should_sell] returns a boolean, and it is true exactly
    when at least one of stop-loss, take-profit, dead cross, overbought
    holds: a disjunction, not a quorum. *)
Theorem should_sell_any_condition (self : Config) (a : Analysis) (h : Holding) :
  buy_price h <> 0%Z -> not_zero (ma5 a) -> not_zero (ma20 a) ->
  exists sell,
    should_sell self (Some a) (Some h) = Ok sell
    /\ (sell = true <-> sell_rule self a h).
Proof.
  intros Hbuy N5 N20.
  assert (Hq : ~ inject_Z (buy_price h) == 0).
  { intros E. apply Hbuy. unfold Qeq in E. simpl in E. lia. }
  unfold should_sell. rewrite (PyFacts.div_nonzero _ _ Hq). cbn [bind].
  eexists. split; [reflexivity|].
  unfold sell_rule, profit_rate_of.
  cbn [existsb]. rewrite orb_false_r, !orb_true_iff.
  rewrite PyFacts.leb_true, PyFacts.geb_true.
  rewrite (truthy_and_not_zero (ma5 a) _ N5).
  assert (Hrsi : truthy_and (rsi a) (fun a_rsi => Py.gtb a_rsi 80) = true
                 <-> exists r, rsi a = Some r /\ 80 < r).
  { destruct (rsi a) as [r|]; simpl.
    - destruct (Qeq_bool r 0) eqn:E; simpl.
      + apply Qeq_bool_iff in E. split; [discriminate|].
        intros (r' & Er & Hr). injection Er as <-. rewrite E in Hr.
        discriminate Hr.
      + rewrite PyFacts.gtb_true. split.
        * intros H. exists r. auto.
        * intros (r' & Er & Hr). injection Er as <-. exact Hr.
    - split; [discriminate|]. intros (r' & Er & _). discriminate Er. }
  rewrite Hrsi.
  assert (Hma : (exists x, ma5 a = Some x /\
                   truthy_and (ma20 a) (fun a_ma20 => Py.ltb x a_ma20) = true)
                <-> exists m5 m20, ma5 a = Some m5 /\ ma20 a = Some m20 /\ m5 < m20).
  { split.
    - intros (x & E5 & H20).
      apply (truthy_and_not_zero (ma20 a) _ N20) in H20.
      destruct H20 as (y & E20 & Hlt). apply PyFacts.ltb_true in Hlt.
      exists x, y. auto.
    - intros (x & y & E5 & E20 & Hlt). exists x. split; [exact E5|].
      apply (truthy_and_not_zero (ma20 a) _ N20).
      exists y. split; [exact E20|]. apply PyFacts.ltb_true. exact Hlt. }
  rewrite Hma. tauto.
Qed.

(** The amended C2 at a take-profit: 12 percent above the buying price,
    no indicator present, and the code sells. *)
Lemma should_sell_any_condition_witness :
  exists sell,
    should_sell default_config (Some gain_analysis) (Some par_holding) = Ok sell
    /\ (sell = true <-> sell_rule default_config gain_analysis par_holding).
Proof.
  apply (should_sell_any_condition default_config gain_analysis par_holding).
  - simpl. lia.
  - simpl. exact I.
  - simpl. exact I.
Defined.

(** C2 as stated fails at two inputs: with a buying price of zero the
    call raises and returns no decision; with a five-day average of zero
    below the twenty-day average the dead cross of the claim holds, yet
    the code returns false. *)
Lemma should_sell_claim_fails :
  (should_sell default_config (Some falling_analysis) (Some free_holding)
   = Raise ZeroDivisionError
   /\ ~ (exists sell,
           should_sell default_config (Some falling_analysis) (Some free_holding)
           = Ok sell))
  /\ (sell_rule default_config zero_ma5_analysis par_holding
      /\ should_sell default_config (Some zero_ma5_analysis) (Some par_holding)
         = Ok false).
Proof.
  split.
  - split; [vm_compute; reflexivity|].
    intros [sell H]. vm_compute in H. discriminate H.
  - split; [|vm_compute; reflexivity].
    right; right; left. exists 0, 5. repeat split; reflexivity.
Qed.

End SignalEvaluator.

(** ** Portfolio tracker *)

Section PortfolioTracker.

Lemma dict_get_keys {V : Type} (k : string) (d : dict V) :
  dict_get k d = None <-> ~ In k (dict_keys d).
Proof.
  induction d as [|[k' v'] d IH]; simpl.
  - tauto.
  - destruct (String.eqb_spec k k') as [->|Hne].
    + split; [discriminate|]. intros H. exfalso. apply H. now left.
    + rewrite IH. split.
      * intros H [E|Hin]; [congruence|contradiction].
      * intros H Hin. apply H. now right.
Qed.

(** An assignment keeps the keys, or adds the new key at the end. *)
Lemma dict_set_keys {V : Type} (k : string) (v : V) (d : dict V) :
  dict_keys (dict_set k v d)
  = if dict_mem k d then dict_keys d else (dict_keys d ++ [k])%list.
Proof.
  unfold dict_mem.
  induction d as [|[k' v'] d IH]; simpl.
  - reflexivity.
  - destruct (String.eqb_spec k k') as [->|Hne]; simpl.
    + reflexivity.
    + rewrite IH. destruct (dict_get k d); reflexivity.
Qed.

Lemma dict_set_NoDup {V : Type} (k : string) (v : V) (d : dict V) :
  NoDup (dict_keys d) -> NoDup (dict_keys (dict_set k v d)).
Proof.
  intros H. rewrite dict_set_keys. unfold dict_mem.
  destruct (dict_get k d) eqn:E; [exact H|].
  apply dict_get_keys in E.
  apply NoDup_app; [exact H | repeat constructor; intros [] | ].
  intros x Hx [->|[]]. contradiction.
Qed.

Lemma dict_set_Forall {V : Type} (P : string * V -> Prop) (k : string)
      (v : V) (d : dict V) :
  Forall P d -> P (k, v) -> Forall P (dict_set k v d).
Proof.
  intros Hd Hv. induction d as [|[k' v'] d IH]; simpl.
  - constructor; [exact Hv | constructor].
  - inversion Hd as [|? ? Hhd Htl]; subst.
    destruct (String.eqb k k'); constructor; auto.
Qed.

Variable int_of_str : string -> result Z.

(** The loop keeps the keys distinct and the quantities positive, and
    every holding stems from an entry of the payload. *)
Lemma collect_holdings_invariant (all stocks : list Stock) :
  forall acc res,
    collect_holdings int_of_str stocks acc = Ok res ->
    incl stocks all ->
    NoDup (dict_keys acc) -> all_held acc ->
    Forall (reported int_of_str all) acc ->
    NoDup (dict_keys res) /\ all_held res
    /\ Forall (reported int_of_str all) res.
Proof.
  induction stocks as [|stock rest IH]; intros acc res Hrun Hincl Hnd Hall Hrep.
  - simpl in Hrun. injection Hrun as <-. auto.
  - simpl in Hrun.
    assert (Hin : In stock all) by (apply Hincl; now left).
    assert (Hrest : incl rest all)
      by (intros x Hx; apply Hincl; now right).
    destruct (int_of_str (hldg_qty stock)) as [qty|] eqn:Eq;
      [|discriminate Hrun].
    cbn [bind] in Hrun.
    destruct (qty >? 0)%Z eqn:Epos.
    + destruct (int_of_str (pchs_avg_pric stock)); [|discriminate Hrun].
      destruct (int_of_str (evlu_amt stock)); [|discriminate Hrun].
      destruct (int_of_str (evlu_pfls_amt stock)); [|discriminate Hrun].
      cbn [bind] in Hrun.
      apply IH in Hrun; [exact Hrun | exact Hrest | now apply dict_set_NoDup | | ].
      * apply dict_set_Forall; [exact Hall|]. simpl. lia.
      * apply dict_set_Forall; [exact Hrep|].
        exists stock. simpl. auto.
    + apply IH in Hrun; assumption.
Qed.

Variable world : World.

(** C9 (amended).  A portfolio that [get_portfolio_status] builds counts
    exactly its holdings, holds each symbol once and only with a quantity
    above zero, the quantity of an entry of the payload for that symbol,
    and carries the cash figure of the payload unchanged. *)
Theorem portfolio_invariant (t t' : trace) (p : Portfolio) :
  get_portfolio_status int_of_str world t = (Ok (Some p), t') ->
  position_count p = Z.of_nat (length (holdings p))
  /\ all_held (holdings p)
  /\ NoDup (dict_keys (holdings p))
  /\ exists b,
      get_balance world t = Ok (Some b)
      /\ cash p = balance_cash b
      /\ Forall (reported int_of_str (balance_stocks b)) (holdings p).
Proof.
  unfold get_portfolio_status, and_then, call, lift, portfolio_of.
  destruct (get_balance world t) as [[b|]|] eqn:Eb; try discriminate.
  destruct (collect_holdings int_of_str (balance_stocks b) []) as [hs|] eqn:Eh;
    cbn [bind]; [|discriminate].
  intros H. injection H as <- _.
  apply (collect_holdings_invariant (balance_stocks b)) in Eh;
    [|apply incl_refl|constructor|constructor|constructor].
  destruct Eh as (Hnd & Hall & Hrep). simpl.
  repeat split; try assumption.
  exists b. auto.
Qed.

End PortfolioTracker.

(** C9 at the payload of the design document: of a symbol with quantity 0
    and a symbol with quantity 10 only the second is held. *)
Lemma portfolio_invariant_witness :
  position_count mixed_portfolio = Z.of_nat (length (holdings mixed_portfolio))
  /\ all_held (holdings mixed_portfolio)
  /\ NoDup (dict_keys (holdings mixed_portfolio))
  /\ exists b,
      get_balance (balance_world mixed_balance) [] = Ok (Some b)
      /\ cash mixed_portfolio = balance_cash b
      /\ Forall (reported Py.int_of_decimal (balance_stocks b))
                (holdings mixed_portfolio).
Proof.
  apply (portfolio_invariant Py.int_of_decimal (balance_world mixed_balance)
           [] [Call GetBalance] mixed_portfolio).
  vm_compute. reflexivity.
Defined.

Example mixed_position_count :
  fst (get_portfolio_status Py.int_of_decimal (balance_world mixed_balance) [])
  = Ok (Some mixed_portfolio)
  /\ position_count mixed_portfolio = 1%Z.
Proof. split; [vm_compute; reflexivity | reflexivity]. Qed.

(** C9 as stated fails on the cash: a payload with a deposit total of -1
    yields a portfolio whose cash is -1. *)
Lemma portfolio_cash_negative :
  exists p,
    fst (get_portfolio_status Py.int_of_decimal (balance_world overdrawn_balance) [])
    = Ok (Some p)
    /\ ~ (cash p >= 0)%Z.
Proof.
  eexists. split; [vm_compute; reflexivity|]. simpl. lia.
Qed.

(** C10.  With a buying price of zero the profit-rate division of
    [should_sell] raises ZeroDivisionError, whatever the analysis; and
    [get_portfolio_status] does produce such holdings, since it only
    requires the quantity to be above zero. *)
Theorem should_sell_requires_buy_price (self : Config) (a : Analysis) (h : Holding) :
  buy_price h = 0 ->
  should_sell self (Some a) (Some h) = Raise ZeroDivisionError
  /\ exists p,
      fst (get_portfolio_status Py.int_of_decimal (balance_world free_share_balance) [])
      = Ok (Some p)
      /\ all_held (holdings p)
      /\ Exists (fun entry => buy_price (snd entry) = 0) (holdings p).
Proof.
  intros Hzero. split.
  - unfold should_sell. rewrite Hzero. reflexivity.
  - eexists. split; [vm_compute; reflexivity|]. split.
    + repeat constructor.
    + left. reflexivity.
Qed.

Lemma should_sell_requires_buy_price_witness :
  should_sell default_config (Some falling_analysis) (Some free_holding)
  = Raise ZeroDivisionError.
Proof.
  apply (should_sell_requires_buy_price default_config falling_analysis free_holding).
  reflexivity.
Defined.

(** ** Position sizer *)

Section PositionSizer.

Local Open Scope Q_scope.

(** Truncation and floor agree once negative results are cut off at 0. *)
Lemma int_floor_max (a : PyNum.number) :
  (quantity <- PyNum.int a ;; Ok (Z.max quantity 0))
  = (whole <- floor_of a ;; Ok (Z.max whole 0)).
Proof.
  destruct a as [n|[s|s| |s m e]]; try reflexivity.
  cbn [PyNum.int floor_of bind]. f_equal.
  destruct s; cbn [cond_Zopp Z.opp]; [|reflexivity].
  pose proof (proj2 (Z.shiftl_nonneg (Zpos m) e)) as Hpos.
  pose proof (proj1 (Z.shiftl_nonneg (Zneg m) e)) as Hneg.
  assert (0 <= Z.shiftl (Zpos m) e)%Z by (apply Hpos; lia).
  assert (~ (0 <= Z.shiftl (Zneg m) e))%Z by (intros H0; apply Hneg in H0; lia).
  lia.
Qed.

Lemma float_of_int_zero : PyNum.float_of_int 0 = Ok (S754_zero false).
Proof. reflexivity. Qed.

Lemma float_of_int_raises (n : Z) (e : exn) :
  PyNum.float_of_int n = Raise e -> e = PyNum.OverflowError.
Proof.
  unfold PyNum.float_of_int.
  destruct (binary_normalize PyNum.prec PyNum.emax n 0 false);
    intros H; congruence.
Qed.

(** A product raises OverflowError only. *)
Lemma mul_raises (a b : PyNum.number) (e : exn) :
  PyNum.mul a b = Raise e -> e = PyNum.OverflowError.
Proof.
  destruct a as [m|x], b as [n|y]; cbn [PyNum.mul PyNum.to_float bind];
    try discriminate.
  - destruct (PyNum.float_of_int m) eqn:E; cbn [bind]; [discriminate|].
    intros H. injection H as <-. exact (float_of_int_raises _ _ E).
  - destruct (PyNum.float_of_int n) eqn:E; cbn [bind]; [discriminate|].
    intros H. injection H as <-. exact (float_of_int_raises _ _ E).
Qed.

(** A quotient is a float. *)
Lemma truediv_float (a b c : PyNum.number) :
  PyNum.truediv a b = Ok c -> exists x, c = PyNum.Float x.
Proof.
  destruct a as [m|x], b as [n|y]; cbn [PyNum.truediv PyNum.to_float bind].
  - destruct n as [|d|d]; [discriminate| |].
    + destruct (PyNum.nearest m d); intros H; try discriminate;
        injection H as <-; eexists; reflexivity.
    + destruct (PyNum.nearest (- m) d); intros H; try discriminate;
        injection H as <-; eexists; reflexivity.
  - destruct (PyNum.float_of_int m); cbn [bind]; [|discriminate].
    destruct (PyNum.is_zero y); [discriminate|].
    intros H. injection H as <-. eexists; reflexivity.
  - destruct (PyNum.float_of_int n); cbn [bind]; [|discriminate].
    destruct (PyNum.is_zero a); [discriminate|].
    intros H. injection H as <-. eexists; reflexivity.
  - destruct (PyNum.is_zero y); [discriminate|].
    intros H. injection H as <-. eexists; reflexivity.
Qed.

(** A quotient raises ZeroDivisionError or OverflowError only. *)
Lemma truediv_raises (a b : PyNum.number) (e : exn) :
  PyNum.truediv a b = Raise e ->
  e = ZeroDivisionError \/ e = PyNum.OverflowError.
Proof.
  destruct a as [m|x], b as [n|y]; cbn [PyNum.truediv PyNum.to_float bind].
  - destruct n as [|d|d]; [intros H; injection H as <-; auto | |].
    + destruct (PyNum.nearest m d); intros H; try discriminate;
        injection H as <-; auto.
    + destruct (PyNum.nearest (- m) d); intros H; try discriminate;
        injection H as <-; auto.
  - destruct (PyNum.float_of_int m) eqn:E; cbn [bind].
    + destruct (PyNum.is_zero y); intros H; [injection H as <-; auto|discriminate].
    + intros H. injection H as <-. right. exact (float_of_int_raises _ _ E).
  - destruct (PyNum.float_of_int n) eqn:E; cbn [bind].
    + destruct (PyNum.is_zero a); intros H; [injection H as <-; auto|discriminate].
    + intros H. injection H as <-. right. exact (float_of_int_raises _ _ E).
  - destruct (PyNum.is_zero y); intros H; [injection H as <-; auto|discriminate].
Qed.

(** A quotient by zero raises: ZeroDivisionError, unless the conversion of
    the dividend has raised OverflowError before. *)
Lemma truediv_zero (a b : PyNum.number) :
  b = PyNum.Int 0 \/ (exists s, b = PyNum.Float (S754_zero s)) ->
  PyNum.truediv a b = Raise ZeroDivisionError
  \/ PyNum.truediv a b = Raise PyNum.OverflowError.
Proof.
  intros [->|[s ->]]; destruct a as [m|x];
    cbn [PyNum.truediv PyNum.to_float bind PyNum.is_zero];
    rewrite ?float_of_int_zero; cbn [bind PyNum.is_zero]; auto.
  destruct (PyNum.float_of_int m) eqn:E; cbn [bind PyNum.is_zero]; auto.
  right. f_equal. exact (float_of_int_raises _ _ E).
Qed.

(** The literal of zero is a zero. *)
Lemma literal_zero (q : Q) :
  q == 0 ->
  PyNum.literal q = PyNum.Int 0
  \/ exists s, PyNum.literal q = PyNum.Float (S754_zero s).
Proof.
  intros Hq. destruct q as [n d]. unfold Qeq in Hq. cbn in Hq.
  assert (n = 0%Z) by lia. subst n.
  unfold PyNum.literal. cbn [Qnum Qden].
  destruct d; [right; exists false; reflexivity
              |right; exists false; reflexivity
              |left; reflexivity].
Qed.

(** C7 (amended).  [calculate_position_size] follows the size rule of the
    design document, floor((cash x ratio) / count / price) floored to
    >= 0, with the product and the quotients of Python: a float nearest to
    each exact result.  A size that it returns is never negative, and the
    rule reads the configured ratio and count only, no holding.  With a
    count or a price of zero the call raises. *)
Theorem calculate_position_size_floor (self : Config)
        (stock_price available_cash : Z) :
  calculate_position_size self stock_price available_cash
  = size_rule stock_price available_cash
              (PyNum.literal (max_invest_ratio self))
              (PyNum.literal (max_position_count self))
  /\ (forall size,
        calculate_position_size self stock_price available_cash = Ok size ->
        (0 <= size)%Z)
  /\ (max_position_count self == 0 \/ stock_price = 0%Z ->
      calculate_position_size self stock_price available_cash
      = Raise ZeroDivisionError
      \/ calculate_position_size self stock_price available_cash
         = Raise PyNum.OverflowError).
Proof.
  unfold calculate_position_size, size_rule.
  destruct (PyNum.mul (PyNum.Int available_cash)
                      (PyNum.literal (max_invest_ratio self)))
    as [invested|e] eqn:Emul; cbn [bind].
  - destruct (PyNum.truediv invested (PyNum.literal (max_position_count self)))
      as [per_position|e] eqn:Ecount; cbn [bind].
    + destruct (PyNum.truediv per_position (PyNum.Int stock_price))
        as [shares|e] eqn:Eprice; cbn [bind].
      * split; [apply int_floor_max|]. split.
        -- intros size. destruct (PyNum.int shares); cbn [bind]; [|discriminate].
           intros H. injection H as <-. lia.
        -- intros [Hcount|Hprice].
           ++ destruct (truediv_zero invested _ (literal_zero _ Hcount));
                congruence.
           ++ subst stock_price.
              destruct (truediv_zero per_position (PyNum.Int 0)); [auto | |];
                congruence.
      * split; [reflexivity|]. split; [discriminate|]. intros _.
        destruct (truediv_raises _ _ _ Eprice) as [->| ->]; auto.
    + split; [reflexivity|]. split; [discriminate|]. intros _.
      destruct (truediv_raises _ _ _ Ecount) as [->| ->]; auto.
  - split; [reflexivity|]. split; [discriminate|].
    intros _. right. f_equal. exact (mul_raises _ _ _ Emul).
Qed.

(** The amended C7 at the figures of the design document:
    size(50000, 1000000, 0.8, 5) = 3. *)
Lemma calculate_position_size_floor_witness :
  calculate_position_size default_config 50000 1000000 = Ok 3%Z.
Proof.
  rewrite (proj1 (calculate_position_size_floor default_config 50000 1000000)).
  vm_compute. reflexivity.
Defined.

(** C7 as stated fails on the rounding of floats: with a ratio of 0.7, a
    count of 5, a cash of 85000 and a price of 1700 the exact quotient is
    7, the float quotient is just below, and the size is 6. *)
Lemma calculate_position_size_rounds_down :
  calculate_position_size cautious_config 1700 85000 = Ok 6%Z
  /\ exact_size 1700 85000 (max_invest_ratio cautious_config)
                (max_position_count cautious_config) = 7%Z.
Proof. split; vm_compute; reflexivity. Qed.

(** With a configured maximum position count of zero the call raises and
    returns no size. *)
Lemma calculate_position_size_zero_count :
  calculate_position_size no_position_config 50000 1000000
  = Raise ZeroDivisionError
  /\ ~ (exists size,
          calculate_position_size no_position_config 50000 1000000 = Ok size).
Proof.
  split; [vm_compute; reflexivity|].
  intros [size H]. vm_compute in H. discriminate H.
Qed.



End PositionSizer.

(** ** Market hours *)

Section MarketHours.

Lemma time_le_micros (a b : time) :
  0 <= minute a < 60 -> 0 <= second a < 60 -> 0 <= microsecond a < 1000000 ->
  0 <= minute b < 60 -> 0 <= second b < 60 -> 0 <= microsecond b < 1000000 ->
  (time_le a b = true <-> micros_of_day a <= micros_of_day b).
Proof.
  intros Hma Hsa Hua Hmb Hsb Hub.
  unfold time_le, time_compare, micros_of_day.
  destruct (Z.compare_spec (hour a) (hour b));
    destruct (Z.compare_spec (minute a) (minute b));
    destruct (Z.compare_spec (second a) (second b));
    destruct (Z.compare_spec (microsecond a) (microsecond b));
    split; intros G; try reflexivity; try discriminate G; lia.
Qed.

(** [market_open_at] decides the market hours. *)
Lemma market_open_at_hours (d : datetime) :
  valid_datetime d -> (market_open_at d = true <-> market_hours d).
Proof.
  intros (Hw & Hh & Hm & Hs & Hu).
  unfold market_open_at, market_hours.
  destruct (Z.geb_spec (weekday d) 5) as [Hge|Hlt].
  - split; [discriminate|]. intros [Hwd _]. lia.
  - rewrite andb_true_iff.
    rewrite !time_le_micros by (simpl; lia).
    split; [intros [H1 H2]|intros (_ & H1 & H2)]; repeat split; lia.
Qed.

Variable int_of_str : string -> result Z.
Variable world : World.
Variable self : Config.

(** C8.  [is_market_open] answers true exactly from Monday to Friday
    between 09:00 and 15:30, both included; when it answers false,
    [run_strategy] returns normally after one log line, without a call
    on the gateway. *)
Theorem market_hours_gate (t : trace) :
  valid_datetime (now world t) ->
  (is_market_open world t = (Ok true, t) <-> market_hours (now world t))
  /\ (is_market_open world t = (Ok false, t) ->
      run_strategy int_of_str world self t
      = (Ok tt, (t ++ [Log INFO MarketClosed])%list)
      /\ api_calls (snd (run_strategy int_of_str world self t)) = api_calls t).
Proof.
  intros Hvalid. split.
  - rewrite <- (market_open_at_hours _ Hvalid). unfold is_market_open.
    split; [intros H; injection H as H; exact H | intros ->; reflexivity].
  - unfold is_market_open. intros H. injection H as H.
    assert (Hrun : run_strategy int_of_str world self t
                   = (Ok tt, (t ++ [Log INFO MarketClosed])%list)).
    { unfold run_strategy, and_then, is_market_open. rewrite H. reflexivity. }
    split; [exact Hrun|].
    rewrite Hrun. cbn [snd]. unfold api_calls.
    rewrite flat_map_app. simpl. apply app_nil_r.
Qed.

End MarketHours.

(** C8 half a minute after the close on a Friday: the market is closed and
    the cycle only logs. *)
Lemma market_hours_gate_witness :
  ~ market_hours friday_after_close
  /\ run_strategy Py.int_of_decimal (clock_world friday_after_close) default_config []
     = (Ok tt, [Log INFO MarketClosed]).
Proof.
  destruct (market_hours_gate Py.int_of_decimal (clock_world friday_after_close)
              default_config []) as [Hiff Hclosed].
  - unfold valid_datetime. simpl. lia.
  - split.
    + intros Hopen. apply Hiff in Hopen. discriminate Hopen.
    + apply Hclosed. reflexivity.
Defined.

(** ** Indicator engine *)

Section IndicatorEngine.

Local Open Scope Q_scope.

Lemma deltas_cons (a b : Q) (rest : list Q) :
  deltas (a :: b :: rest) = (b - a) :: deltas (b :: rest).
Proof.
  unfold deltas. cbn [length Nat.sub].
  rewrite Nat.sub_0_r.
  change (seq 1 (S (length rest))) with (1%nat :: seq 2 (length rest)).
  cbn [map]. f_equal.
  rewrite <- seq_shift, map_map.
  apply map_ext_in. intros i Hi. apply in_seq in Hi.
  destruct i as [|i]; [lia|].
  cbn [nth Nat.sub]. rewrite Nat.sub_0_r. reflexivity.
Qed.

(** The comprehension over indices computes the consecutive deltas. *)
Lemma deltas_consecutive (prices : list Q) :
  deltas prices = consecutive_deltas prices.
Proof.
  destruct prices as [|a rest]; [reflexivity|].
  revert a. induction rest as [|b rest IH]; intros a.
  - reflexivity.
  - rewrite deltas_cons, IH. reflexivity.
Qed.

Lemma gain_of_code (delta : Q) :
  (if Py.gtb delta 0 then delta else 0) = gain_of delta.
Proof.
  unfold gain_of. destruct (Qlt_le_dec 0 delta) as [H|H].
  - apply PyFacts.gtb_true in H. rewrite H. reflexivity.
  - destruct (Py.gtb delta 0) eqn:E; [|reflexivity].
    apply PyFacts.gtb_true in E. exfalso. exact (Qlt_not_le _ _ E H).
Qed.

Lemma loss_of_code (delta : Q) :
  (if Py.ltb delta 0 then - delta else 0) = loss_of delta.
Proof.
  unfold loss_of. destruct (Qlt_le_dec delta 0) as [H|H].
  - apply PyFacts.ltb_true in H. rewrite H. reflexivity.
  - destruct (Py.ltb delta 0) eqn:E; [|reflexivity].
    apply PyFacts.ltb_true in E. exfalso. exact (Qlt_not_le _ _ E H).
Qed.

(** [xs[-period:]] is the last [period] values when [period > 0]. *)
Lemma slice_from_last {A : Type} (xs : list A) (period : Z) :
  (0 < period)%Z ->
  Py.slice_from xs (- period) = last_n (Z.to_nat period) xs.
Proof.
  intros Hp. unfold Py.slice_from, last_n.
  destruct (Z.ltb_spec (- period) 0) as [_|H]; [|lia].
  f_equal. lia.
Qed.

Lemma gain_of_nonneg (delta : Q) : 0 <= gain_of delta.
Proof.
  unfold gain_of. destruct (Qlt_le_dec 0 delta) as [H|H].
  - apply Qlt_le_weak, H.
  - apply Qle_refl.
Qed.

Lemma loss_of_nonneg (delta : Q) : 0 <= loss_of delta.
Proof.
  unfold loss_of. destruct (Qlt_le_dec delta 0) as [H|H].
  - lra.
  - apply Qle_refl.
Qed.

Lemma fold_sum_nonneg (xs : list Q) :
  forall acc, 0 <= acc -> Forall (fun x => 0 <= x) xs ->
              0 <= fold_left Qplus xs acc.
Proof.
  induction xs as [|x xs IH]; intros acc Hacc Hxs; simpl.
  - exact Hacc.
  - inversion Hxs as [|? ? Hx Hrest]; subst.
    apply IH; [lra | exact Hrest].
Qed.

Lemma sum_nonneg (xs : list Q) :
  Forall (fun x => 0 <= x) xs -> 0 <= Py.sum xs.
Proof. intros H. apply fold_sum_nonneg; [apply Qle_refl | exact H]. Qed.

Lemma fold_sum_zero (xs : list Q) :
  forall acc, acc == 0 -> Forall (fun x => x == 0) xs ->
              fold_left Qplus xs acc == 0.
Proof.
  induction xs as [|x xs IH]; intros acc Hacc Hxs; simpl.
  - exact Hacc.
  - inversion Hxs as [|? ? Hx Hrest]; subst.
    apply IH; [rewrite Hacc, Hx; reflexivity | exact Hrest].
Qed.

Lemma Forall_skipn {A : Type} (P : A -> Prop) (n : nat) (xs : list A) :
  Forall P xs -> Forall P (skipn n xs).
Proof.
  intros H. rewrite <- (firstn_skipn n xs) in H.
  apply Forall_app in H. exact (proj2 H).
Qed.

Lemma Forall_map_all {A B : Type} (P : B -> Prop) (f : A -> B) (xs : list A) :
  (forall x, P (f x)) -> Forall P (map f xs).
Proof. intros H. induction xs; simpl; constructor; auto. Qed.

Lemma last_n_map {A B : Type} (f : A -> B) (n : nat) (xs : list A) :
  last_n n (map f xs) = map f (last_n n xs).
Proof. unfold last_n. rewrite length_map, skipn_map. reflexivity. Qed.

Lemma inject_Z_nonzero (z : Z) : z <> 0%Z -> ~ inject_Z z == 0.
Proof. intros H E. apply H. unfold Qeq in E. simpl in E. lia. Qed.

(** Averages of non-negative sums over the same window have a
    non-negative ratio, whatever the sign of the divisor. *)
Lemma rs_nonneg (G L P : Q) :
  0 <= G -> 0 <= L -> ~ P == 0 -> ~ L / P == 0 -> 0 <= (G / P) / (L / P).
Proof.
  intros HG HL HP HLP.
  assert (HL0 : ~ L == 0).
  { intros E. apply HLP. rewrite E. unfold Qdiv. apply Qmult_0_l. }
  assert (HLpos : 0 < L).
  { destruct (Qlt_le_dec 0 L) as [H|H]; [exact H|].
    exfalso. apply HL0. apply Qle_antisym; assumption. }
  assert (E : (G / P) / (L / P) == G / L) by (field; split; assumption).
  rewrite E. apply Qle_shift_div_l; [exact HLpos | lra].
Qed.

Lemma rsi_formula_bounds (rs : Q) :
  0 <= rs -> 0 <= 100 - 100 / (1 + rs) /\ 100 - 100 / (1 + rs) <= 100.
Proof.
  intros Hrs.
  assert (Hy : 0 < 1 + rs) by lra.
  assert (Hupper : 100 / (1 + rs) <= 100)
    by (apply Qle_shift_div_r; [exact Hy | lra]).
  assert (Hlower : 0 <= 100 / (1 + rs))
    by (apply Qle_shift_div_l; [exact Hy | lra]).
  set (q := 100 / (1 + rs)) in *. split; lra.
Qed.

Lemma window_gains_nonneg (prices : list Q) (k : Z) :
  0 <= Py.sum (Py.slice_from (map gain_of (deltas prices)) k).
Proof.
  apply sum_nonneg, Forall_skipn, Forall_map_all, gain_of_nonneg.
Qed.

Lemma window_losses_nonneg (prices : list Q) (k : Z) :
  0 <= Py.sum (Py.slice_from (map loss_of (deltas prices)) k).
Proof.
  apply sum_nonneg, Forall_skipn, Forall_map_all, loss_of_nonneg.
Qed.

(** C6.  Whenever [calculate_rsi] returns a value, whatever the period,
    the value lies between 0 and 100, both included. *)
Theorem calculate_rsi_bounded (prices : list Q) (period : Z) (v : Q) :
  calculate_rsi prices period = Ok (Some v) -> 0 <= v /\ v <= 100.
Proof.
  unfold calculate_rsi.
  destruct (Z.of_nat (length prices) <? period + 1)%Z; [discriminate|].
  cbv zeta.
  rewrite (map_ext _ gain_of gain_of_code), (map_ext _ loss_of loss_of_code).
  pose proof (window_gains_nonneg prices (- period)) as HG.
  pose proof (window_losses_nonneg prices (- period)) as HL.
  set (G := Py.sum (Py.slice_from (map gain_of (deltas prices)) (- period))) in *.
  set (L := Py.sum (Py.slice_from (map loss_of (deltas prices)) (- period))) in *.
  set (P := inject_Z period).
  destruct (Py.div G P) as [avg_gain|] eqn:Eg; [|discriminate].
  apply PyFacts.div_ok_inv in Eg. destruct Eg as [HP ->].
  rewrite (PyFacts.div_nonzero L P HP). cbn [bind].
  destruct (Qeq_bool (L / P) 0) eqn:Ez.
  - intros H. injection H as <-. split; lra.
  - assert (HLP : ~ L / P == 0).
    { intros E. apply Qeq_bool_iff in E. congruence. }
    pose proof (rs_nonneg G L P HG HL HP HLP) as Hrs.
    rewrite (PyFacts.div_nonzero _ _ HLP). cbn [bind].
    rewrite PyFacts.div_nonzero by lra. cbn [bind].
    intros H. injection H as <-.
    apply rsi_formula_bounds, Hrs.
Qed.

Lemma calculate_rsi_bounded_witness :
  0 <= 28000 # 364 /\ 28000 # 364 <= 100.
Proof.
  apply (calculate_rsi_bounded zigzag_closes default_rsi_period).
  vm_compute. reflexivity.
Defined.

(** The code computes the RSI of the design, for every positive period. *)
Lemma calculate_rsi_refines (closes : list Q) (period : Z) :
  (0 < period)%Z ->
  calculate_rsi closes period = Ok (rsi_rule closes (Z.to_nat period)).
Proof.
  intros Hp. unfold calculate_rsi, rsi_rule.
  destruct (Z.ltb_spec (Z.of_nat (length closes)) (period + 1)) as [Hlen|Hlen];
    destruct (Nat.ltb_spec (length closes) (Z.to_nat period + 1)) as [Hn|Hn];
    try lia; [reflexivity|].
  cbv zeta.
  rewrite (map_ext _ gain_of gain_of_code), (map_ext _ loss_of loss_of_code).
  pose proof (window_gains_nonneg closes (- period)) as HG.
  pose proof (window_losses_nonneg closes (- period)) as HL.
  unfold average_gain, average_loss, average_of_last.
  rewrite <- deltas_consecutive, <- !slice_from_last by exact Hp.
  rewrite Z2Nat.id by lia.
  set (G := Py.sum (Py.slice_from (map gain_of (deltas closes)) (- period))) in *.
  set (L := Py.sum (Py.slice_from (map loss_of (deltas closes)) (- period))) in *.
  assert (HP : ~ inject_Z period == 0) by (apply inject_Z_nonzero; lia).
  rewrite !(PyFacts.div_nonzero _ _ HP). cbn [bind].
  destruct (Qeq_dec (L / inject_Z period) 0) as [Ez|Ez].
  - apply Qeq_bool_iff in Ez. rewrite Ez. reflexivity.
  - destruct (Qeq_bool (L / inject_Z period) 0) eqn:Eb.
    + apply Qeq_bool_iff in Eb. contradiction.
    + pose proof (rs_nonneg G L _ HG HL HP Ez) as Hrs.
      rewrite (PyFacts.div_nonzero _ _ Ez). cbn [bind].
      rewrite PyFacts.div_nonzero by lra. reflexivity.
Qed.

(** With no falling delta in the window the average loss is zero. *)
Lemma average_loss_zero (closes : list Q) (period : nat) :
  Forall (fun delta => 0 <= delta) (last_n period (consecutive_deltas closes)) ->
  average_loss closes period == 0.
Proof.
  intros Hup. unfold average_loss, average_of_last.
  rewrite last_n_map.
  assert (Hsum : Py.sum (map loss_of (last_n period (consecutive_deltas closes))) == 0).
  { apply fold_sum_zero; [reflexivity|].
    induction Hup as [|d ds Hd _ IH]; simpl; constructor; [|exact IH].
    unfold loss_of. destruct (Qlt_le_dec d 0) as [Hneg|_]; [|reflexivity].
    exfalso. exact (Qlt_not_le _ _ Hneg Hd). }
  rewrite Hsum. unfold Qdiv. apply Qmult_0_l.
Qed.

(** C5.  For a positive period (14 by default) [calculate_rsi] is the
    RSI of the design: absent with fewer than [period + 1] closes;
    otherwise, from the consecutive deltas, with gains and losses
    averaged over the last [period] deltas, 100 when the average loss is
    zero, as when no delta of the window is negative, and
    100 - 100 / (1 + avgGain / avgLoss) when it is not. *)
Theorem calculate_rsi_rule (closes : list Q) (period : Z) :
  (0 < period)%Z ->
  calculate_rsi closes period = Ok (rsi_rule closes (Z.to_nat period))
  /\ ((Z.of_nat (length closes) < period + 1)%Z ->
      calculate_rsi closes period = Ok None)
  /\ ((period + 1 <= Z.of_nat (length closes))%Z ->
      let avg_gain := average_gain closes (Z.to_nat period) in
      let avg_loss := average_loss closes (Z.to_nat period) in
      (avg_loss == 0 -> calculate_rsi closes period = Ok (Some 100))
      /\ (Forall (fun delta => 0 <= delta)
                 (last_n (Z.to_nat period) (consecutive_deltas closes)) ->
          calculate_rsi closes period = Ok (Some 100))
      /\ (~ avg_loss == 0 ->
          calculate_rsi closes period
          = Ok (Some (100 - 100 / (1 + avg_gain / avg_loss))))).
Proof.
  intros Hp. pose proof (calculate_rsi_refines closes period Hp) as Hrun.
  split; [exact Hrun|]. rewrite Hrun. unfold rsi_rule.
  split.
  - intros Hlen.
    destruct (Nat.ltb_spec (length closes) (Z.to_nat period + 1)); [reflexivity|lia].
  - intros Hlen. cbv zeta.
    destruct (Nat.ltb_spec (length closes) (Z.to_nat period + 1)); [lia|].
    set (avg_gain := average_gain closes (Z.to_nat period)).
    set (avg_loss := average_loss closes (Z.to_nat period)).
    assert (Hzero : avg_loss == 0 ->
                    Ok (if Qeq_dec avg_loss 0 then Some 100
                        else Some (100 - 100 / (1 + avg_gain / avg_loss)))
                    = Ok (Some 100)).
    { intros Ez. destruct (Qeq_dec avg_loss 0); [reflexivity|contradiction]. }
    split; [exact Hzero|]. split.
    + intros Hup. apply Hzero. apply average_loss_zero, Hup.
    + intros Hnz. destruct (Qeq_dec avg_loss 0); [contradiction|reflexivity].
Qed.

Lemma calculate_rsi_rule_witness :
  calculate_rsi zigzag_closes 14 = Ok (rsi_rule zigzag_closes 14).
Proof.
  assert (Hperiod : (0 < 14)%Z) by reflexivity.
  exact (proj1 (calculate_rsi_rule zigzag_closes 14 Hperiod)).
Defined.

(** Fifteen closes that never fall give an RSI of 100; with fourteen
    closes there is no RSI. *)
Example calculate_rsi_rising :
  calculate_rsi (map inject_Z (Py.range 15)) default_rsi_period = Ok (Some 100)
  /\ calculate_rsi (map inject_Z (Py.range 14)) default_rsi_period = Ok None.
Proof. split; vm_compute; reflexivity. Qed.

(** A period of zero has no window to average over: with at least one
    close the division by the period raises. *)
Lemma calculate_rsi_zero_period (prices : list Q) :
  prices <> [] -> calculate_rsi prices 0%Z = Raise ZeroDivisionError.
Proof.
  intros Hne. unfold calculate_rsi.
  destruct (Z.ltb_spec (Z.of_nat (length prices)) (0 + 1)%Z) as [Hlen|_].
  - destruct prices; [contradiction|]. simpl in Hlen. lia.
  - reflexivity.
Qed.

End IndicatorEngine.

(** ** Order submission *)

Section OrderSubmission.

Import KISOpenAPI.
Local Open Scope string_scope.

Variable self : Self.
Variable net : Network.

(** An order call, step by step: the account number is split, the
    request is built from the arguments, sent once, and the reply read. *)
Lemma order_run (order : string -> Z -> Z -> string -> action OrderResult)
      (stock_code : string) (quantity price : Z) (order_type : string)
      (t : trace) :
  is_order_call self net order ->
  exists tr_id done,
    order stock_code quantity price order_type t
    = match split "-" (account_no self) with
      | cano :: prdt :: _ =>
          let r := order_request self tr_id cano prdt stock_code quantity price in
          match net t r with
          | Raise e => (Raise e, (t ++ [Http r])%list)
          | Ok response =>
              ( (if (status_code response =? 200)%Z then
                   reply <- response_json response ;;
                   reply_rt_cd <- rt_cd reply ;;
                   if String.eqb reply_rt_cd "0" then
                     number <- output_ORD_NO reply ;;
                     Ok {| order_no := Some number; success := true;
                           message := done |}
                   else
                     reply_msg1 <- msg1 reply ;;
                     Ok {| order_no := None; success := false;
                           message := reply_msg1 |}
                 else Ok {| order_no := None; success := false;
                            message := "주문 실패" |}),
                (t ++ [Http r])%list )
          end
      | _ => (Raise IndexError, t)
      end.
Proof.
  intros [-> | ->];
    [ exists "TTTC0802U", "매수 주문 성공"; unfold buy_order
    | exists "TTTC0801U", "매도 주문 성공"; unfold sell_order ];
    unfold and_then, lift, requests_post, index, pure, order_request;
    (destruct (split "-" (account_no self)) as [|cano [|prdt others]];
     cbn [nth_error];
     [ destruct (price =? 0)%Z; reflexivity
     | destruct (price =? 0)%Z; reflexivity
     | ]);
    (destruct (price =? 0)%Z;
     match goal with
     | |- context [net t ?req] => destruct (net t req) as [response|e]
     end; [|reflexivity| |reflexivity];
     (destruct (status_code response =? 200)%Z; [|reflexivity];
      destruct (response_json response) as [reply|e]; [|reflexivity];
      cbn [bind];
      destruct (rt_cd reply) as [code|e]; [|reflexivity];
      cbn [bind];
      destruct (String.eqb code "0");
      [ destruct (output_ORD_NO reply); reflexivity
      | destruct (msg1 reply); reflexivity ])).
Qed.

(** C4.  In [buy_order] and [sell_order] the [order_type] argument has
    no effect.  For an account number with its two parts the call sends
    exactly one POST, whose order-type code and price follow from the
    price alone (price 0: "01" and "0"; any other price: "00" and the
    price as text) and whose quantity is the quantity as text; for an
    account number without a second part it raises IndexError and sends
    nothing. *)
Theorem order_type_from_price
        (order : string -> Z -> Z -> string -> action OrderResult)
        (stock_code : string) (quantity price : Z) (order_type : string)
        (t : trace) :
  is_order_call self net order ->
  (forall other,
      order stock_code quantity price order_type t
      = order stock_code quantity price other t)
  /\ match nth_error (split "-" (account_no self)) 1 with
     | Some _ =>
         exists r,
           snd (order stock_code quantity price order_type t)
           = (t ++ [Http r])%list
           /\ req_method r = "POST"
           /\ order_fields quantity price r
     | None =>
         order stock_code quantity price order_type t = (Raise IndexError, t)
     end.
Proof.
  intros Horder. split.
  - intros other.
    destruct Horder as [-> | ->]; reflexivity.
  - destruct (order_run order stock_code quantity price order_type t Horder)
      as (tr_id & done & ->).
    destruct (split "-" (account_no self)) as [|cano [|prdt others]];
      cbn [nth_error]; try reflexivity.
    exists (order_request self tr_id cano prdt stock_code quantity price).
    split.
    + cbv zeta.
      destruct (net t (order_request self tr_id cano prdt stock_code
                                     quantity price)); reflexivity.
    + split; [reflexivity|].
      eexists. split; [reflexivity|].
      destruct (price =? 0)%Z; repeat split; reflexivity.
Qed.

End OrderSubmission.

(** C4 on a market buy for a paper account: the one request carries the
    code "01" and the price "0", whatever order type the caller names. *)
Lemma order_type_from_price_witness :
  (forall other,
      KISOpenAPI.buy_order paper_account (scripted [Ok order_accepted])
                           "005930" 10 0 "00" []
      = KISOpenAPI.buy_order paper_account (scripted [Ok order_accepted])
                             "005930" 10 0 other [])
  /\ exists r,
       snd (KISOpenAPI.buy_order paper_account (scripted [Ok order_accepted])
                                 "005930" 10 0 "00" [])
       = ([] ++ [Http r])%list
       /\ req_method r = "POST"%string
       /\ order_fields 10 0 r.
Proof.
  apply (order_type_from_price paper_account (scripted [Ok order_accepted])
           (KISOpenAPI.buy_order paper_account (scripted [Ok order_accepted]))
           "005930" 10 0 "00" []).
  left. reflexivity.
Defined.

(** A market buy and a limit sell as they leave for the broker. *)
Example market_buy_on_the_wire :
  exists r,
    KISOpenAPI.buy_order paper_account (scripted [Ok order_accepted])
                         "005930" 10 0 "00" []
    = (Ok {| order_no := Some "0000117057"%string; success := true;
             message := "매수 주문 성공" |}, [Http r])
    /\ req_data r
       = Some [ ("CANO", "12345678"); ("ACNT_PRDT_CD", "01");
                ("PDNO", "005930"); ("ORD_DVSN", "01");
                ("ORD_QTY", "10"); ("ORD_UNPR", "0") ]%string.
Proof. eexists. split; vm_compute; reflexivity. Qed.

Example limit_sell_on_the_wire :
  exists r,
    snd (KISOpenAPI.sell_order paper_account (scripted [Ok order_accepted])
                               "005930" 7 71500 "01" [])
    = [Http r]
    /\ req_data r
       = Some [ ("CANO", "12345678"); ("ACNT_PRDT_CD", "01");
                ("PDNO", "005930"); ("ORD_DVSN", "00");
                ("ORD_QTY", "7"); ("ORD_UNPR", "71500") ]%string.
Proof. eexists. split; vm_compute; reflexivity. Qed.

(** ** Request executor *)

Section RequestExecutor.

Import KISOpenAPI.

Variable str_upper : string -> string.
Variable net : Network.
Variables method url : string.
Variables headers params data : option (dict string).
Variables timeout max_retries : Z.

Variable r : Request.
Hypothesis method_known :
  request_of str_upper method url headers params data timeout = Some r.

Local Notation "'loop'" :=
  (make_request_loop str_upper net method url headers params data timeout max_retries).
Local Notation "'run'" :=
  (make_request str_upper net method url headers params data timeout max_retries).

(** One attempt sends [r] and yields what the remote end answers. *)
Lemma send_once_known (t : trace) :
  send_once str_upper net method url headers params data timeout t
  = (net t r, (t ++ [Http r])%list).
Proof.
  unfold send_once. unfold request_of in method_known.
  destruct (String.eqb (str_upper method) "GET").
  - injection method_known as <-. reflexivity.
  - destruct (String.eqb (str_upper method) "POST"); [|discriminate].
    injection method_known as <-. reflexivity.
Qed.

Lemma attempts_from_step (k : nat) :
  Z.of_nat k < max_retries ->
  attempts_from k max_retries = Z.of_nat k :: attempts_from (S k) max_retries.
Proof.
  intros Hk. unfold attempts_from.
  replace (Z.to_nat max_retries - k)%nat
    with (S (Z.to_nat max_retries - S k))%nat by lia.
  reflexivity.
Qed.

(** What one pass of the loop does at attempt [k] from the trace [t]. *)
Lemma loop_step (k : nat) (t : trace) :
  Z.of_nat k < max_retries ->
  loop (attempts_from k max_retries) t
  = match net t r with
    | Ok response => (Ok response, (t ++ [Http r])%list)
    | Raise e =>
        if retryable e then
          if Z.of_nat k <? max_retries - 1 then
            loop (attempts_from (S k) max_retries)
                 (t ++ [ Http r;
                         Print (retry_print (Z.of_nat k) max_retries e);
                         Sleep (2 ^ Z.of_nat k) ])%list
          else
            (Raise (exhausted e),
             (t ++ [ Http r;
                     Print (retry_print (Z.of_nat k) max_retries e) ])%list)
        else if is_exception e then
          (Raise e, (t ++ [Http r; Print (UnexpectedError e)])%list)
        else (Raise e, (t ++ [Http r])%list)
    end.
Proof.
  intros Hk. rewrite (attempts_from_step k Hk).
  cbn [make_request_loop]. unfold try_except.
  rewrite send_once_known.
  destruct (net t r) as [response|e]; [reflexivity|].
  destruct e; cbn [retryable retry_print exhausted is_exception];
    cbv beta iota delta [and_then emit sleep lift];
    try destruct (Z.of_nat k <? max_retries - 1);
    rewrite <- ?app_assoc; reflexivity.
Qed.

(** After [k] retried attempts the call stands at attempt [k]. *)
Lemma run_after_retries (k : nat) (t t0 : trace) :
  retried net r max_retries t0 k t ->
  Z.of_nat k < max_retries ->
  run t0 = loop (attempts_from k max_retries) t.
Proof.
  intros Hret. induction Hret as [|k t e Hret IH Hnet Hretry]; intros Hk.
  - unfold make_request, Py.range, attempts_from.
    rewrite Nat.sub_0_r. reflexivity.
  - rewrite IH by lia. rewrite loop_step by lia.
    rewrite Hnet, Hretry.
    destruct (Z.ltb_spec (Z.of_nat k) (max_retries - 1)); [reflexivity|lia].
Qed.

(** C3.  Let the first [k] attempts have met a retryable failure, each
    followed by its wait of [2 ^ i] seconds, and let attempt [k] be within
    [max_retries].  A response to attempt [k] is returned at once,
    whatever its status code, and nothing more is sent.  A failure that is
    not a connect timeout, read timeout or connection error is raised
    again without another attempt (after a printed line when it is an
    [Exception], untouched when it is not).  A retryable failure is
    followed by a wait of [2 ^ k] seconds and attempt [k + 1] when
    [k < max_retries - 1], and by an error raised to the caller when
    attempt [k] was the last. *)
Theorem make_request_retry_policy (k : nat) (t t0 : trace) :
  retried net r max_retries t0 k t ->
  Z.of_nat k < max_retries ->
  match net t r with
  | Ok response => run t0 = (Ok response, (t ++ [Http r])%list)
  | Raise e =>
      if retryable e then
        if Z.of_nat k <? max_retries - 1 then
          run t0
          = loop (attempts_from (S k) max_retries)
                 (t ++ [ Http r;
                         Print (retry_print (Z.of_nat k) max_retries e);
                         Sleep (2 ^ Z.of_nat k) ])%list
        else
          run t0
          = (Raise (exhausted e),
             (t ++ [ Http r;
                     Print (retry_print (Z.of_nat k) max_retries e) ])%list)
      else if is_exception e then
        run t0 = (Raise e, (t ++ [Http r; Print (UnexpectedError e)])%list)
      else run t0 = (Raise e, (t ++ [Http r])%list)
  end.
Proof.
  intros Hret Hk.
  rewrite (run_after_retries k t t0 Hret Hk), (loop_step k t Hk).
  destruct (net t r) as [response|e]; [reflexivity|].
  destruct (retryable e); [|destruct (is_exception e); reflexivity].
  destruct (Z.of_nat k <? max_retries - 1); reflexivity.
Qed.

End RequestExecutor.

(** C3 on a remote end that times out once and then answers 500: the
    first failure is followed by a wait of one second, the response of the
    second attempt is returned as it is, and the third attempt never runs. *)
Lemma make_request_retry_policy_witness :
  KISOpenAPI.make_request KISOpenAPI.upper flaky_net "get" quote_url None None None
                          KISOpenAPI.default_timeout
                          KISOpenAPI.default_max_retries []
  = (Ok server_error,
     [ Http quote_request; Print (TimeoutOccurred 1 3 ConnectTimeout); Sleep 1;
       Http quote_request ]).
Proof.
  assert (Hmethod : request_of KISOpenAPI.upper "get" quote_url None None None
                               KISOpenAPI.default_timeout = Some quote_request)
    by reflexivity.
  assert (Hretried : retried flaky_net quote_request KISOpenAPI.default_max_retries
                             [] 1
                             [ Http quote_request;
                               Print (TimeoutOccurred 1 3 ConnectTimeout);
                               Sleep 1 ]).
  { apply (retried_again flaky_net quote_request KISOpenAPI.default_max_retries
                         [] 0 [] ConnectTimeout).
    - apply retried_none.
    - reflexivity.
    - reflexivity. }
  assert (Hwithin : Z.of_nat 1 < KISOpenAPI.default_max_retries) by reflexivity.
  exact (make_request_retry_policy KISOpenAPI.upper flaky_net "get" quote_url
           None None None
           KISOpenAPI.default_timeout KISOpenAPI.default_max_retries
           quote_request Hmethod 1 _ [] Hretried Hwithin).
Defined.

(** Three refused connections: waits of 1 and 2 seconds, no wait after the
    third failure, and the error reaches the caller. *)
Example make_request_exhausted :
  KISOpenAPI.make_request KISOpenAPI.upper dead_net "GET" quote_url None None None
                          KISOpenAPI.default_timeout
                          KISOpenAPI.default_max_retries []
  = (Raise (ConnectionFailed ConnectionError),
     [ Http quote_request; Print (ConnectionErrorOccurred 1 3 ConnectionError);
       Sleep 1;
       Http quote_request; Print (ConnectionErrorOccurred 2 3 ConnectionError);
       Sleep 2;
       Http quote_request; Print (ConnectionErrorOccurred 3 3 ConnectionError) ]).
Proof. vm_compute. reflexivity. Qed.

(** A method other than GET and POST sends nothing and is not retried;
    the error names the method as it was given. *)
Lemma make_request_unknown_method (str_upper : string -> string)
      (net : KISOpenAPI.Network)
      (method url : string) (headers params data : option (dict string))
      (timeout max_retries : Z) (t : trace) :
  request_of str_upper method url headers params data timeout = None ->
  0 < max_retries ->
  KISOpenAPI.make_request str_upper net method url headers params data timeout max_retries t
  = (Raise (UnsupportedMethod method),
     t ++ [Print (UnexpectedError (UnsupportedMethod method))]).
Proof.
  intros Hnone Hpos. unfold KISOpenAPI.make_request, Py.range.
  destruct (Z.to_nat max_retries) as [|n] eqn:En; [lia|].
  cbn [seq map KISOpenAPI.make_request_loop].
  unfold try_except, KISOpenAPI.send_once. unfold request_of in Hnone.
  destruct (String.eqb (str_upper method) "GET"); [discriminate|].
  destruct (String.eqb (str_upper method) "POST"); [discriminate|].
  reflexivity.
Qed.

(** Without any allowed attempt the call raises at once. *)
Lemma make_request_no_attempt (str_upper : string -> string)
      (net : KISOpenAPI.Network)
      (method url : string) (headers params data : option (dict string))
      (timeout max_retries : Z) (t : trace) :
  max_retries <= 0 ->
  KISOpenAPI.make_request str_upper net method url headers params data timeout max_retries t
  = (Raise RequestFailed, t).
Proof.
  intros Hle. unfold KISOpenAPI.make_request, Py.range.
  replace (Z.to_nat max_retries) with 0%nat by lia. reflexivity.
Qed.

(** ** Strategy runner *)

(** A holding booked at a price of zero stops the cycle: the division of
    [should_sell] raises, and the [try] of [run_strategy] logs it. *)
Example run_strategy_zero_buy_price :
  run_strategy Py.int_of_decimal free_share_world default_config []
  = (Ok tt,
     [ Log INFO StrategyStart;
       Call GetBalance;
       Log INFO (PortfolioSummary 0 1);
       Call (GetCurrentPrice "005930");
       Call (GetChartData "005930" "D" 30);
       Log ERROR (StrategyError ZeroDivisionError);
       Log INFO StrategyDone ]).
Proof. vm_compute. reflexivity. Qed.

(** With a maximum position count of zero or less, [execute_buy_order]
    stops at its position-limit test: it asks for the balance, sizes
    nothing and sends no order; it returns False, unless the balance
    request raises what is no [Exception]. *)
Lemma execute_buy_order_gate (int_of_str : string -> result Z) (world : World)
      (self : Config) (code : string) (a : Analysis) (t : trace) :
  (max_position_count self <= 0)%Q ->
  (fst (execute_buy_order int_of_str world self code a t) = Ok false
   \/ exists e,
        fst (execute_buy_order int_of_str world self code a t) = Raise e
        /\ is_exception e = false)
  /\ api_calls (snd (execute_buy_order int_of_str world self code a t))
     = api_calls t ++ [GetBalance].
Proof.
  intros Hmax.
  assert (Hcalls : forall evs,
             api_calls (t ++ Call GetBalance :: evs)
             = api_calls t ++ GetBalance :: api_calls evs).
  { intros evs. unfold api_calls. rewrite flat_map_app. reflexivity. }
  unfold execute_buy_order, try_except, get_portfolio_status, and_then, call,
    lift, portfolio_of, log, emit, pure.
  destruct (get_balance world t) as [[b|]|e].
  - destruct (collect_holdings int_of_str (balance_stocks b) []) as [hs|e];
      cbn [bind].
    + cbn [holdings position_count cash].
      destruct (dict_mem code hs).
      * cbn [fst snd]. rewrite <- app_assoc. split; [left; reflexivity|apply Hcalls].
      * assert (Hge : Py.geb (inject_Z (Z.of_nat (length hs)))
                             (max_position_count self) = true).
        { apply PyFacts.geb_true.
          apply Qle_trans with (y := 0%Q); [exact Hmax|].
          unfold Qle. simpl. lia. }
        rewrite Hge. cbn [fst snd]. rewrite <- app_assoc.
        split; [left; reflexivity|apply Hcalls].
    + destruct (is_exception e) eqn:He; cbn [fst snd]; rewrite <- ?app_assoc;
        (split; [|apply Hcalls || (rewrite <- (app_nil_r [GetBalance]);
                                   apply (Hcalls []))]);
        [left; reflexivity | right; exists e; auto].
  - cbn [fst snd]. split; [left; reflexivity|apply Hcalls].
  - destruct (is_exception e) eqn:He; cbn [fst snd]; rewrite <- ?app_assoc;
      (split; [|apply Hcalls || (rewrite <- (app_nil_r [GetBalance]);
                                 apply (Hcalls []))]);
      [left; reflexivity | right; exists e; auto].
Qed.

(** ** Traces of the strategy *)

Section TraceLogic.

Context {A : Type}.
Variable P : event -> Prop.

Lemma emits_at_pure (a : A) (t : trace) : emits_at P (pure a) t.
Proof. exists []. split; [symmetry; apply app_nil_r | constructor]. Qed.

Lemma emits_at_lift (r : result A) (t : trace) : emits_at P (lift r) t.
Proof. exists []. split; [symmetry; apply app_nil_r | constructor]. Qed.

Lemma emits_at_call (c : api_call) (answer : trace -> result A) (t : trace) :
  P (Call c) -> emits_at P (call c answer) t.
Proof. intros H. exists [Call c]. split; [reflexivity | repeat constructor; exact H]. Qed.

Lemma emits_at_try_except (c : action A) (handler : exn -> action A) (t : trace) :
  emits_at P c t ->
  (forall e t', c t = (Raise e, t') -> is_exception e = true ->
                emits_at P (handler e) t') ->
  emits_at P (try_except c handler) t.
Proof.
  intros (evs & Hc & Hevs) Hh. unfold emits_at, try_except.
  destruct (c t) as [[a|e] t'] eqn:E; simpl in Hc; subst t'.
  - exists evs. auto.
  - destruct (is_exception e) eqn:He; [|exists evs; auto].
    destruct (Hh e _ eq_refl He) as (evs' & Hrun & Hevs').
    exists (evs ++ evs')%list. rewrite Hrun, app_assoc.
    split; [reflexivity | apply Forall_app; auto].
Qed.

Lemma contains_at_try_except (c : action A) (handler : exn -> action A) (t : trace) :
  (forall e t', c t = (Raise e, t') -> is_exception e = true ->
                contains_at (handler e) t') ->
  contains_at (try_except c handler) t.
Proof.
  intros Hh. unfold contains_at, try_except.
  destruct (c t) as [[a|e] t'] eqn:E; [discriminate|].
  destruct (is_exception e) eqn:He.
  - apply (Hh e t' eq_refl He).
  - cbn [fst]. intros e' H. injection H as <-. exact He.
Qed.

Lemma contains_at_returns (c : action A) (t : trace) (a : A) :
  fst (c t) = Ok a -> contains_at c t.
Proof. intros H e He. rewrite H in He. discriminate He. Qed.

End TraceLogic.

Section TraceLogicBind.

Context {A B : Type}.
Variable P : event -> Prop.

Lemma emits_at_and_then (c : action A) (k : A -> action B) (t : trace) :
  emits_at P c t ->
  (forall a t', c t = (Ok a, t') -> emits_at P (k a) t') ->
  emits_at P (and_then c k) t.
Proof.
  intros (evs & Hc & Hevs) Hk. unfold emits_at, and_then.
  destruct (c t) as [[a|e] t'] eqn:E; simpl in Hc; subst t'.
  - destruct (Hk a _ eq_refl) as (evs' & Hrun & Hevs').
    exists (evs ++ evs')%list. rewrite Hrun, app_assoc.
    split; [reflexivity | apply Forall_app; auto].
  - exists evs. auto.
Qed.

Lemma contains_at_and_then (c : action A) (k : A -> action B) (t : trace) :
  contains_at c t ->
  (forall a t', c t = (Ok a, t') -> contains_at (k a) t') ->
  contains_at (and_then c k) t.
Proof.
  intros Hc Hk. unfold contains_at, and_then in *.
  destruct (c t) as [[a|e] t'] eqn:E.
  - apply (Hk a t' eq_refl).
  - cbn [fst] in *. intros e' H. injection H as <-. apply Hc. reflexivity.
Qed.

End TraceLogicBind.

Lemma emits_at_emit (P : event -> Prop) (ev : event) (t : trace) :
  P ev -> emits_at P (emit ev) t.
Proof. intros H. exists [ev]. split; [reflexivity | repeat constructor; exact H]. Qed.

Lemma emits_at_for_each {A : Type} (P : event -> Prop) (xs : list A)
      (body : A -> action unit) :
  (forall x t, In x xs -> emits_at P (body x) t) ->
  forall t, emits_at P (for_each xs body) t.
Proof.
  induction xs as [|x xs IH]; intros Hbody t; cbn [for_each].
  - apply emits_at_pure.
  - apply emits_at_and_then.
    + apply Hbody. now left.
    + intros _ t' _. apply IH. intros y t'' Hy. apply Hbody. now right.
Qed.

Lemma contains_at_for_each {A : Type} (xs : list A) (body : A -> action unit) :
  (forall x t, In x xs -> contains_at (body x) t) ->
  forall t, contains_at (for_each xs body) t.
Proof.
  induction xs as [|x xs IH]; intros Hbody t; cbn [for_each].
  - intros e H. discriminate H.
  - apply contains_at_and_then.
    + apply Hbody. now left.
    + intros _ t' _. apply IH. intros y t'' Hy. apply Hbody. now right.
Qed.

Lemma emits_at_weaken {A : Type} (P Q : event -> Prop) (c : action A) (t : trace) :
  (forall ev, P ev -> Q ev) -> emits_at P c t -> emits_at Q c t.
Proof.
  intros HPQ (evs & Hrun & Hevs). exists evs. split; [exact Hrun|].
  eapply Forall_impl; [exact HPQ | exact Hevs].
Qed.

(** One step of a proof about the trace of an action. *)
Ltac trace_step :=
  lazymatch goal with
  | |- emits_at _ (pure _) _ => apply emits_at_pure
  | |- emits_at _ (lift _) _ => apply emits_at_lift
  | |- emits_at _ (log _ _) _ => apply emits_at_emit
  | |- emits_at _ (sleep _) _ => apply emits_at_emit
  | |- emits_at _ (call _ _) _ => apply emits_at_call
  | |- emits_at _ (try_except _ _) _ =>
      apply emits_at_try_except; [|intros ? ? ? ?]
  | |- emits_at _ (and_then _ _) _ =>
      apply emits_at_and_then; [|intros ? ? ?]
  | |- emits_at _ (match ?x with _ => _ end) _ => destruct x eqn:?
  | |- contains_at (pure _) _ => intros ? ?; discriminate
  | |- contains_at (log _ _) _ => intros ? ?; discriminate
  | |- contains_at (sleep _) _ => intros ? ?; discriminate
  | |- contains_at (try_except _ _) _ =>
      apply contains_at_try_except; intros ? ? ? ?
  | |- contains_at (and_then _ _) _ =>
      apply contains_at_and_then; [|intros ? ? ?]
  | |- contains_at (match ?x with _ => _ end) _ => destruct x eqn:?
  end.

Section RunnerTraces.

Variable int_of_str : string -> result Z.
Variable world : World.
Variable self : Config.

(** [analyze_stock] catches every [Exception] that its body raises. *)
Lemma analyze_stock_contains (code : string) (t : trace) :
  contains_at (analyze_stock world code) t.
Proof. unfold analyze_stock. repeat trace_step. Qed.

(** [analyze_stock] only reads and logs. *)
Lemma analyze_stock_emits (P : event -> Prop) (code : string) (t : trace) :
  (forall ev, no_order ev -> P ev) ->
  emits_at P (analyze_stock world code) t.
Proof.
  intros HP. unfold analyze_stock.
  repeat (first [ trace_step | progress cbv zeta ]); apply HP; exact I.
Qed.

Lemma execute_sell_order_contains (code : string) (h : Holding) (t : trace) :
  contains_at (execute_sell_order world code h) t.
Proof. unfold execute_sell_order. repeat trace_step. Qed.

Lemma execute_buy_order_contains (code : string) (a : Analysis) (t : trace) :
  contains_at (execute_buy_order int_of_str world self code a) t.
Proof. unfold execute_buy_order. repeat trace_step. Qed.

Lemma execute_sell_order_emits (P : event -> Prop) (code : string)
      (h : Holding) (t : trace) :
  (forall ev, no_order ev -> P ev) ->
  P (Call (SellOrder code (quantity h) 0)) ->
  emits_at P (execute_sell_order world code h) t.
Proof.
  intros HP Hsell. unfold execute_sell_order.
  repeat (first [ trace_step | progress cbv zeta ]);
    first [ exact Hsell | apply HP; exact I ].
Qed.

Lemma execute_buy_order_emits (P : event -> Prop) (code : string)
      (a : Analysis) (t : trace) :
  (forall ev, no_order ev -> P ev) ->
  (forall order_quantity, 0 < order_quantity ->
                          P (Call (BuyOrder code order_quantity 0))) ->
  emits_at P (execute_buy_order int_of_str world self code a) t.
Proof.
  intros HP Hbuy. unfold execute_buy_order, get_portfolio_status.
  repeat (first [ trace_step | progress cbv zeta ]);
    first [ apply Hbuy; lia | apply HP; exact I ].
Qed.

End RunnerTraces.

Section CycleOrders.

Variable int_of_str : string -> result Z.
Variable world : World.
Variable self : Config.

Lemma get_portfolio_status_emits (P : event -> Prop) (t : trace) :
  (forall ev, no_order ev -> P ev) ->
  emits_at P (get_portfolio_status int_of_str world) t.
Proof.
  intros HP. unfold get_portfolio_status.
  repeat trace_step. apply HP. exact I.
Qed.

(** What [get_portfolio_status] returns is the portfolio of the balance
    that the gateway answers with. *)
Lemma get_portfolio_status_result (t t' : trace) (p : option Portfolio) :
  get_portfolio_status int_of_str world t = (Ok p, t') ->
  exists balance,
    get_balance world t = Ok balance
    /\ portfolio_of int_of_str balance = Ok p.
Proof.
  unfold get_portfolio_status, and_then, call, lift.
  destruct (get_balance world t) as [balance|e]; [|discriminate].
  intros H. injection H as H _. exists balance. auto.
Qed.

Lemma portfolio_of_held (balance : option Balance) (p : Portfolio) :
  portfolio_of int_of_str balance = Ok (Some p) -> all_held (holdings p).
Proof.
  unfold portfolio_of. destruct balance as [b|]; [|discriminate].
  destruct (collect_holdings int_of_str (balance_stocks b) []) as [hs|] eqn:Eh;
    cbn [bind]; [|discriminate].
  intros H. injection H as <-. cbn [holdings].
  apply (collect_holdings_invariant int_of_str (balance_stocks b)) in Eh;
    [tauto | apply incl_refl | constructor | constructor | constructor].
Qed.

Lemma run_strategy_body_emits (P : event -> Prop) (t : trace) :
  (forall ev, no_order ev -> P ev) ->
  (forall p code h,
      fst (get_portfolio_status int_of_str world t) = Ok (Some p) ->
      In (code, h) (holdings p) ->
      P (Call (SellOrder code (quantity h) 0))) ->
  (forall code order_quantity,
      In code (watchlist self) -> 0 < order_quantity ->
      P (Call (BuyOrder code order_quantity 0))) ->
  emits_at P (run_strategy_body int_of_str world self) t.
Proof.
  intros HP Hsell Hbuy. unfold run_strategy_body.
  apply emits_at_and_then; [apply get_portfolio_status_emits, HP|].
  intros [p|] t' Hrun.
  - apply emits_at_and_then; [apply emits_at_emit, HP; exact I|].
    intros _ t1 _.
    apply emits_at_and_then.
    + apply emits_at_for_each. intros [code h] t2 Hin.
      apply emits_at_and_then; [apply analyze_stock_emits, HP|].
      intros [a|] t3 _; [|apply emits_at_pure].
      apply emits_at_and_then; [apply emits_at_lift|].
      intros [|] t4 _; [|apply emits_at_pure].
      apply emits_at_and_then; [|intros _ t5 _; apply emits_at_emit, HP; exact I].
      apply execute_sell_order_emits; [exact HP|].
      apply (Hsell p); [rewrite Hrun; reflexivity | exact Hin].
    + intros _ t2 _.
      apply emits_at_and_then; [|intros _ t3 _; apply emits_at_pure].
      apply emits_at_for_each. intros code t3 Hin.
      apply emits_at_and_then; [apply analyze_stock_emits, HP|].
      intros [a|] t4 _; [|apply emits_at_pure].
      destruct (should_buy (Some a)); [|apply emits_at_pure].
      apply emits_at_and_then; [|intros _ t5 _; apply emits_at_emit, HP; exact I].
      apply execute_buy_order_emits; [exact HP|].
      intros q Hq. apply Hbuy; assumption.
  - apply emits_at_and_then; [apply emits_at_emit, HP; exact I|].
    intros _ t1 _. apply emits_at_pure.
Qed.

Lemma cycle_order_no_order (watch : list string) (p : option Portfolio)
      (ev : event) :
  no_order ev -> cycle_order watch p ev.
Proof. destruct ev as [[]| | | |]; simpl; tauto. Qed.

Lemma run_strategy_contains (t : trace) :
  contains_at (run_strategy int_of_str world self) t.
Proof.
  unfold run_strategy.
  apply contains_at_and_then; [intros e H; discriminate H|].
  intros is_open t' _.
  destruct (negb is_open); repeat trace_step.
Qed.

(** X1.  A cycle raises no [Exception]: it returns, or lets through what
    a gateway call raises and is none (a KeyboardInterrupt, a SystemExit).
    It only appends to the trace, and every order it places is a market
    order for a positive quantity: a buy for a symbol of the watchlist, a
    sell of the full quantity of a holding of the portfolio read at the
    start of the cycle. *)
Theorem run_strategy_orders (t : trace) :
  exists outcome evs,
    run_strategy int_of_str world self t = (outcome, (t ++ evs)%list)
    /\ (forall e, outcome = Raise e -> is_exception e = false)
    /\ Forall (cycle_order (watchlist self) (cycle_portfolio int_of_str world t))
              evs.
Proof.
  set (P := cycle_order (watchlist self) (cycle_portfolio int_of_str world t)).
  assert (HP : forall ev, no_order ev -> P ev)
    by (intros ev; apply cycle_order_no_order).
  assert (Hemits : emits_at P (run_strategy int_of_str world self) t).
  { unfold run_strategy.
    apply emits_at_and_then; [exists []; split; [symmetry; apply app_nil_r|constructor]|].
    intros is_open t0 Hopen. unfold is_market_open in Hopen.
    injection Hopen as _ <-.
    destruct (negb is_open); [apply emits_at_emit, HP; exact I|].
    apply emits_at_and_then; [apply emits_at_emit, HP; exact I|].
    intros u t1 Hlog. unfold log, emit in Hlog. injection Hlog as _ <-.
    apply emits_at_and_then.
    - apply emits_at_try_except.
      + apply run_strategy_body_emits; [exact HP | | ].
        * intros p code h Hp Hin. unfold P. simpl.
          destruct (get_portfolio_status int_of_str world
                      (t ++ [Log INFO StrategyStart])) as [r t2] eqn:Hrun.
          simpl in Hp. subst r.
          apply get_portfolio_status_result in Hrun.
          destruct Hrun as (balance & Hb & Hport).
          pose proof (portfolio_of_held balance p Hport) as Hheld.
          unfold all_held in Hheld. rewrite Forall_forall in Hheld.
          specialize (Hheld (code, h) Hin). simpl in Hheld.
          split; [reflexivity|]. split; [lia|].
          exists p, h. unfold cycle_portfolio. rewrite Hb, Hport. auto.
        * intros code q Hin Hq. unfold P. simpl. auto.
      + intros e t2 _ _.
        apply emits_at_and_then; [apply emits_at_emit, HP; exact I|].
        intros _ t3 _. apply emits_at_pure.
    - intros [|] t2 _; [apply emits_at_pure | apply emits_at_emit, HP; exact I]. }
  destruct Hemits as (evs & Hsnd & Hall).
  pose proof (run_strategy_contains t) as Hcontains.
  unfold contains_at in Hcontains.
  destruct (run_strategy int_of_str world self t) as [outcome t']. simpl in *.
  subst. exists outcome, evs. auto.
Qed.

End CycleOrders.

(** ** Moving average and analysis *)

Section MovingAverage.

Local Open Scope Q_scope.

(** The code computes the mean of the design, for every positive period. *)
Lemma calculate_moving_average_refines (prices : list Q) (period : Z) :
  (0 < period)%Z ->
  calculate_moving_average prices period
  = Ok (moving_average_rule prices (Z.to_nat period)).
Proof.
  intros Hp. unfold calculate_moving_average, moving_average_rule.
  destruct (Z.geb_spec (Z.of_nat (length prices)) period) as [Hlen|Hlen];
    destruct (Nat.ltb_spec (length prices) (Z.to_nat period)) as [Hn|Hn];
    try lia; [|reflexivity].
  rewrite slice_from_last by exact Hp.
  rewrite PyFacts.div_nonzero by (apply inject_Z_nonzero; lia).
  cbn [bind]. rewrite Z2Nat.id by lia. reflexivity.
Qed.

Lemma inject_Z_succ (n : nat) :
  inject_Z (Z.of_nat (S n)) == inject_Z (Z.of_nat n) + 1.
Proof.
  rewrite Nat2Z.inj_succ. unfold Z.succ. rewrite inject_Z_plus. reflexivity.
Qed.

(** A sum of values between [lo] and [hi] lies between [lo] and [hi]
    times their number. *)
Lemma fold_sum_between (lo hi : Q) (xs : list Q) :
  Forall (fun x => lo <= x /\ x <= hi) xs ->
  forall acc,
    acc + lo * inject_Z (Z.of_nat (length xs)) <= fold_left Qplus xs acc
    /\ fold_left Qplus xs acc <= acc + hi * inject_Z (Z.of_nat (length xs)).
Proof.
  induction 1 as [|x xs [Hlo Hhi] _ IH]; intros acc.
  - cbn [fold_left length]. change (inject_Z (Z.of_nat 0)) with 0.
    assert (El : lo * 0 == 0) by ring. assert (Eh : hi * 0 == 0) by ring.
    rewrite El, Eh. split; lra.
  - cbn [fold_left length]. destruct (IH (acc + x)) as [IHlo IHhi].
    rewrite inject_Z_succ.
    set (n := inject_Z (Z.of_nat (length xs))) in *.
    assert (El : lo * (n + 1) == lo * n + lo) by ring.
    assert (Eh : hi * (n + 1) == hi * n + hi) by ring.
    rewrite El, Eh.
    set (ln := lo * n) in *. set (hn := hi * n) in *.
    split.
    + apply Qle_trans with (y := acc + x + ln); [lra | exact IHlo].
    + apply Qle_trans with (y := acc + x + hn); [exact IHhi | lra].
Qed.

Lemma last_n_length {A : Type} (n : nat) (xs : list A) :
  (n <= length xs)%nat -> length (last_n n xs) = n.
Proof. intros H. unfold last_n. rewrite length_skipn. lia. Qed.

(** X2.  For a positive period [calculate_moving_average] is absent with
    fewer than [period] prices; otherwise it is the mean of the last
    [period] prices: [period] times the result is their sum, and the result
    lies between any two bounds of those prices. *)
Theorem calculate_moving_average_mean (prices : list Q) (period : Z) :
  (0 < period)%Z ->
  ((Z.of_nat (length prices) < period)%Z ->
   calculate_moving_average prices period = Ok None)
  /\ ((period <= Z.of_nat (length prices))%Z ->
      exists m,
        calculate_moving_average prices period = Ok (Some m)
        /\ m * inject_Z period == Py.sum (last_n (Z.to_nat period) prices)
        /\ forall lo hi,
            Forall (fun x => lo <= x /\ x <= hi) (last_n (Z.to_nat period) prices) ->
            lo <= m /\ m <= hi).
Proof.
  intros Hp. rewrite (calculate_moving_average_refines prices period Hp).
  unfold moving_average_rule. split; intros Hlen.
  - destruct (Nat.ltb_spec (length prices) (Z.to_nat period)); [reflexivity|lia].
  - destruct (Nat.ltb_spec (length prices) (Z.to_nat period)); [lia|].
    rewrite Z2Nat.id by lia.
    assert (HP : 0 < inject_Z period).
    { unfold Qlt. simpl. lia. }
    eexists. split; [reflexivity|]. split.
    + field. intros E. rewrite E in HP. exact (Qlt_irrefl 0 HP).
    + intros lo hi Hwin.
      destruct (fold_sum_between lo hi _ Hwin 0) as [Hlo Hhi].
      rewrite last_n_length, Z2Nat.id in Hlo, Hhi by lia.
      fold (Py.sum (last_n (Z.to_nat period) prices)) in Hlo, Hhi.
      split.
      * apply Qle_shift_div_l; [exact HP|]. lra.
      * apply Qle_shift_div_r; [exact HP|]. lra.
Qed.

Lemma calculate_moving_average_mean_witness :
  exists m,
    calculate_moving_average zigzag_closes 5 = Ok (Some m)
    /\ m * inject_Z 5 == Py.sum (last_n 5 zigzag_closes)
    /\ forall lo hi,
        Forall (fun x => lo <= x /\ x <= hi) (last_n 5 zigzag_closes) ->
        lo <= m /\ m <= hi.
Proof.
  assert (Hperiod : (0 < 5)%Z) by reflexivity.
  assert (Hlen : (5 <= Z.of_nat (length zigzag_closes))%Z) by (simpl; lia).
  exact (proj2 (calculate_moving_average_mean zigzag_closes 5 Hperiod) Hlen).
Defined.

End MovingAverage.

Section Analysis.

Local Open Scope Q_scope.

Variable world : World.

(** With a quote and a non-empty chart [analyze_stock] returns the analysis
    of the design after exactly two reads. *)
Lemma analyze_stock_value (code : string) (t : trace) (info : Quote)
      (bars : list Bar) :
  get_current_price world t code = Ok (Some info) ->
  get_chart_data world (t ++ [Call (GetCurrentPrice code)]) code "D" 30
  = Ok (Some bars) ->
  bars <> [] ->
  analyze_stock world code t
  = (Ok (Some (analysis_of code info bars)),
     (t ++ [Call (GetCurrentPrice code); Call (GetChartData code "D" 30)])%list).
Proof.
  intros Hquote Hchart Hbars.
  unfold analyze_stock, try_except, and_then, call, lift, pure.
  rewrite Hquote, Hchart.
  destruct bars as [|bar bars']; [contradiction|].
  set (bars := bar :: bars') in *.
  fold (closes_of bars). fold (volumes_of bars).
  rewrite !calculate_moving_average_refines by reflexivity.
  unfold default_rsi_period. rewrite calculate_rsi_refines by reflexivity.
  change (Py.slice_from (volumes_of bars) (-5))
    with (Py.slice_from (volumes_of bars) (- (5))%Z).
  rewrite slice_from_last by reflexivity.
  change (Py.div (Py.sum (last_n (Z.to_nat 5) (volumes_of bars))) 5)
    with (Ok (average_volume bars) : result Q).
  unfold analysis_of.
  destruct (Qlt_le_dec 0 (average_volume bars)) as [Hpos|Hnon].
  - assert (Hgt : Py.gtb (average_volume bars) 0 = true)
      by (apply PyFacts.gtb_true; exact Hpos).
    rewrite Hgt.
    rewrite PyFacts.div_nonzero
      by (intros E; rewrite E in Hpos; exact (Qlt_irrefl 0 Hpos)).
    rewrite <- app_assoc. reflexivity.
  - assert (Hgt : Py.gtb (average_volume bars) 0 = false).
    { destruct (Py.gtb (average_volume bars) 0) eqn:E; [|reflexivity].
      apply PyFacts.gtb_true in E. exfalso. exact (Qlt_not_le _ _ E Hnon). }
    rewrite Hgt. rewrite <- app_assoc. reflexivity.
Qed.

(** An analysis is returned only from a quote and a non-empty chart. *)
Lemma analyze_stock_some (code : string) (t t' : trace) (a : Analysis) :
  analyze_stock world code t = (Ok (Some a), t') ->
  exists info bars,
    get_current_price world t code = Ok (Some info)
    /\ get_chart_data world (t ++ [Call (GetCurrentPrice code)]) code "D" 30
       = Ok (Some bars)
    /\ bars <> []
    /\ a = analysis_of code info bars.
Proof.
  intros Hrun.
  destruct (get_current_price world t code) as [[info|]|e] eqn:Hquote.
  - destruct (get_chart_data world (t ++ [Call (GetCurrentPrice code)]) code "D" 30)
      as [[bars|]|e] eqn:Hchart.
    + destruct bars as [|bar bars'] eqn:Hbars.
      * unfold analyze_stock, try_except, and_then, call, lift, pure in Hrun.
        rewrite Hquote, Hchart in Hrun. discriminate Hrun.
      * rewrite (analyze_stock_value code t info (bar :: bars') Hquote Hchart)
          in Hrun by discriminate.
        injection Hrun as <- _. exists info, (bar :: bars').
        repeat split; try reflexivity. discriminate.
    + unfold analyze_stock, try_except, and_then, call, lift, pure in Hrun.
      rewrite Hquote, Hchart in Hrun. discriminate Hrun.
    + unfold analyze_stock, try_except, and_then, call, lift, pure, log, emit in Hrun.
      rewrite Hquote, Hchart in Hrun.
      destruct (is_exception e); discriminate Hrun.
  - unfold analyze_stock, try_except, and_then, call, lift, pure in Hrun.
    rewrite Hquote in Hrun. discriminate Hrun.
  - unfold analyze_stock, try_except, and_then, call, lift, pure, log, emit in Hrun.
    rewrite Hquote in Hrun.
    destruct (is_exception e); discriminate Hrun.
Qed.

Lemma moving_average_rule_none (prices : list Q) (period : nat) :
  moving_average_rule prices period = None <-> (length prices < period)%nat.
Proof.
  unfold moving_average_rule.
  destruct (Nat.ltb_spec (length prices) period) as [Hlt|Hge]; split; intros H;
    try reflexivity; try discriminate; try assumption; lia.
Qed.

Lemma rsi_rule_none (closes : list Q) (period : nat) :
  rsi_rule closes period = None <-> (length closes < period + 1)%nat.
Proof.
  unfold rsi_rule.
  destruct (Nat.ltb_spec (length closes) (period + 1)) as [Hlt|Hge];
    split; intros H; try reflexivity; try assumption; try lia.
  destruct (Qeq_dec (average_loss closes period) 0); discriminate H.
Qed.

(** X3.  An analysis that [analyze_stock] returns stems from the quote and
    a non-empty chart read by its two calls, carries the quoted price,
    change rate and volume under the requested code, and has its
    indicators present by the number of bars alone: ma5 from 5 bars, ma20
    from 20, rsi from 15; its volume ratio is never negative for a
    non-negative quoted volume and is 0 when the five-bar mean volume is
    not positive. *)
Theorem analyze_stock_indicators (code : string) (t t' : trace) (a : Analysis) :
  analyze_stock world code t = (Ok (Some a), t') ->
  exists info bars,
    get_current_price world t code = Ok (Some info)
    /\ get_chart_data world (t ++ [Call (GetCurrentPrice code)]) code "D" 30
       = Ok (Some bars)
    /\ bars <> []
    /\ t' = (t ++ [Call (GetCurrentPrice code); Call (GetChartData code "D" 30)])%list
    /\ stock_code a = code
    /\ current_price a = quote_current_price info
    /\ change_rate a = quote_change_rate info
    /\ volume a = quote_volume info
    /\ (ma5 a = None <-> (length bars < 5)%nat)
    /\ (ma20 a = None <-> (length bars < 20)%nat)
    /\ (rsi a = None <-> (length bars < 15)%nat)
    /\ (avg_volume a <= 0 -> volume_ratio a = 0)
    /\ ((0 <= quote_volume info)%Z -> 0 <= volume_ratio a).
Proof.
  intros Hrun.
  destruct (analyze_stock_some code t t' a Hrun)
    as (info & bars & Hquote & Hchart & Hbars & ->).
  rewrite (analyze_stock_value code t info bars Hquote Hchart Hbars) in Hrun.
  injection Hrun as <-.
  exists info, bars. repeat split; try assumption; try reflexivity.
  - intros H. apply moving_average_rule_none in H. unfold closes_of in H.
    rewrite length_map in H. exact H.
  - intros H. apply moving_average_rule_none. unfold closes_of.
    rewrite length_map. exact H.
  - intros H. apply moving_average_rule_none in H. unfold closes_of in H.
    rewrite length_map in H. exact H.
  - intros H. apply moving_average_rule_none. unfold closes_of.
    rewrite length_map. exact H.
  - intros H. apply rsi_rule_none in H. unfold closes_of in H.
    rewrite length_map in H. simpl in H. lia.
  - intros H. apply rsi_rule_none. unfold closes_of.
    rewrite length_map. simpl. lia.
  - cbn [analysis_of avg_volume volume_ratio]. intros Hnon.
    destruct (Qlt_le_dec 0 (average_volume bars)) as [Hpos|_]; [|reflexivity].
    exfalso. exact (Qlt_not_le _ _ Hpos Hnon).
  - cbn [analysis_of volume_ratio]. intros Hvol.
    destruct (Qlt_le_dec 0 (average_volume bars)) as [Hpos|_]; [|apply Qle_refl].
    apply Qle_shift_div_l; [exact Hpos|].
    assert (Hq : 0 <= inject_Z (quote_volume info)) by (unfold Qle; simpl; lia).
    lra.
Qed.

(** X4.  A symbol whose chart has fewer than 20 bars is never bought:
    whatever the quote, [should_buy] refuses the analysis that
    [analyze_stock] returns. *)
Theorem short_history_no_buy (code : string) (t t' : trace) (a : Analysis)
        (bars : list Bar) :
  get_chart_data world (t ++ [Call (GetCurrentPrice code)]) code "D" 30
  = Ok (Some bars) ->
  (length bars < 20)%nat ->
  analyze_stock world code t = (Ok (Some a), t') ->
  should_buy (Some a) = false.
Proof.
  intros Hchart Hshort Hrun.
  destruct (analyze_stock_some code t t' a Hrun)
    as (info & bars' & _ & Hchart' & _ & ->).
  rewrite Hchart in Hchart'. injection Hchart' as <-.
  apply should_buy_absent. right; left.
  cbn [analysis_of ma20]. apply moving_average_rule_none.
  unfold closes_of. rewrite length_map. exact Hshort.
Qed.

End Analysis.

Lemma analyze_stock_indicators_witness :
  exists info bars,
    get_current_price falling_world [] "005930" = Ok (Some info)
    /\ get_chart_data falling_world ([] ++ [Call (GetCurrentPrice "005930")])
                      "005930" "D" 30 = Ok (Some bars)
    /\ bars <> []
    /\ [Call (GetCurrentPrice "005930"); Call (GetChartData "005930" "D" 30)]
       = ([] ++ [Call (GetCurrentPrice "005930");
                 Call (GetChartData "005930" "D" 30)])%list
    /\ stock_code falling_analysis = "005930"%string
    /\ current_price falling_analysis = quote_current_price info
    /\ change_rate falling_analysis = quote_change_rate info
    /\ volume falling_analysis = quote_volume info
    /\ (ma5 falling_analysis = None <-> (length bars < 5)%nat)
    /\ (ma20 falling_analysis = None <-> (length bars < 20)%nat)
    /\ (rsi falling_analysis = None <-> (length bars < 15)%nat)
    /\ ((avg_volume falling_analysis <= 0)%Q -> volume_ratio falling_analysis = 0%Q)
    /\ ((0 <= quote_volume info)%Z -> (0 <= volume_ratio falling_analysis)%Q).
Proof.
  apply (analyze_stock_indicators falling_world "005930" []).
  vm_compute. reflexivity.
Defined.

Lemma short_history_no_buy_witness :
  should_buy (Some (analysis_of "005930" falling_quote short_bars)) = false.
Proof.
  apply (short_history_no_buy short_history_world "005930" []
           [Call (GetCurrentPrice "005930"); Call (GetChartData "005930" "D" 30)]
           (analysis_of "005930" falling_quote short_bars) short_bars).
  - reflexivity.
  - simpl. lia.
  - apply analyze_stock_value; [reflexivity | reflexivity | discriminate].
Defined.

(** ** Orders of one symbol *)

Section BuyOrderGate.

Local Open Scope Q_scope.

Variable int_of_str : string -> result Z.
Variable world : World.
Variable self : Config.

(** X5.  [execute_buy_order] raises no [Exception]: it returns, or lets
    through what a gateway call raises and is none.  It asks for the
    balance first.  It places an order only when that fresh portfolio does
    not hold the symbol and counts fewer positions than the configured
    maximum; the order is then one market buy for the quantity that
    [calculate_position_size] gives for the analysed price and the cash,
    which is positive.  In every other case it sends no order and does not
    return True. *)
Theorem execute_buy_order_safe (code : string) (a : Analysis) (t : trace) :
  exists outcome evs,
    execute_buy_order int_of_str world self code a t
    = (outcome, (t ++ Call GetBalance :: evs)%list)
    /\ (forall e, outcome = Raise e -> is_exception e = false)
    /\ ((api_calls evs = [] /\ outcome <> Ok true)
        \/ exists balance p order_quantity,
            get_balance world t = Ok balance
            /\ portfolio_of int_of_str balance = Ok (Some p)
            /\ dict_mem code (holdings p) = false
            /\ inject_Z (position_count p) < max_position_count self
            /\ calculate_position_size self (current_price a) (cash p)
               = Ok order_quantity
            /\ (0 < order_quantity)%Z
            /\ api_calls evs = [BuyOrder code order_quantity 0]).
Proof.
  assert (Hquiet : forall (outcome : result bool) (evs : list event),
             (forall e, outcome = Raise e -> is_exception e = false) ->
             api_calls evs = [] -> outcome <> Ok true ->
             exists outcome' evs',
               (outcome, (t ++ Call GetBalance :: evs)%list)
               = (outcome', (t ++ Call GetBalance :: evs')%list)
               /\ (forall e, outcome' = Raise e -> is_exception e = false)
               /\ ((api_calls evs' = [] /\ outcome' <> Ok true)
                   \/ exists balance p order_quantity,
                       get_balance world t = Ok balance
                       /\ portfolio_of int_of_str balance = Ok (Some p)
                       /\ dict_mem code (holdings p) = false
                       /\ inject_Z (position_count p) < max_position_count self
                       /\ calculate_position_size self (current_price a) (cash p)
                          = Ok order_quantity
                       /\ (0 < order_quantity)%Z
                       /\ api_calls evs' = [BuyOrder code order_quantity 0])).
  { intros outcome evs Hraise Hcalls Hnot. exists outcome, evs. auto. }
  assert (Hcaught : forall (e : exn) (evs : list event),
             api_calls evs = [] ->
             exists outcome' evs',
               (if is_exception e
                then (Ok false,
                      ((t ++ Call GetBalance :: evs) ++ [Log ERROR (BuyError e)])%list)
                else (Raise e, (t ++ Call GetBalance :: evs)%list))
               = (outcome', (t ++ Call GetBalance :: evs')%list)
               /\ (forall e, outcome' = Raise e -> is_exception e = false)
               /\ ((api_calls evs' = [] /\ outcome' <> Ok true)
                   \/ exists balance p order_quantity,
                       get_balance world t = Ok balance
                       /\ portfolio_of int_of_str balance = Ok (Some p)
                       /\ dict_mem code (holdings p) = false
                       /\ inject_Z (position_count p) < max_position_count self
                       /\ calculate_position_size self (current_price a) (cash p)
                          = Ok order_quantity
                       /\ (0 < order_quantity)%Z
                       /\ api_calls evs' = [BuyOrder code order_quantity 0])).
  { intros e evs Hcalls. destruct (is_exception e) eqn:He.
    - rewrite <- app_assoc. cbn [app].
      apply (Hquiet (Ok false) (evs ++ [Log ERROR (BuyError e)])%list);
        [discriminate | | discriminate].
      unfold api_calls in *. rewrite flat_map_app, Hcalls. reflexivity.
    - apply (Hquiet (Raise e) evs); [ | exact Hcalls | discriminate].
      intros e' H. injection H as <-. exact He. }
  unfold execute_buy_order, try_except, get_portfolio_status, and_then, call,
    lift, log, emit, pure.
  destruct (get_balance world t) as [balance|e] eqn:Hb.
  2:{ apply (Hcaught e []). reflexivity. }
  destruct (portfolio_of int_of_str balance) as [[p|]|e] eqn:Hp.
  2:{ apply (Hquiet (Ok false) []); [discriminate | reflexivity | discriminate]. }
  2:{ apply (Hcaught e []). reflexivity. }
  destruct (dict_mem code (holdings p)) eqn:Hheld.
  { rewrite <- app_assoc.
    apply (Hquiet (Ok false) [Log INFO (AlreadyHeld code)]);
      [discriminate | reflexivity | discriminate]. }
  destruct (Py.geb (inject_Z (position_count p)) (max_position_count self)) eqn:Hlimit.
  { rewrite <- app_assoc.
    apply (Hquiet (Ok false) [Log INFO PositionLimitReached]);
      [discriminate | reflexivity | discriminate]. }
  assert (Hbelow : inject_Z (position_count p) < max_position_count self).
  { apply Qnot_le_lt. intros Hle. apply PyFacts.geb_true in Hle. congruence. }
  destruct (calculate_position_size self (current_price a) (cash p))
    as [order_quantity|e] eqn:Hsize.
  2:{ apply (Hcaught e []). reflexivity. }
  destruct (Z.leb_spec order_quantity 0) as [Hsmall|Hpos].
  { rewrite <- app_assoc.
    apply (Hquiet (Ok false) [Log INFO QuantityTooSmall]);
      [discriminate | reflexivity | discriminate]. }
  destruct (buy_order world (t ++ [Call GetBalance]) code order_quantity 0)
    as [order|e];
    [destruct (success order) | destruct (is_exception e) eqn:He];
    (eexists; eexists; split;
     [ rewrite <- ?app_assoc; reflexivity
     | split;
       [ intros e' H; first [discriminate H | injection H as <-; exact He]
       | right; exists balance, p, order_quantity; repeat split; auto ] ]).
Qed.

End BuyOrderGate.

(** ** Extremes of the RSI *)

Section RsiExtremes.

Local Open Scope Q_scope.

Lemma fold_sum_zero_iff (xs : list Q) :
  Forall (fun x => 0 <= x) xs ->
  forall acc, 0 <= acc ->
    (fold_left Qplus xs acc == 0 <-> acc == 0 /\ Forall (fun x => x == 0) xs).
Proof.
  induction 1 as [|x xs Hx Hxs IH]; intros acc Hacc; cbn [fold_left].
  - split; [intros E; split; [exact E | constructor] | tauto].
  - rewrite IH by lra. split.
    + intros [E Hall]. split; [lra|]. constructor; [lra | exact Hall].
    + intros [E Hall]. inversion Hall as [|? ? Ex Hrest]; subst.
      split; [lra | exact Hrest].
Qed.

Lemma sum_zero_iff (xs : list Q) :
  Forall (fun x => 0 <= x) xs ->
  (Py.sum xs == 0 <-> Forall (fun x => x == 0) xs).
Proof.
  intros H. unfold Py.sum. rewrite (fold_sum_zero_iff xs H 0) by apply Qle_refl.
  split; [tauto | intros Hall; split; [reflexivity | exact Hall]].
Qed.

Lemma loss_of_zero (delta : Q) : loss_of delta == 0 <-> 0 <= delta.
Proof.
  unfold loss_of. destruct (Qlt_le_dec delta 0) as [Hneg|Hnon].
  - split; intros H; lra.
  - split; [intros _; exact Hnon | reflexivity].
Qed.

Lemma gain_of_zero (delta : Q) : gain_of delta == 0 <-> delta <= 0.
Proof.
  unfold gain_of. destruct (Qlt_le_dec 0 delta) as [Hpos|Hnon].
  - split; intros H; lra.
  - split; [intros _; exact Hnon | reflexivity].
Qed.

Lemma Forall_map_iff {A B : Type} (P : B -> Prop) (f : A -> B) (xs : list A) :
  Forall P (map f xs) <-> Forall (fun x => P (f x)) xs.
Proof.
  induction xs as [|x xs IH]; simpl.
  - split; constructor.
  - split; intros H; inversion H; subst; constructor; tauto.
Qed.

Lemma Forall_iff {A : Type} (P Q : A -> Prop) (xs : list A) :
  (forall x, P x <-> Q x) -> (Forall P xs <-> Forall Q xs).
Proof.
  intros H. split; apply Forall_impl; intros x; apply H.
Qed.

(** The average over a window is zero exactly when its sum is. *)
Lemma average_zero_iff (period : nat) (xs : list Q) :
  (0 < period)%nat ->
  (average_of_last period xs == 0 <-> Py.sum (last_n period xs) == 0).
Proof.
  intros Hp. unfold average_of_last.
  assert (HP : 0 < inject_Z (Z.of_nat period)) by (unfold Qlt; simpl; lia).
  set (P := inject_Z (Z.of_nat period)) in *.
  set (S := Py.sum (last_n period xs)).
  assert (E : S / P * P == S) by (field; lra).
  split; intros H.
  - rewrite <- E, H. ring.
  - rewrite H. unfold Qdiv. ring.
Qed.

Lemma average_loss_zero_iff (closes : list Q) (period : nat) :
  (0 < period)%nat ->
  (average_loss closes period == 0
   <-> Forall (fun delta => 0 <= delta) (last_n period (consecutive_deltas closes))).
Proof.
  intros Hp. unfold average_loss. rewrite average_zero_iff by exact Hp.
  rewrite last_n_map.
  rewrite sum_zero_iff by (apply Forall_map_all, loss_of_nonneg).
  rewrite Forall_map_iff. apply Forall_iff. intros d. apply loss_of_zero.
Qed.

Lemma average_gain_zero_iff (closes : list Q) (period : nat) :
  (0 < period)%nat ->
  (average_gain closes period == 0
   <-> Forall (fun delta => delta <= 0) (last_n period (consecutive_deltas closes))).
Proof.
  intros Hp. unfold average_gain. rewrite average_zero_iff by exact Hp.
  rewrite last_n_map.
  rewrite sum_zero_iff by (apply Forall_map_all, gain_of_nonneg).
  rewrite Forall_map_iff. apply Forall_iff. intros d. apply gain_of_zero.
Qed.

Lemma average_nonneg (period : nat) (xs : list Q) :
  (0 < period)%nat -> Forall (fun x => 0 <= x) xs ->
  0 <= average_of_last period xs.
Proof.
  intros Hp Hxs. unfold average_of_last.
  apply Qle_shift_div_l; [unfold Qlt; simpl; lia|].
  assert (0 <= Py.sum (last_n period xs))
    by (apply sum_nonneg, Forall_skipn, Hxs).
  lra.
Qed.

Lemma not_all_nonneg (xs : list Q) :
  ~ Forall (fun x => 0 <= x) xs <-> Exists (fun x => x < 0) xs.
Proof.
  induction xs as [|x xs IH].
  - split; [intros H; exfalso; apply H; constructor | intros H; inversion H].
  - split.
    + intros H. destruct (Qlt_le_dec x 0) as [Hneg|Hnon]; [now left|].
      right. apply IH. intros Hall. apply H. constructor; assumption.
    + intros H Hall. inversion Hall as [|? ? Hx Hrest]; subst.
      inversion H as [? ? Hneg|? ? Hex]; subst.
      * exact (Qlt_not_le _ _ Hneg Hx).
      * apply IH in Hex. contradiction.
Qed.

(** The value of the RSI formula at its two ends. *)
Lemma rsi_formula_ends (g l : Q) :
  0 <= g -> 0 < l ->
  ~ 100 - 100 / (1 + g / l) == 100
  /\ (100 - 100 / (1 + g / l) == 0 <-> g == 0).
Proof.
  intros Hg Hl.
  assert (Hrs : 0 <= g / l) by (apply Qle_shift_div_l; [exact Hl | lra]).
  set (rs := g / l) in *.
  assert (Hy : 0 < 1 + rs) by lra.
  assert (Hq : 0 < 100 / (1 + rs)) by (apply Qlt_shift_div_l; [exact Hy | lra]).
  assert (E : 100 / (1 + rs) * (1 + rs) == 100) by (field; lra).
  assert (Eg : rs * l == g) by (unfold rs; field; lra).
  set (q := 100 / (1 + rs)) in *.
  split; [lra|]. split.
  - intros Hzero. assert (Eq : q == 100) by lra.
    rewrite Eq in E. assert (Ers : rs == 0) by lra.
    rewrite <- Eg, Ers. ring.
  - intros Ezero. assert (Ers : rs == 0).
    { unfold rs. rewrite Ezero. unfold Qdiv. ring. }
    assert (Eq : q == 100).
    { unfold q. rewrite Ers. reflexivity. }
    lra.
Qed.

(** X6.  With a positive period and at least [period + 1] closes the RSI
    is 100 exactly when no delta of the window is negative, and 0 exactly
    when no delta of the window is positive and one is negative. *)
Theorem calculate_rsi_extremes (closes : list Q) (period : Z) :
  (0 < period)%Z ->
  (period + 1 <= Z.of_nat (length closes))%Z ->
  let window := last_n (Z.to_nat period) (consecutive_deltas closes) in
  exists v,
    calculate_rsi closes period = Ok (Some v)
    /\ (v == 100 <-> Forall (fun delta => 0 <= delta) window)
    /\ (v == 0 <-> Forall (fun delta => delta <= 0) window
                   /\ Exists (fun delta => delta < 0) window).
Proof.
  intros Hp Hlen window.
  assert (Hn : (0 < Z.to_nat period)%nat) by lia.
  rewrite (calculate_rsi_refines closes period Hp). unfold rsi_rule.
  destruct (Nat.ltb_spec (length closes) (Z.to_nat period + 1)) as [Hlt|_]; [lia|].
  pose proof (average_loss_zero_iff closes _ Hn) as Hloss.
  pose proof (average_gain_zero_iff closes _ Hn) as Hgain.
  fold window in Hloss, Hgain.
  destruct (Qeq_dec (average_loss closes (Z.to_nat period)) 0) as [Ez|Enz].
  - exists 100. split; [reflexivity|]. split.
    + split; [intros _; apply Hloss, Ez | reflexivity].
    + split; [intros H; discriminate H|].
      intros [_ Hex]. apply not_all_nonneg in Hex. exfalso. apply Hex, Hloss, Ez.
  - assert (Hg : 0 <= average_gain closes (Z.to_nat period))
      by (apply average_nonneg; [exact Hn | apply Forall_map_all, gain_of_nonneg]).
    assert (Hl : 0 < average_loss closes (Z.to_nat period)).
    { assert (0 <= average_loss closes (Z.to_nat period))
        by (apply average_nonneg; [exact Hn | apply Forall_map_all, loss_of_nonneg]).
      destruct (Qlt_le_dec 0 (average_loss closes (Z.to_nat period))) as [H1|H1];
        [exact H1|]. exfalso. apply Enz. apply Qle_antisym; assumption. }
    destruct (rsi_formula_ends _ _ Hg Hl) as [Hnot100 Hzero].
    eexists. split; [reflexivity|]. split.
    + split; [intros H; contradiction|].
      intros Hall. exfalso. apply Enz, Hloss, Hall.
    + rewrite Hzero, Hgain. split.
      * intros Hall. split; [exact Hall|]. apply not_all_nonneg.
        intros Hnon. apply Enz, Hloss, Hnon.
      * tauto.
Qed.

Lemma calculate_rsi_extremes_witness :
  let window := last_n 14 (consecutive_deltas (closes_of falling_bars)) in
  exists v,
    calculate_rsi (closes_of falling_bars) 14 = Ok (Some v)
    /\ (v == 100 <-> Forall (fun delta => 0 <= delta) window)
    /\ (v == 0 <-> Forall (fun delta => delta <= 0) window
                   /\ Exists (fun delta => delta < 0) window).
Proof.
  assert (Hperiod : (0 < 14)%Z) by reflexivity.
  assert (Hlen : (14 + 1 <= Z.of_nat (length (closes_of falling_bars)))%Z)
    by (vm_compute; discriminate).
  exact (calculate_rsi_extremes (closes_of falling_bars) 14 Hperiod Hlen).
Defined.

End RsiExtremes.

(** ** Position size and budget *)

Section Budget.

Lemma binary_round_aux_side (s : bool) (m e : Z) (l : location) :
  float_on_side s (binary_round_aux PyNum.prec PyNum.emax s m e l).
Proof.
  unfold binary_round_aux.
  destruct (shr_fexp PyNum.prec PyNum.emax m e l) as [mrs' e'].
  destruct (shr_fexp PyNum.prec PyNum.emax _ e' loc_Exact) as [mrs'' e''].
  destruct (shr_m mrs''); [exact I | | exact I].
  destruct (Z.leb e'' (PyNum.emax - PyNum.prec)); reflexivity.
Qed.

Lemma SFmul_side (s1 s2 : bool) (x y : spec_float) :
  float_on_side s1 x -> float_on_side s2 y ->
  float_on_side (xorb s1 s2) (SFmul PyNum.prec PyNum.emax x y).
Proof.
  destruct x as [sx|sx| |sx mx ex], y as [sy|sy| |sy my ey];
    cbn [float_on_side SFmul]; intros Hx Hy; subst; try exact I;
    try reflexivity.
  apply binary_round_aux_side.
Qed.

Lemma SFdiv_side (s1 s2 : bool) (x y : spec_float) :
  float_on_side s1 x -> float_on_side s2 y -> PyNum.is_zero y = false ->
  float_on_side (xorb s1 s2) (SFdiv PyNum.prec PyNum.emax x y).
Proof.
  destruct x as [sx|sx| |sx mx ex], y as [sy|sy| |sy my ey];
    cbn [float_on_side SFdiv PyNum.is_zero]; intros Hx Hy Hzero; subst;
    try exact I; try reflexivity; try discriminate.
  destruct (SFdiv_core_binary PyNum.prec PyNum.emax (Zpos mx) ex (Zpos my) ey)
    as [[mz ez] lz].
  apply binary_round_aux_side.
Qed.

Lemma nearest_side (m : Z) (d : positive) :
  float_on_side (m <? 0) (PyNum.nearest m d).
Proof.
  destruct m as [|p|p]; cbn [PyNum.nearest Z.ltb Z.compare]; [exact I| |].
  - apply (SFdiv_side false false); reflexivity.
  - apply (SFdiv_side true false); reflexivity.
Qed.

Lemma float_of_int_side (n : Z) (x : spec_float) :
  PyNum.float_of_int n = Ok x -> float_on_side (n <? 0) x.
Proof.
  unfold PyNum.float_of_int, binary_normalize, binary_round.
  destruct n as [|p|p]; cbn [Z.ltb Z.compare].
  - intros H. injection H as <-. exact I.
  - destruct (shl_align p 0 _) as [mz ez].
    pose proof (binary_round_aux_side false (Zpos mz) ez loc_Exact) as Hside.
    destruct (binary_round_aux PyNum.prec PyNum.emax false (Zpos mz) ez loc_Exact);
      intros H; try discriminate H; injection H as <-; exact Hside.
  - destruct (shl_align p 0 _) as [mz ez].
    pose proof (binary_round_aux_side true (Zpos mz) ez loc_Exact) as Hside.
    destruct (binary_round_aux PyNum.prec PyNum.emax true (Zpos mz) ez loc_Exact);
      intros H; try discriminate H; injection H as <-; exact Hside.
Qed.

(** A float on both sides of zero may be taken on either. *)
Lemma float_on_side_of (s : bool) (n : Z) (x : spec_float) :
  (if s then n <= 0 else 0 <= n) ->
  float_on_side (n <? 0) x ->
  (n = 0 -> forall s', float_on_side s' x) ->
  float_on_side s x.
Proof.
  intros Hn Hx Hzero. destruct (Z.ltb_spec n 0) as [Hneg|Hpos].
  - destruct s; [exact Hx | lia].
  - destruct s; [apply Hzero; lia | exact Hx].
Qed.

Lemma to_float_side (s : bool) (a : PyNum.number) (x : spec_float) :
  on_side s a -> PyNum.to_float a = Ok x -> float_on_side s x.
Proof.
  destruct a as [n|y]; cbn [on_side PyNum.to_float].
  - intros Hn Hx. apply (float_on_side_of s n x Hn).
    + exact (float_of_int_side n x Hx).
    + intros -> s'. rewrite float_of_int_zero in Hx. injection Hx as <-. exact I.
  - intros Hy Hx. injection Hx as <-. exact Hy.
Qed.

(** The product and the quotient of two numbers lie on the side of zero
    that their sides give by the rule of signs. *)
Lemma mul_side (s1 s2 : bool) (a b c : PyNum.number) :
  on_side s1 a -> on_side s2 b -> PyNum.mul a b = Ok c ->
  on_side (xorb s1 s2) c.
Proof.
  intros Ha Hb.
  assert (Hfloat :
            (x <- PyNum.to_float a ;; y <- PyNum.to_float b ;;
             Ok (PyNum.Float (SFmul PyNum.prec PyNum.emax x y))) = Ok c ->
            on_side (xorb s1 s2) c).
  { destruct (PyNum.to_float a) as [x|] eqn:Ex; cbn [bind]; [|discriminate].
    destruct (PyNum.to_float b) as [y|] eqn:Ey; cbn [bind]; [|discriminate].
    intros H. injection H as <-. cbn [on_side].
    apply SFmul_side; eapply to_float_side; eassumption. }
  destruct a as [m|x], b as [n|y]; try exact Hfloat.
  cbn [PyNum.mul]. intros H. injection H as <-.
  cbn [on_side] in *. destruct s1, s2; cbn [xorb]; nia.
Qed.

Lemma truediv_side (s1 s2 : bool) (a b c : PyNum.number) :
  on_side s1 a -> on_side s2 b -> PyNum.truediv a b = Ok c ->
  on_side (xorb s1 s2) c.
Proof.
  intros Ha Hb.
  assert (Hfloat :
            (x <- PyNum.to_float a ;; y <- PyNum.to_float b ;;
             if PyNum.is_zero y then Raise ZeroDivisionError
             else Ok (PyNum.Float (SFdiv PyNum.prec PyNum.emax x y))) = Ok c ->
            on_side (xorb s1 s2) c).
  { destruct (PyNum.to_float a) as [x|] eqn:Ex; cbn [bind]; [|discriminate].
    destruct (PyNum.to_float b) as [y|] eqn:Ey; cbn [bind]; [|discriminate].
    destruct (PyNum.is_zero y) eqn:Hzero; [discriminate|].
    intros H. injection H as <-. cbn [on_side].
    apply SFdiv_side; [eapply to_float_side; eassumption
                      |eapply to_float_side; eassumption
                      |exact Hzero]. }
  destruct a as [m|x], b as [n|y]; try exact Hfloat.
  cbn [PyNum.truediv on_side] in *.
  destruct n as [|d|d]; [discriminate| |].
  - assert (Hside : float_on_side (xorb s1 s2) (PyNum.nearest m d)).
    { destruct s2; [lia|]. rewrite xorb_false_r.
      apply (float_on_side_of s1 m _ Ha (nearest_side m d)).
      intros -> s'. exact I. }
    destruct (PyNum.nearest m d); intros H; try discriminate H;
      injection H as <-; exact Hside.
  - assert (Hside : float_on_side (xorb s1 s2) (PyNum.nearest (- m) d)).
    { destruct s2; [|lia]. rewrite xorb_true_r.
      apply (float_on_side_of (negb s1) (- m) _).
      - destruct s1; cbn [negb]; lia.
      - apply nearest_side.
      - intros Hm s'. replace (- m)%Z with 0%Z by lia. exact I. }
    destruct (PyNum.nearest (- m) d); intros H; try discriminate H;
      injection H as <-; exact Hside.
Qed.

Lemma literal_side (q : Q) : (0 <= q)%Q -> on_side false (PyNum.literal q).
Proof.
  intros Hq. destruct q as [n d]. unfold Qle in Hq. cbn in Hq.
  assert (Hn : 0 <= n) by lia.
  unfold PyNum.literal. cbn [Qnum Qden].
  assert (Hside : float_on_side false (PyNum.nearest n d)).
  { apply (float_on_side_of false n _ Hn (nearest_side n d)).
    intros -> s'. exact I. }
  destruct d; cbn [on_side]; assumption.
Qed.

Lemma int_side (a : PyNum.number) (n : Z) :
  on_side true a -> PyNum.int a = Ok n -> n <= 0.
Proof.
  destruct a as [m|[s|s| |s m e]]; cbn [on_side float_on_side PyNum.int];
    intros Ha H; try discriminate H; injection H as <-; try lia.
  subst s. cbn [cond_Zopp].
  pose proof (proj2 (Z.shiftl_nonneg (Zpos m) e)). lia.
Qed.

(** X7.  Without cash nothing is sized: with a cash that is not above
    zero, a price above zero and a ratio and a count that are not below
    zero, the size that [calculate_position_size] returns is 0, whatever
    the rounding of the floats on the way. *)
Theorem position_size_needs_cash (self : Config)
        (stock_price available_cash size : Z) :
  available_cash <= 0 -> 0 < stock_price ->
  (0 <= max_invest_ratio self)%Q -> (0 <= max_position_count self)%Q ->
  calculate_position_size self stock_price available_cash = Ok size ->
  calculate_position_size self stock_price available_cash = Ok 0.
Proof.
  intros Hcash Hprice Hratio Hcount Hrun. rewrite Hrun. f_equal.
  revert Hrun. unfold calculate_position_size.
  destruct (PyNum.mul _ _) as [invested|] eqn:Emul; cbn [bind]; [|discriminate].
  destruct (PyNum.truediv invested _) as [per_position|] eqn:Ecount;
    cbn [bind]; [|discriminate].
  destruct (PyNum.truediv per_position _) as [shares|] eqn:Eprice;
    cbn [bind]; [|discriminate].
  destruct (PyNum.int shares) as [quantity|] eqn:Eint; cbn [bind]; [|discriminate].
  intros H. injection H as <-.
  assert (Hinvested : on_side true invested).
  { apply (mul_side true false _ _ _) with (3 := Emul);
      [exact Hcash | apply literal_side, Hratio]. }
  assert (Hper : on_side true per_position).
  { apply (truediv_side true false _ _ _) with (3 := Ecount);
      [exact Hinvested | apply literal_side, Hcount]. }
  assert (Hshares : on_side true shares).
  { apply (truediv_side true false _ _ _) with (3 := Eprice);
      [exact Hper | cbn [on_side]; lia]. }
  pose proof (int_side shares quantity Hshares Eint). lia.
Qed.

End Budget.

(** X7 on an overdrawn account: a cash of -1 sizes no share. *)
Lemma position_size_needs_cash_witness :
  calculate_position_size default_config 50000 (-1) = Ok 0.
Proof.
  apply (position_size_needs_cash default_config 50000 (-1) 0);
    try (vm_compute; reflexivity); try discriminate; lia.
Defined.

(** ** Price exits *)

Section PriceExits.

Local Open Scope Q_scope.

Lemma Qdiv_le_iff (a b c : Q) : 0 < c -> (a / c <= b <-> a <= b * c).
Proof.
  intros Hc. split.
  - intros H. assert (E : a / c * c == a) by (field; lra).
    rewrite <- E. apply Qmult_le_compat_r; [exact H | lra].
  - apply Qle_shift_div_r, Hc.
Qed.

Lemma Qle_div_iff (a b c : Q) : 0 < c -> (b <= a / c <-> b * c <= a).
Proof.
  intros Hc. split.
  - intros H. assert (E : a / c * c == a) by (field; lra).
    rewrite <- E. apply Qmult_le_compat_r; [exact H | lra].
  - apply Qle_shift_div_l, Hc.
Qed.

(** X8.  For a holding bought at a positive price, [should_sell] returns
    true as soon as the price is at most (1 - stop_loss_ratio) times, or
    at least (1 + take_profit_ratio) times the buying price, whatever the
    indicators are; and when ma5 and rsi are absent these two price
    levels are the only reasons to sell. *)
Theorem should_sell_price_exit (self : Config) (a : Analysis) (h : Holding) :
  (0 < buy_price h)%Z ->
  let price := inject_Z (current_price a) in
  let cost := inject_Z (buy_price h) in
  let exit := price <= (1 - stop_loss_ratio self) * cost
              \/ (1 + take_profit_ratio self) * cost <= price in
  (exit -> should_sell self (Some a) (Some h) = Ok true)
  /\ (ma5 a = None -> rsi a = None ->
      (should_sell self (Some a) (Some h) = Ok true <-> exit)).
Proof.
  intros Hbuy price cost exit.
  assert (Hcost : 0 < cost) by (unfold cost, Qlt; simpl; lia).
  assert (Hstop : Py.leb ((price - cost) / cost) (- stop_loss_ratio self) = true
                  <-> price <= (1 - stop_loss_ratio self) * cost).
  { rewrite PyFacts.leb_true, (Qdiv_le_iff _ _ _ Hcost).
    split; intros H; lra. }
  assert (Htake : Py.geb ((price - cost) / cost) (take_profit_ratio self) = true
                  <-> (1 + take_profit_ratio self) * cost <= price).
  { rewrite PyFacts.geb_true, (Qle_div_iff _ _ _ Hcost).
    split; intros H; lra. }
  unfold should_sell. fold price cost.
  rewrite PyFacts.div_nonzero by lra. cbn [bind existsb].
  split.
  - intros [Hlow|Hhigh].
    + apply Hstop in Hlow. rewrite Hlow. reflexivity.
    + apply Htake in Hhigh. rewrite Hhigh. rewrite orb_true_r. reflexivity.
  - intros E5 Er. rewrite E5, Er. cbn [truthy_and]. rewrite !orb_false_r.
    unfold exit. rewrite <- Hstop, <- Htake, <- orb_true_iff.
    split; [intros H; injection H as H; exact H | intros ->; reflexivity].
Qed.

Lemma should_sell_price_exit_witness :
  should_sell default_config (Some loss_analysis) (Some par_holding) = Ok true.
Proof.
  assert (Hbuy : (0 < buy_price par_holding)%Z) by reflexivity.
  apply (proj1 (should_sell_price_exit default_config loss_analysis par_holding Hbuy)).
  left. vm_compute. discriminate.
Defined.

End PriceExits.

(** ** Holdings by symbol *)

Section HoldingsBySymbol.

Lemma dict_get_set_same {V : Type} (k : string) (v : V) (d : dict V) :
  dict_get k (dict_set k v d) = Some v.
Proof.
  induction d as [|[k' v'] d IH]; simpl.
  - rewrite String.eqb_refl. reflexivity.
  - destruct (String.eqb k k') eqn:E; simpl.
    + rewrite String.eqb_refl. reflexivity.
    + rewrite E. exact IH.
Qed.

Lemma dict_get_set_other {V : Type} (k k' : string) (v : V) (d : dict V) :
  k' <> k -> dict_get k' (dict_set k v d) = dict_get k' d.
Proof.
  intros Hne. induction d as [|[k0 v0] d IH]; simpl.
  - destruct (String.eqb_spec k' k); [contradiction | reflexivity].
  - destruct (String.eqb_spec k k0) as [->|Hk]; simpl.
    + destruct (String.eqb_spec k' k0); [contradiction | reflexivity].
    + destruct (String.eqb k' k0); [reflexivity | exact IH].
Qed.

Variable int_of_str : string -> result Z.

(** The loop over a concatenation is the loop over its parts in turn. *)
Lemma collect_holdings_app (l1 l2 : list Stock) :
  forall acc,
    collect_holdings int_of_str (l1 ++ l2) acc
    = (mid <- collect_holdings int_of_str l1 acc ;;
       collect_holdings int_of_str l2 mid).
Proof.
  induction l1 as [|stock l1 IH]; intros acc; [reflexivity|].
  cbn [app collect_holdings].
  destruct (int_of_str (hldg_qty stock)) as [q|]; [|reflexivity].
  cbn [bind]. destruct (q >? 0)%Z; [|apply IH].
  destruct (int_of_str (pchs_avg_pric stock)); [|reflexivity].
  destruct (int_of_str (evlu_amt stock)); [|reflexivity].
  destruct (int_of_str (evlu_pfls_amt stock)); [|reflexivity].
  cbn [bind]. apply IH.
Qed.

(** Entries that are not positive entries for [code] leave the holding of
    [code] as it is. *)
Lemma collect_holdings_keeps (code : string) (stocks : list Stock) :
  forall acc res,
    collect_holdings int_of_str stocks acc = Ok res ->
    Forall (fun stock => ~ positive_entry int_of_str code stock) stocks ->
    dict_get code res = dict_get code acc.
Proof.
  induction stocks as [|stock rest IH]; intros acc res Hrun Hnone.
  - simpl in Hrun. injection Hrun as <-. reflexivity.
  - inversion Hnone as [|? ? Hstock Hrest]; subst.
    cbn [collect_holdings] in Hrun.
    destruct (int_of_str (hldg_qty stock)) as [q|] eqn:Eq; [|discriminate Hrun].
    cbn [bind] in Hrun. destruct (Z.gtb_spec q 0) as [Hpos|Hnon].
    + destruct (int_of_str (pchs_avg_pric stock)); [|discriminate Hrun].
      destruct (int_of_str (evlu_amt stock)); [|discriminate Hrun].
      destruct (int_of_str (evlu_pfls_amt stock)); [|discriminate Hrun].
      cbn [bind] in Hrun. rewrite (IH _ _ Hrun Hrest).
      apply dict_get_set_other. intros ->. apply Hstock.
      split; [reflexivity|]. exists q. split; [assumption | lia].
    + apply (IH _ _ Hrun Hrest).
Qed.

(** X9.  When the payload reports a symbol more than once, the holding
    that [get_portfolio_status] keeps for it carries the figures of the
    last entry with a quantity above zero. *)
Theorem holdings_last_entry (b : Balance) (p : Portfolio)
        (before after : list Stock) (stock : Stock) :
  portfolio_of int_of_str (Some b) = Ok (Some p) ->
  balance_stocks b = (before ++ stock :: after)%list ->
  positive_entry int_of_str (pdno stock) stock ->
  Forall (fun later => ~ positive_entry int_of_str (pdno stock) later) after ->
  exists h,
    dict_get (pdno stock) (holdings p) = Some h
    /\ holding_from int_of_str stock h.
Proof.
  intros Hp Hstocks (_ & q & Eq & Hpos) Hafter.
  unfold portfolio_of in Hp. rewrite Hstocks in Hp.
  destruct (collect_holdings int_of_str (before ++ stock :: after) []) as [hs|] eqn:Hrun;
    cbn [bind] in Hp; [|discriminate Hp].
  injection Hp as <-. cbn [holdings].
  rewrite collect_holdings_app in Hrun.
  destruct (collect_holdings int_of_str before []) as [mid|]; [|discriminate Hrun].
  cbn [bind collect_holdings] in Hrun. rewrite Eq in Hrun. cbn [bind] in Hrun.
  destruct (Z.gtb_spec q 0) as [_|Hnon]; [|lia].
  cbn [bind] in Hrun.
  destruct (int_of_str (pchs_avg_pric stock)) as [bp|] eqn:Ebp; [|discriminate Hrun].
  destruct (int_of_str (evlu_amt stock)) as [cv|] eqn:Ecv; [|discriminate Hrun].
  destruct (int_of_str (evlu_pfls_amt stock)) as [pl|] eqn:Epl; [|discriminate Hrun].
  cbn [bind] in Hrun.
  rewrite (collect_holdings_keeps _ _ _ _ Hrun Hafter), dict_get_set_same.
  eexists. split; [reflexivity|].
  unfold holding_from. simpl. auto.
Qed.

(** A symbol held before the loop, or reported by a positive entry, is
    held after it. *)
Lemma collect_holdings_member (code : string) (stocks : list Stock) :
  forall acc res,
    collect_holdings int_of_str stocks acc = Ok res ->
    dict_mem code acc = true
    \/ Exists (positive_entry int_of_str code) stocks ->
    dict_mem code res = true.
Proof.
  induction stocks as [|stock rest IH]; intros acc res Hrun Hcase.
  - simpl in Hrun. injection Hrun as <-.
    destruct Hcase as [H|H]; [exact H | inversion H].
  - cbn [collect_holdings] in Hrun.
    destruct (int_of_str (hldg_qty stock)) as [q|] eqn:Eq; [|discriminate Hrun].
    cbn [bind] in Hrun. destruct (Z.gtb_spec q 0) as [Hpos|Hnon].
    + destruct (int_of_str (pchs_avg_pric stock)); [|discriminate Hrun].
      destruct (int_of_str (evlu_amt stock)); [|discriminate Hrun].
      destruct (int_of_str (evlu_pfls_amt stock)); [|discriminate Hrun].
      cbn [bind] in Hrun. apply (IH _ _ Hrun).
      destruct (String.eqb_spec code (pdno stock)) as [->|Hne].
      * left. unfold dict_mem. rewrite dict_get_set_same. reflexivity.
      * destruct Hcase as [H|H].
        -- left. unfold dict_mem in *. rewrite dict_get_set_other by exact Hne.
           exact H.
        -- inversion H as [? ? [Hcode _]|? ? Hex]; subst.
           ++ exfalso. apply Hne. reflexivity.
           ++ right. exact Hex.
    + apply (IH _ _ Hrun). destruct Hcase as [H|H]; [now left|].
      inversion H as [? ? (_ & q' & Eq' & Hq')|? ? Hex]; subst.
      * rewrite Eq in Eq'. injection Eq' as <-. lia.
      * right. exact Hex.
Qed.

(** X10.  In a portfolio that [get_portfolio_status] builds a symbol is
    held exactly when the payload has an entry for it with a quantity
    above zero: no positive position is dropped and none is invented. *)
Theorem holdings_membership (b : Balance) (p : Portfolio) (code : string) :
  portfolio_of int_of_str (Some b) = Ok (Some p) ->
  (dict_mem code (holdings p) = true
   <-> Exists (positive_entry int_of_str code) (balance_stocks b)).
Proof.
  intros Hp. unfold portfolio_of in Hp.
  destruct (collect_holdings int_of_str (balance_stocks b) []) as [hs|] eqn:Hrun;
    cbn [bind] in Hp; [|discriminate Hp].
  injection Hp as <-. cbn [holdings]. split.
  - intros Hmem.
    apply (collect_holdings_invariant int_of_str (balance_stocks b)) in Hrun;
      [|apply incl_refl|constructor|constructor|constructor].
    destruct Hrun as (_ & Hheld & Hrep).
    unfold dict_mem in Hmem.
    destruct (dict_get code hs) as [h|] eqn:Eget; [|discriminate Hmem].
    assert (Hin : In (code, h) hs).
    { clear - Eget. induction hs as [|[k v] hs IH]; simpl in *; [discriminate|].
      destruct (String.eqb_spec code k) as [->|Hne].
      - injection Eget as ->. now left.
      - right. apply IH, Eget. }
    unfold all_held in Hheld. rewrite Forall_forall in Hheld, Hrep.
    specialize (Hheld _ Hin). destruct (Hrep _ Hin) as (stock & Hs & Hcode & Hq).
    apply Exists_exists. exists stock. split; [exact Hs|].
    split; [exact Hcode|]. exists (quantity h). simpl in *. auto.
  - intros Hex. apply (collect_holdings_member code _ _ _ Hrun). now right.
Qed.

End HoldingsBySymbol.

Lemma holdings_last_entry_witness :
  exists h,
    dict_get "005930"
             (holdings {| cash := 0;
                          holdings := [ ("005930"%string,
                                         {| quantity := 3; buy_price := 71000;
                                            current_value := 0; profit_loss := 0 |}) ];
                          position_count := 1 |}) = Some h
    /\ holding_from Py.int_of_decimal (stock_entry "005930" "3" "71000") h.
Proof.
  apply (holdings_last_entry Py.int_of_decimal repeated_balance _
           [ stock_entry "005930" "10" "70000"; stock_entry "000660" "0" "50000" ]
           [] (stock_entry "005930" "3" "71000")).
  - vm_compute. reflexivity.
  - reflexivity.
  - split; [reflexivity|]. exists 3. split; [vm_compute; reflexivity | lia].
  - constructor.
Defined.

Lemma holdings_membership_witness :
  dict_mem "000660" (holdings mixed_portfolio) = true
  <-> Exists (positive_entry Py.int_of_decimal "000660")
             (balance_stocks mixed_balance).
Proof.
  apply (holdings_membership Py.int_of_decimal mixed_balance mixed_portfolio).
  vm_compute. reflexivity.
Defined.

(** ** Read operations *)

Section ReadOperations.

Import KISOpenAPI ApiReads.
Local Open Scope string_scope.

Variable int_of_str : string -> result Z.
Variable self : Self.

Lemma chart_bars_from (items : list ChartItem) :
  forall bars,
    chart_bars int_of_str items = Ok bars ->
    Forall2 (bar_from int_of_str) items bars.
Proof.
  induction items as [|item rest IH]; intros bars Hrun.
  - simpl in Hrun. injection Hrun as <-. constructor.
  - cbn [chart_bars] in Hrun.
    destruct (int_of_str (stck_oprc item)) as [o|] eqn:Eo; [|discriminate Hrun].
    destruct (int_of_str (stck_hgpr item)) as [hi|] eqn:Eh; [|discriminate Hrun].
    destruct (int_of_str (stck_lwpr item)) as [lo|] eqn:El; [|discriminate Hrun].
    destruct (int_of_str (stck_clpr item)) as [c|] eqn:Ec; [|discriminate Hrun].
    destruct (int_of_str (acml_vol item)) as [v|] eqn:Ev; [|discriminate Hrun].
    cbn [bind] in Hrun.
    destruct (chart_bars int_of_str rest) as [tail|]; [|discriminate Hrun].
    cbn [bind] in Hrun. injection Hrun as <-.
    constructor; [|apply IH; reflexivity].
    unfold bar_from. simpl. auto 6.
Qed.

Lemma slice_to_length {A : Type} (xs : list A) (k : Z) :
  (0 <= k)%Z ->
  length (slice_to xs k) = Z.to_nat (Z.min k (Z.of_nat (length xs))).
Proof.
  intros Hk. unfold slice_to.
  destruct (Z.ltb_spec k 0) as [Hneg|_]; [lia|].
  rewrite length_firstn. lia.
Qed.

(** X11.  When [get_chart_data] returns bars, the reply was accepted
    (status 200, rt_cd "0") to its one GET, and the bars are the first
    [count] items of the reply, in the order of the reply, each with the
    integer values of its item; the items after them are not read, so text
    that is no integer there does not matter. *)
Theorem get_chart_data_first_items
        (net : trace -> Request -> result ChartResponse)
        (stock_code period : string) (count : Z) (t t' : trace)
        (bars : list Bar) :
  get_chart_data int_of_str self net stock_code period count t
  = (Ok (Some bars), t') ->
  exists r response,
    t' = (t ++ [Http r])%list
    /\ req_method r = "GET"
    /\ net t r = Ok response
    /\ chart_status_code response = 200%Z
    /\ chart_rt_cd (chart_json response) = "0"
    /\ chart_bars int_of_str (slice_to (chart_output2 (chart_json response)) count)
       = Ok bars
    /\ Forall2 (bar_from int_of_str)
               (slice_to (chart_output2 (chart_json response)) count) bars
    /\ ((0 <= count)%Z ->
        length bars
        = Z.to_nat (Z.min count
                      (Z.of_nat (length (chart_output2 (chart_json response)))))).
Proof.
  unfold get_chart_data, and_then, get, lift, pure.
  match goal with |- context [net t ?req] => set (r := req) end.
  destruct (net t r) as [response|e] eqn:Hnet; [|discriminate].
  destruct (Z.eqb_spec (chart_status_code response) 200) as [Hstatus|_];
    [|discriminate].
  destruct (String.eqb_spec (chart_rt_cd (chart_json response)) "0") as [Hcode|_];
    [|discriminate].
  destruct (chart_bars int_of_str
              (slice_to (chart_output2 (chart_json response)) count))
    as [parsed|e] eqn:Hparse; [|discriminate].
  intros H. injection H as <- <-.
  pose proof (chart_bars_from _ _ Hparse) as Hfrom.
  exists r, response. repeat split; try assumption; try reflexivity.
  intros Hcount. rewrite <- (Forall2_length Hfrom). apply slice_to_length, Hcount.
Qed.

(** X12.  When [get_balance] returns a balance, the reply was accepted to
    its one GET, the cash is the integer value of the first deposit entry
    and the stocks are those of the reply, unchanged; an accepted reply
    without a deposit entry makes the call raise IndexError. *)
Theorem get_balance_outcome
        (net : trace -> Request -> result BalanceResponse) (t : trace) :
  (forall t' b,
      get_balance int_of_str self net t = (Ok (Some b), t') ->
      exists r response first rest,
        t' = (t ++ [Http r])%list
        /\ net t r = Ok response
        /\ balance_status_code response = 200%Z
        /\ balance_rt_cd (balance_json response) = "0"
        /\ balance_output2 (balance_json response) = first :: rest
        /\ int_of_str (dnca_tot_amt first) = Ok (balance_cash b)
        /\ balance_stocks b = balance_output1 (balance_json response))
  /\ (forall response cano prdt others,
         split "-" (account_no self) = cano :: prdt :: others ->
         (forall r, net t r = Ok response) ->
         balance_status_code response = 200%Z ->
         balance_rt_cd (balance_json response) = "0" ->
         balance_output2 (balance_json response) = [] ->
         fst (get_balance int_of_str self net t) = Raise IndexError).
Proof.
  split.
  - intros t' b. unfold get_balance, and_then, get, lift, pure, index.
    destruct (nth_error (split "-" (account_no self)) 0) as [cano|]; [|discriminate].
    destruct (nth_error (split "-" (account_no self)) 1) as [prdt|]; [|discriminate].
    match goal with |- context [net t ?req] => set (r := req) end.
    destruct (net t r) as [response|e] eqn:Hnet; [|discriminate].
    destruct (Z.eqb_spec (balance_status_code response) 200) as [Hstatus|_];
      [|discriminate].
    destruct (String.eqb_spec (balance_rt_cd (balance_json response)) "0")
      as [Hcode|_]; [|discriminate].
    destruct (balance_output2 (balance_json response)) as [|first rest] eqn:Hout;
      [discriminate|].
    cbn [nth_error].
    destruct (int_of_str (dnca_tot_amt first)) as [c|e] eqn:Hcash; [|discriminate].
    intros H. injection H as <- <-.
    exists r, response, first, rest. repeat split; try assumption; reflexivity.
  - intros response cano prdt others Hsplit Hnet Hstatus Hcode Hout.
    unfold get_balance, and_then, get, lift, pure, index.
    rewrite Hsplit. cbn [nth_error]. rewrite Hnet, Hstatus, Hcode, Hout.
    reflexivity.
Qed.

End ReadOperations.

(** With a count of 2 the third item of [chart_reply], whose price is no
    integer, is not read. *)
Lemma get_chart_data_first_items_witness :
  exists bars,
    fst (ApiReads.get_chart_data Py.int_of_decimal paper_account chart_net
           "005930" "D" 2 []) = Ok (Some bars)
    /\ length bars = 2%nat.
Proof.
  destruct (ApiReads.get_chart_data Py.int_of_decimal paper_account chart_net
              "005930" "D" 2 []) as [res t'] eqn:Hrun.
  pose proof Hrun as Hvalue. vm_compute in Hvalue. injection Hvalue as <- <-.
  eexists. split; [reflexivity|].
  destruct (get_chart_data_first_items Py.int_of_decimal paper_account chart_net
              "005930" "D" 2 [] _ _ Hrun)
    as (r & response & _ & _ & Hnet & _ & _ & _ & _ & Hlen).
  unfold chart_net in Hnet. injection Hnet as <-.
  apply Hlen. lia.
Defined.

Lemma get_balance_outcome_witness :
  fst (ApiReads.get_balance Py.int_of_decimal paper_account
         (fun _ _ => Ok empty_deposit_reply) []) = Raise IndexError.
Proof.
  apply (proj2 (get_balance_outcome Py.int_of_decimal paper_account
                  (fun _ _ => Ok empty_deposit_reply) [])
           empty_deposit_reply "12345678"%string "01"%string []);
    reflexivity.
Defined.

Example get_balance_deposit :
  fst (ApiReads.get_balance Py.int_of_decimal paper_account
         (fun _ _ => Ok deposit_reply) [])
  = Ok (Some {| balance_cash := 1000000;
                balance_stocks := [ stock_entry "000660" "10" "50000" ] |}).
Proof. vm_compute. reflexivity. Qed.

(** ** Bounds of the request executor *)

Section RequestBounds.

Import KISOpenAPI.

Variable str_upper : string -> string.

Lemma sleeps_of_app (a b : trace) : sleeps_of (a ++ b) = sleeps_of a + sleeps_of b.
Proof.
  induction a as [|ev a IH]; simpl; [reflexivity|].
  destruct ev; rewrite ?IH; lia.
Qed.

Lemma requests_of_app (a b : trace) :
  requests_of (a ++ b) = (requests_of a ++ requests_of b)%list.
Proof. unfold requests_of. apply flat_map_app. Qed.

Variable net : Network.
Variables method url : string.
Variables headers params data : option (dict string).
Variables timeout max_retries : Z.

Local Notation "'within'" :=
  (attempts_within
     (fun r => request_of str_upper method url headers params data timeout = Some r)).

Lemma pow2_le (a b : nat) : (a <= b)%nat -> 2 ^ Z.of_nat a <= 2 ^ Z.of_nat b.
Proof. intros H. apply Z.pow_le_mono_r; lia. Qed.

Lemma send_once_cases (t : trace) :
  (request_of str_upper method url headers params data timeout = None
   /\ send_once str_upper net method url headers params data timeout t
      = (Raise (UnsupportedMethod method), t))
  \/ exists r,
      request_of str_upper method url headers params data timeout = Some r
      /\ send_once str_upper net method url headers params data timeout t
         = (net t r, (t ++ [Http r])%list).
Proof.
  unfold send_once, request_of.
  destruct (String.eqb (str_upper method) "GET").
  - right. eexists. split; reflexivity.
  - destruct (String.eqb (str_upper method) "POST").
    + right. eexists. split; reflexivity.
    + left. split; reflexivity.
Qed.

Lemma loop_within (m : nat) :
  forall k t,
    (k + m)%nat = Z.to_nat max_retries ->
    exists evs,
      snd (make_request_loop str_upper net method url headers params data timeout
             max_retries (map Z.of_nat (seq k m)) t)
      = (t ++ evs)%list
      /\ within k m evs.
Proof.
  induction m as [|m IH]; intros k t Hsum.
  - exists []. split; [symmetry; apply app_nil_r|].
    unfold attempts_within. simpl. repeat split; try lia; constructor.
  - cbn [seq map make_request_loop]. unfold try_except.
    assert (Hmax : max_retries = Z.of_nat (k + S m)) by lia.
    assert (Hpow : 2 ^ Z.of_nat k <= 2 ^ Z.of_nat (k + S m - 1))
      by (apply pow2_le; lia).
    assert (Hquiet : forall p,
               within k (S m) [Print p]).
    { intros p. unfold attempts_within. simpl. repeat split; try lia; constructor. }
    destruct (send_once_cases t) as [[Hnone ->]|(r & Hsome & ->)].
    + exists [Print (UnexpectedError (UnsupportedMethod method))].
      split; [reflexivity|]. apply Hquiet.
    + assert (Hone : forall p,
                 within k (S m) [Http r; Print p]).
      { intros p. unfold attempts_within. simpl. repeat split; try lia.
        constructor; [exact Hsome | constructor]. }
      assert (Hretry : forall e p,
                 exists evs,
                   snd ((emit (Print p) ;;;
                         if (Z.of_nat k <? max_retries - 1)%Z
                         then sleep (2 ^ Z.of_nat k) ;;;
                              make_request_loop str_upper net method url headers params
                                data timeout max_retries
                                (map Z.of_nat (seq (S k) m))
                         else lift (Raise e)) (t ++ [Http r])%list)
                   = (t ++ evs)%list
                   /\ within k (S m) evs).
      { intros e p. cbv beta iota delta [and_then emit sleep lift].
        destruct (Z.ltb_spec (Z.of_nat k) (max_retries - 1)) as [Hmore|Hlast].
        - destruct (IH (S k) (((t ++ [Http r]) ++ [Print p]) ++ [Sleep (2 ^ Z.of_nat k)])%list)
            as (evs & Hrun & Hreq & _ & Hwait & Hsame); [lia|].
          destruct (make_request_loop str_upper net method url headers params data timeout
                      max_retries (map Z.of_nat (seq (S k) m))
                      (((t ++ [Http r]) ++ [Print p]) ++ [Sleep (2 ^ Z.of_nat k)])%list)
            as [res t'] eqn:Hloop.
          cbn [snd] in Hrun. subst t'.
          exists ([Http r; Print p; Sleep (2 ^ Z.of_nat k)] ++ evs)%list.
          split.
          + destruct res; cbn [snd]; rewrite <- !app_assoc; reflexivity.
          + destruct Hwait as [Hnon Hsum']; [lia|].
            unfold attempts_within. rewrite requests_of_app, sleeps_of_app, length_app.
            cbn [requests_of flat_map app length sleeps_of fold_right].
            replace (Z.of_nat (S k + m - 1)) with (Z.of_nat (k + S m - 1)) in Hsum'
              by lia.
            assert (Hdouble : 2 ^ Z.of_nat (S k) = 2 * 2 ^ Z.of_nat k).
            { rewrite Nat2Z.inj_succ. apply Z.pow_succ_r. lia. }
            assert (Hpos : 0 < 2 ^ Z.of_nat k) by (apply Z.pow_pos_nonneg; lia).
            repeat split; try lia.
            constructor; [exact Hsome | exact Hsame].
        - eexists. split; [rewrite <- app_assoc; reflexivity | apply Hone]. }
      assert (Hsent : within k (S m) [Http r]).
      { unfold attempts_within. simpl. repeat split; try lia.
        constructor; [exact Hsome | constructor]. }
      destruct (net t r) as [response|e].
      * exists [Http r]. split; [reflexivity | exact Hsent].
      * destruct e; cbn [is_exception];
          try (eexists; split;
               [ cbv beta iota delta [and_then emit lift]; cbn [snd];
                 rewrite <- app_assoc; reflexivity
               | apply Hone ]);
          try (exists [Http r]; split; [reflexivity | exact Hsent]);
          apply Hretry.
Qed.

(** X13.  Whatever the remote end does, [make_request] only appends to the
    trace, sends at most [max_retries] requests, all of them the request
    of the call, and waits no longer than 2^(max_retries - 1) - 1 seconds
    in total: 3 seconds for the default of three attempts. *)
Theorem make_request_bounded (t : trace) :
  exists evs,
    snd (make_request str_upper net method url headers params data timeout max_retries t)
    = (t ++ evs)%list
    /\ (length (requests_of evs) <= Z.to_nat max_retries)%nat
    /\ 0 <= sleeps_of evs <= longest_wait max_retries
    /\ Forall (fun r => request_of str_upper method url headers params data timeout = Some r)
              (requests_of evs).
Proof.
  destruct (loop_within (Z.to_nat max_retries) 0 t) as (evs & Hrun & Hreq & Hzero & Hwait & Hsame);
    [reflexivity|].
  exists evs. split; [exact Hrun|]. split; [exact Hreq|]. split; [|exact Hsame].
  unfold longest_wait.
  destruct (Z.leb_spec max_retries 0) as [Hnone|Hsome].
  - rewrite Hzero by lia. lia.
  - destruct Hwait as [Hnon Hsum]; [lia|].
    replace (Z.of_nat (0 + Z.to_nat max_retries - 1)) with (max_retries - 1) in Hsum
      by lia.
    change (2 ^ Z.of_nat 0) with 1 in Hsum. lia.
Qed.

End RequestBounds.

(** ** Orders on the wire *)

Section OrdersOnTheWire.

Import KISOpenAPI.
Local Open Scope string_scope.

Lemma split_without (sep : ascii) (s : string) :
  occurs sep s = false -> split sep s = [s].
Proof.
  induction s as [|c s IH]; simpl; [reflexivity|].
  intros H. apply orb_false_iff in H. destruct H as [Hc Hs].
  rewrite Hc, (IH Hs). reflexivity.
Qed.

Lemma split_at_first (sep : ascii) (a b : string) :
  occurs sep a = false ->
  split sep (a ++ String sep b) = a :: split sep b.
Proof.
  induction a as [|c a IH]; simpl.
  - intros _. rewrite Ascii.eqb_refl. reflexivity.
  - intros H. apply orb_false_iff in H. destruct H as [Hc Ha].
    rewrite Hc, (IH Ha). reflexivity.
Qed.

(** [int] reads back what [str] writes. *)
Lemma int_of_decimal_str (n : Z) : Py.int_of_decimal (Py.str n) = Ok n.
Proof.
  unfold Py.int_of_decimal, Py.str.
  rewrite NilZero.isi.
  - rewrite DecimalZ.of_to. reflexivity.
  - destruct n; simpl; try discriminate.
    intros H. injection H as H. exact (DecimalPos.Unsigned.to_uint_nonnil _ H).
  - destruct n; simpl; try discriminate.
    intros H. injection H as H. exact (DecimalPos.Unsigned.to_uint_nonnil _ H).
Qed.

Variable self : Self.
Variable net : Network.

(** X14.  An order call sends at most one request and never repeats it.
    When it returns, the result reports success exactly when the reply had
    status 200 and rt_cd "0", and carries an order number exactly then,
    the one of the reply.  When it raises, either the account number had
    no second part and nothing was sent, or the transport failed and its
    exception reaches the caller as it is, or the reply had status 200 and
    could not be read: the exception of the decoding or of the missing
    field reaches the caller, after the order was sent. *)
Theorem order_result_invariant
        (order : string -> Z -> Z -> string -> action OrderResult)
        (stock_code : string) (quantity price : Z) (order_type : string)
        (t : trace) :
  is_order_call self net order ->
  match order stock_code quantity price order_type t with
  | (Ok res, t') =>
      exists r response,
        t' = (t ++ [Http r])%list
        /\ net t r = Ok response
        /\ (success res = true <-> accepted response)
        /\ (forall number,
              order_no res = Some number
              <-> accepted response /\ reply_order_no response number)
        /\ (success res = false <-> order_no res = None)
  | (Raise e, t') =>
      (e = IndexError /\ t' = t
       /\ nth_error (split "-" (account_no self)) 1 = None)
      \/ exists r,
          t' = (t ++ [Http r])%list
          /\ (net t r = Raise e
              \/ exists response,
                  net t r = Ok response /\ reading_raises response e)
  end.
Proof.
  intros Horder.
  destruct (order_run self net order stock_code quantity price order_type t
                      Horder) as (tr_id & done & ->).
  destruct (split "-" (account_no self)) as [|cano [|prdt others]];
    [left; repeat split; reflexivity | left; repeat split; reflexivity |].
  cbv zeta.
  set (r := order_request self tr_id cano prdt stock_code quantity price).
  destruct (net t r) as [response|e] eqn:Hnet;
    [|right; exists r; split; [reflexivity | left; exact Hnet]].
  unfold accepted, reply_order_no, reading_raises.
  destruct (Z.eqb_spec (status_code response) 200) as [Hstatus|Hstatus].
  2:{ exists r, response. cbn [success order_no].
      split; [reflexivity|]. split; [exact Hnet|].
      repeat split; try reflexivity; try discriminate; try tauto;
        try (intros [H _]; contradiction);
        try (intros [[H _] _]; contradiction). }
  destruct (response_json response) as [reply|e] eqn:Hjson; cbn [bind].
  2:{ right. exists r. split; [reflexivity|]. right. exists response.
      split; [exact Hnet|]. split; [exact Hstatus|]. left. exact Hjson. }
  destruct (rt_cd reply) as [code|e] eqn:Hcode; cbn [bind].
  2:{ right. exists r. split; [reflexivity|]. right. exists response.
      split; [exact Hnet|]. split; [exact Hstatus|].
      right. exists reply. auto. }
  destruct (String.eqb_spec code "0") as [->|Hother].
  - destruct (output_ORD_NO reply) as [number|e] eqn:Hnumber; cbn [bind].
    + exists r, response. cbn [success order_no].
      split; [reflexivity|]. split; [exact Hnet|].
      split; [split; [intros _; split; [exact Hstatus|exists reply; auto]
                     |reflexivity]|].
      split; [|split; discriminate].
      intros number'. split.
      * intros H. injection H as <-.
        split; [split; [exact Hstatus|exists reply; auto]|exists reply; auto].
      * intros [_ (reply' & Hjson' & Hnumber')]. congruence.
    + right. exists r. split; [reflexivity|]. right. exists response.
      split; [exact Hnet|]. split; [exact Hstatus|].
      right. exists reply. auto.
  - destruct (msg1 reply) as [text|e] eqn:Hmsg; cbn [bind].
    + exists r, response. cbn [success order_no].
      split; [reflexivity|]. split; [exact Hnet|].
      assert (Hrefused : ~ (status_code response = 200
                            /\ exists reply', response_json response = Ok reply'
                                              /\ rt_cd reply' = Ok "0")).
      { intros [_ (reply' & Hjson' & Hcode')]. congruence. }
      split; [split; [discriminate | intros H; contradiction]|].
      split; [|split; reflexivity].
      intros number'. split; [discriminate | intros [H _]; contradiction].
    + right. exists r. split; [reflexivity|]. right. exists response.
      split; [exact Hnet|]. split; [exact Hstatus|].
      right. exists reply. split; [exact Hjson|].
      right. right. exists code. auto.
Qed.

(** What an order call sends when the account number has two parts. *)
Lemma order_sends (order : string -> Z -> Z -> string -> action OrderResult)
      (stock_code : string) (quantity price : Z) (order_type : string)
      (t : trace) (cano prdt : string) (others : list string) :
  is_order_call self net order ->
  split "-" (account_no self) = cano :: prdt :: others ->
  exists tr_id,
    snd (order stock_code quantity price order_type t)
    = (t ++ [Http (order_request self tr_id cano prdt stock_code
                                 quantity price)])%list.
Proof.
  intros Horder Hsplit.
  destruct (order_run self net order stock_code quantity price order_type t
                      Horder) as (tr_id & done & ->).
  rewrite Hsplit. exists tr_id. cbv zeta.
  destruct (net t _); reflexivity.
Qed.

(** X15.  An order call splits the account number at its dashes: for an
    account number made of two parts around one dash the request carries
    the first part as CANO and the second as ACNT_PRDT_CD, beside the
    stock code as PDNO; an account number without a dash makes the call
    raise IndexError before anything is sent. *)
Theorem order_account_parts
        (order : string -> Z -> Z -> string -> action OrderResult)
        (stock_code : string) (quantity price : Z) (order_type : string)
        (t : trace) :
  is_order_call self net order ->
  (forall first second,
      account_no self = first ++ String "-" second ->
      occurs "-" first = false -> occurs "-" second = false ->
      exists r form,
        snd (order stock_code quantity price order_type t) = (t ++ [Http r])%list
        /\ req_data r = Some form
        /\ dict_get "CANO" form = Some first
        /\ dict_get "ACNT_PRDT_CD" form = Some second
        /\ dict_get "PDNO" form = Some stock_code)
  /\ (occurs "-" (account_no self) = false ->
      order stock_code quantity price order_type t = (Raise IndexError, t)).
Proof.
  intros Horder. split.
  - intros first second Haccount Hfirst Hsecond.
    assert (Hsplit : split "-" (account_no self) = [first; second]).
    { rewrite Haccount, split_at_first, split_without by assumption. reflexivity. }
    destruct (order_sends order stock_code quantity price order_type t _ _ _
                          Horder Hsplit) as (tr_id & Hrun).
    eexists. eexists. split; [exact Hrun|]. repeat split; reflexivity.
  - intros Hnone. pose proof (split_without "-" _ Hnone) as Hsplit.
    destruct Horder as [-> | ->].
    + unfold buy_order, and_then, lift, index. rewrite Hsplit.
      destruct (price =? 0)%Z; reflexivity.
    + unfold sell_order, and_then, lift, index. rewrite Hsplit.
      destruct (price =? 0)%Z; reflexivity.
Qed.

(** X16.  The quantity and the price of an order survive the way to the
    wire: read back as integers, the ORD_QTY and ORD_UNPR of the request
    are the quantity and the price of the call. *)
Theorem order_fields_decode
        (order : string -> Z -> Z -> string -> action OrderResult)
        (stock_code : string) (quantity price : Z) (order_type : string)
        (t : trace) (r : Request) :
  is_order_call self net order ->
  snd (order stock_code quantity price order_type t) = (t ++ [Http r])%list ->
  exists form quantity_text price_text,
    req_data r = Some form
    /\ dict_get "ORD_QTY" form = Some quantity_text
    /\ Py.int_of_decimal quantity_text = Ok quantity
    /\ dict_get "ORD_UNPR" form = Some price_text
    /\ Py.int_of_decimal price_text = Ok price.
Proof.
  intros Horder Hrun.
  destruct (split "-" (account_no self)) as [|cano [|prdt others]] eqn:Hsplit.
  - exfalso. destruct Horder as [-> | ->];
      [unfold buy_order in Hrun | unfold sell_order in Hrun];
      unfold and_then, lift, index in Hrun; rewrite Hsplit in Hrun;
      destruct (price =? 0)%Z; cbn in Hrun;
      apply (f_equal (@length event)) in Hrun; rewrite length_app in Hrun;
      simpl in Hrun; lia.
  - exfalso. destruct Horder as [-> | ->];
      [unfold buy_order in Hrun | unfold sell_order in Hrun];
      unfold and_then, lift, index in Hrun; rewrite Hsplit in Hrun;
      destruct (price =? 0)%Z; cbn in Hrun;
      apply (f_equal (@length event)) in Hrun; rewrite length_app in Hrun;
      simpl in Hrun; lia.
  - destruct (order_sends order stock_code quantity price order_type t _ _ _
                          Horder Hsplit) as (tr_id & Hrun').
    rewrite Hrun in Hrun'. apply app_inv_head in Hrun'. injection Hrun' as ->.
    eexists. eexists. eexists.
    split; [reflexivity|]. split; [reflexivity|].
    split; [apply int_of_decimal_str|]. split; [reflexivity|].
    destruct (Z.eqb_spec price 0) as [->|_];
      [reflexivity | apply int_of_decimal_str].
Qed.

End OrdersOnTheWire.

(** X14 on a reply that reports success without an order number: the
    order is sent, and the KeyError of the missing field reaches the
    caller. *)
Lemma order_result_invariant_witness :
  match KISOpenAPI.buy_order paper_account (scripted [Ok order_without_number])
                             "005930" 10 0 "01" [] with
  | (Ok res, t') =>
      exists r response,
        t' = ([] ++ [Http r])%list
        /\ scripted [Ok order_without_number] [] r = Ok response
        /\ (success res = true <-> accepted response)
        /\ (forall number,
              order_no res = Some number
              <-> accepted response /\ reply_order_no response number)
        /\ (success res = false <-> order_no res = None)
  | (Raise e, t') =>
      (e = IndexError /\ t' = []
       /\ nth_error (KISOpenAPI.split "-" (KISOpenAPI.account_no paper_account)) 1
          = None)
      \/ exists r,
          t' = ([] ++ [Http r])%list
          /\ (scripted [Ok order_without_number] [] r = Raise e
              \/ exists response,
                  scripted [Ok order_without_number] [] r = Ok response
                  /\ reading_raises response e)
  end.
Proof.
  apply (order_result_invariant paper_account (scripted [Ok order_without_number])
           (KISOpenAPI.buy_order paper_account
                                 (scripted [Ok order_without_number]))).
  left. reflexivity.
Defined.

Example order_without_number_raises :
  exists r,
    KISOpenAPI.buy_order paper_account (scripted [Ok order_without_number])
                         "005930" 10 0 "01" []
    = (Raise TokenIssue.KeyError, [Http r]).
Proof. eexists. vm_compute. reflexivity. Qed.

Lemma order_account_parts_witness :
  KISOpenAPI.sell_order undashed_account dead_net "005930" 10 0 "01" []
  = (Raise IndexError, []).
Proof.
  apply (order_account_parts undashed_account dead_net
           (KISOpenAPI.sell_order undashed_account dead_net)).
  - right. reflexivity.
  - reflexivity.
Defined.

Lemma order_fields_decode_witness :
  exists form quantity_text price_text,
    req_data {| req_method := "POST";
                req_url := "https://openapivts.koreainvestment.com:29443/uapi/domestic-stock/v1/trading/order-cash";
                req_headers := Some (KISOpenAPI.get_headers paper_account "TTTC0801U" "");
                req_params := None;
                req_data := Some [ ("CANO", "12345678"); ("ACNT_PRDT_CD", "01");
                                   ("PDNO", "005930"); ("ORD_DVSN", "00");
                                   ("ORD_QTY", "7"); ("ORD_UNPR", "71500") ]%string;
                req_timeout := None |} = Some form
    /\ dict_get "ORD_QTY" form = Some quantity_text
    /\ Py.int_of_decimal quantity_text = Ok 7
    /\ dict_get "ORD_UNPR" form = Some price_text
    /\ Py.int_of_decimal price_text = Ok 71500.
Proof.
  apply (order_fields_decode paper_account (scripted [Ok order_accepted])
           (KISOpenAPI.sell_order paper_account (scripted [Ok order_accepted]))
           "005930" 7 71500 "01" []).
  - right. reflexivity.
  - vm_compute. reflexivity.
Defined.

(** ** Token issue *)

Section TokenFacts.

Import TokenIssue.
Local Open Scope string_scope.

Variable other_request_exception : string -> bool.
Variable net : TokenNetwork.
Variables base_url app_key app_secret : string.
Variables max_retries timeout : Z.

Local Notation "'loop'" :=
  (token_loop other_request_exception net base_url app_key app_secret
              max_retries timeout).
Local Notation "'request'" :=
  (token_request base_url app_key app_secret timeout).

Lemma posts_of_app (xs ys : list token_event) :
  posts_of (xs ++ ys) = (posts_of xs ++ posts_of ys)%list.
Proof. apply flat_map_app. Qed.

Lemma waits_of_app (xs ys : list token_event) :
  waits_of (xs ++ ys) = (waits_of xs ++ waits_of ys)%list.
Proof. apply flat_map_app. Qed.

Lemma retry_waits_cons (attempt : Z) (rest : list Z) :
  (retry_waits max_retries rest <= retry_waits max_retries (attempt :: rest))%nat.
Proof.
  unfold retry_waits. cbn [filter].
  destruct (attempt <? max_retries - 1)%Z; cbn [length]; lia.
Qed.

Lemma retry_waits_wait (attempt : Z) (rest : list Z) :
  (attempt <? max_retries - 1)%Z = true ->
  retry_waits max_retries (attempt :: rest) = S (retry_waits max_retries rest).
Proof.
  intros H. unfold retry_waits. cbn [filter]. rewrite H. reflexivity.
Qed.

(** One pass of the loop, case by case. *)
Ltac pass_cases attempt self t :=
  cbn [token_loop]; unfold issue_once;
  destruct (net (t ++ [Say (IssueAttempt (attempt + 1) max_retries)])%list
                request) as [response|e] eqn:Hnet;
  [ destruct (token_status_code response =? 200)%Z eqn:Hstatus;
    [ destruct (token_json response) as [reply|e] eqn:Hjson;
      [ destruct (reply_access_token reply) as [token|] eqn:Htoken;
        [ destruct (reply_access_token_token_expired reply)
            as [expired|] eqn:Hexpired | ] | ] | ] | ].

(** How a raised exception is handled, case by case. *)
Ltac handler_cases attempt e :=
  destruct e; cbn [request_exception];
  try destruct (attempt <? max_retries - 1)%Z eqn:Hmore;
  try match goal with
      | |- context [String.eqb ?name "KeyError"] =>
          destruct (String.eqb name "KeyError") eqn:Hkey;
          [ | destruct (other_request_exception name) eqn:Hother ]
      end.

(** The trace of the loop: the old trace, then for each pass a line and
    a post. *)
Lemma token_loop_trace (attempts : list Z) (self : Tokens)
      (t : list token_event) :
  exists evs,
    snd (loop attempts self t) = (t ++ evs)%list
    /\ match attempts with
       | [] => evs = []
       | attempt :: _ =>
           exists tail,
             evs = Say (IssueAttempt (attempt + 1) max_retries)
                   :: Post request :: tail
       end.
Proof.
  destruct attempts as [|attempt rest].
  - exists []. split; [cbn; now rewrite app_nil_r | reflexivity].
  - assert (Hrest : forall self' t', exists evs,
               snd (loop rest self' t') = (t' ++ evs)%list).
    { clear. induction rest as [|a rest IH]; intros self' t'.
      - exists []. cbn. now rewrite app_nil_r.
      - pass_cases a self' t'; try handler_cases a e;
          cbn [snd];
          try (eexists; rewrite <- ?app_assoc; reflexivity);
          match goal with
          | |- context [loop rest ?s ?tr] =>
              destruct (IH s tr) as (evs & Hevs); rewrite Hevs;
              eexists; rewrite <- ?app_assoc; reflexivity
          end. }
    pass_cases attempt self t; try handler_cases attempt e;
      cbn [snd];
      try (eexists; split;
           [ rewrite <- ?app_assoc; cbn [app]; reflexivity
           | eexists; reflexivity ]);
      match goal with
      | |- context [loop rest ?s ?tr] =>
          destruct (Hrest s tr) as (evs & Hevs); rewrite Hevs;
          eexists; split;
          [ rewrite <- ?app_assoc; cbn [app]; reflexivity
          | eexists; reflexivity ]
      end.
Qed.

(** What the loop adds to the trace: one post per pass at most, each the
    token request, and a wait of five seconds only after a pass that is
    not the last allowed one. *)
Lemma token_loop_within (attempts : list Z) :
  forall (self : Tokens) (t : list token_event),
  exists evs,
    snd (loop attempts self t) = (t ++ evs)%list
    /\ (length (posts_of evs) <= length attempts)%nat
    /\ (attempts <> [] -> (1 <= length (posts_of evs))%nat)
    /\ Forall (eq request) (posts_of evs)
    /\ (length (waits_of evs) <= retry_waits max_retries attempts)%nat
    /\ Forall (eq 5) (waits_of evs).
Proof.
  induction attempts as [|attempt rest IH]; intros self t.
  - exists []. cbn. rewrite app_nil_r. repeat split; auto; try lia.
    intros H. now contradiction H.
  - pose proof (retry_waits_cons attempt rest) as Hmono.
    pass_cases attempt self t; try handler_cases attempt e;
      cbn [snd];
      try (eexists; split; [rewrite <- ?app_assoc; cbn [app]; reflexivity|];
           cbn -[retry_waits]; repeat split; auto; lia);
      match goal with
      | |- context [loop rest ?s ?tr] =>
          destruct (IH s tr) as (evs & Hevs & Hposts & _ & Hreq & Hwaits & Hfive);
          rewrite Hevs;
          eexists; split; [rewrite <- ?app_assoc; cbn [app]; reflexivity|];
          try rewrite (retry_waits_wait attempt rest Hmore);
          cbn -[retry_waits]; fold (posts_of evs) (waits_of evs);
          repeat split; auto; lia
      end.
Qed.

(** The tokens after the loop: both are those of the reply that ended it
    when the token is issued; otherwise the expiry is untouched, and the
    token is replaced only by a reply that lacks the expiry. *)
Lemma token_loop_tokens (attempts : list Z) :
  forall (self : Tokens) (t : list token_event),
  match loop attempts self t with
  | (Issued, self', t') =>
      exists pre response reply token expired,
        t' = (t ++ pre ++ [Post request; Say IssueDone])%list
        /\ net (t ++ pre)%list request = Ok response
        /\ token_status_code response = 200
        /\ token_json response = Ok reply
        /\ reply_access_token reply = Some token
        /\ reply_access_token_token_expired reply = Some expired
        /\ self' = {| access_token := Some token;
                      token_expired := Some expired |}
  | (Failed e, self', t') =>
      token_expired self' = token_expired self
      /\ (self' = self
          \/ e = Uncaught KeyError
             /\ exists pre response reply token,
                  t' = (t ++ pre ++ [Post request])%list
                  /\ net (t ++ pre)%list request = Ok response
                  /\ token_status_code response = 200
                  /\ token_json response = Ok reply
                  /\ reply_access_token reply = Some token
                  /\ reply_access_token_token_expired reply = None
                  /\ access_token self' = Some token)
  end.
Proof.
  induction attempts as [|attempt rest IH]; intros self t.
  - cbn. auto.
  - pass_cases attempt self t; try handler_cases attempt e;
      try (cbn; split; [reflexivity | left; reflexivity]);
      rewrite <- ?app_assoc; cbn [app];
      try match goal with
      | |- context [loop rest ?s (t ++ ?l)%list] =>
          specialize (IH s (t ++ l)%list);
          destruct (loop rest s (t ++ l)%list) as [[[|e'] self'] t'];
          [ destruct IH as (pre & response' & reply' & token' & expired'
                            & Ht & Hn & IH);
            exists (l ++ pre)%list, response', reply', token', expired';
            rewrite <- app_assoc in Ht, Hn; rewrite <- app_assoc;
            split; [exact Ht | split; [exact Hn | exact IH]]
          | destruct IH as (Hexp & [Hself | (He & pre & response' & reply'
                                             & token' & Ht & Hn & IH)]);
            (split; [exact Hexp|]);
            [ left; exact Hself
            | right; split; [exact He|];
              exists (l ++ pre)%list, response', reply', token';
              rewrite <- app_assoc in Ht, Hn; rewrite <- app_assoc;
              split; [exact Ht | split; [exact Hn | exact IH]] ] ]
      end.
    + exists [Say (IssueAttempt (attempt + 1) max_retries)],
        response, reply, token, expired.
      apply Z.eqb_eq in Hstatus. auto 10.
    + cbn. split; [reflexivity|]. right. split; [reflexivity|].
      exists [Say (IssueAttempt (attempt + 1) max_retries)],
        response, reply, token.
      apply Z.eqb_eq in Hstatus. rewrite <- ?app_assoc. auto 10.
Qed.

(** A post that is not the last one of the loop was refused with a status
    other than 200, and the next pass follows at once, or it ended in a
    connect timeout, and the next pass follows a wait of five seconds. *)
Lemma token_loop_retries (attempts : list Z) :
  forall (self : Tokens) (t pre : list token_event) (r : Request)
         (post : list token_event),
    snd (loop attempts self t) = (t ++ pre ++ Post r :: post)%list ->
    posts_of post <> [] ->
    r = request
    /\ ((exists response,
           net (t ++ pre)%list r = Ok response
           /\ token_status_code response <> 200
           /\ exists next tail,
                post = Say (IssueRefused (token_status_code response)
                                         (token_text response))
                       :: Say (IssueAttempt next max_retries)
                       :: Post request :: tail)
        \/ (timed_out (net (t ++ pre)%list r)
            /\ exists this next tail,
                 post = Say (ConnectTimedOut this max_retries)
                        :: Wait 5
                        :: Say (IssueAttempt next max_retries)
                        :: Post request :: tail)).
Proof.
  induction attempts as [|attempt rest IH]; intros self t pre r post Ht Hpost.
  - cbn in Ht. rewrite <- (app_nil_r t) in Ht at 1.
    apply app_inv_head in Ht. destruct pre; discriminate Ht.
  - revert Ht.
    pass_cases attempt self t; try handler_cases attempt e;
      unfold KeyError;
      cbn [request_exception String.eqb Ascii.eqb Bool.eqb snd];
      rewrite <- ?app_assoc; cbn [app];
      try match goal with
      | |- context [loop rest ?s (t ++ ?l)%list] =>
          destruct (token_loop_trace rest s (t ++ l)%list)
            as (evs & Hevs & Hshape);
          pose proof (IH s (t ++ l)%list) as IHrest;
          rewrite Hevs in IHrest |- *; rewrite <- ?app_assoc; cbn [app]
      end;
      intros Ht; apply app_inv_head in Ht;
      repeat (destruct pre as [|? pre]; cbn [app] in Ht;
              [ try discriminate Ht
              | injection Ht as <- Ht || discriminate Ht ]).
    all: try (destruct (IHrest pre r post) as (Hr & Hcases);
              [ rewrite Ht, <- ?app_assoc; reflexivity | exact Hpost | ];
              split; [exact Hr|];
              rewrite <- ?app_assoc in Hcases; cbn [app] in Hcases;
              exact Hcases).
    all: injection Ht as <- <-; cbn [posts_of flat_map app] in Hpost;
      try solve [exfalso; apply Hpost; reflexivity];
      (split; [reflexivity|]);
      (destruct rest as [|next rest];
       [ subst evs; exfalso; apply Hpost; reflexivity
       | destruct Hshape as (tail & ->) ]).
    all: first
      [ left; exists response; apply Z.eqb_neq in Hstatus;
        split; [exact Hnet | split; [exact Hstatus|]];
        eexists _, _; reflexivity
      | right; split;
        [ first [ left; exact Hnet
                | right; exists response; apply Z.eqb_eq in Hstatus;
                  split; [exact Hnet | split; [exact Hstatus | exact Hjson]] ]
        | eexists _, _, _; reflexivity ] ].
Qed.

End TokenFacts.

Section TokenIssueFacts.

Import TokenIssue.
Local Open Scope string_scope.

Variable other_request_exception : string -> bool.
Variable net : TokenNetwork.
Variables base_url app_key app_secret : string.

Local Notation "'issue'" :=
  (get_access_token other_request_exception net base_url app_key app_secret).
Local Notation "'request'" :=
  (token_request base_url app_key app_secret 30).

(** X17.  Whatever the remote end does, [get_access_token] only appends to
    the trace; it posts the token request at least once and at most three
    times, and nothing else; it waits at most twice, five seconds each
    time. *)
Theorem get_access_token_bounded (self : Tokens) (t : list token_event) :
  exists evs,
    snd (issue self t) = (t ++ evs)%list
    /\ (1 <= length (posts_of evs) <= 3)%nat
    /\ Forall (eq request) (posts_of evs)
    /\ (length (waits_of evs) <= 2)%nat
    /\ Forall (eq 5) (waits_of evs).
Proof.
  destruct (token_loop_within other_request_exception net base_url app_key
              app_secret 3 30 (Py.range 3) self t)
    as (evs & Hevs & Hposts & Hfirst & Hreq & Hwaits & Hfive).
  exists evs. split; [exact Hevs|].
  split; [split; [apply Hfirst; discriminate | exact Hposts]|].
  split; [exact Hreq|]. split; [exact Hwaits | exact Hfive].
Qed.

(** X18.  When [get_access_token] returns, the last reply had status 200
    and both fields, and the object holds exactly these two values; the
    trace ends with that post and the success line.  When it raises, the
    expiry is untouched, and the token is either untouched too or was
    taken from a reply with status 200 that lacks the expiry field, in
    which case the [KeyError] leaves the function uncaught. *)
Theorem get_access_token_tokens (self : Tokens) (t : list token_event) :
  match issue self t with
  | (Issued, self', t') =>
      exists pre response reply token expired,
        t' = (t ++ pre ++ [Post request; Say IssueDone])%list
        /\ net (t ++ pre)%list request = Ok response
        /\ token_status_code response = 200
        /\ token_json response = Ok reply
        /\ reply_access_token reply = Some token
        /\ reply_access_token_token_expired reply = Some expired
        /\ self' = {| access_token := Some token;
                      token_expired := Some expired |}
  | (Failed e, self', t') =>
      token_expired self' = token_expired self
      /\ (self' = self
          \/ e = Uncaught KeyError
             /\ exists pre response reply token,
                  t' = (t ++ pre ++ [Post request])%list
                  /\ net (t ++ pre)%list request = Ok response
                  /\ token_status_code response = 200
                  /\ token_json response = Ok reply
                  /\ reply_access_token reply = Some token
                  /\ reply_access_token_token_expired reply = None
                  /\ access_token self' = Some token)
  end.
Proof.
  exact (token_loop_tokens other_request_exception net base_url app_key
           app_secret 3 30 (Py.range 3) self t).
Qed.

(** X19.  Only two things make [get_access_token] post again: a reply
    with a status other than 200, after which the next post follows the
    refusal line at once, without a wait; and a connect timeout, after
    which it follows a wait of five seconds.  After any other outcome of
    a post (a connection error, a read timeout, a reply with status 200)
    no further post is sent. *)
Theorem get_access_token_retries (self : Tokens)
        (t pre : list token_event) (r : Request) (post : list token_event) :
  snd (issue self t) = (t ++ pre ++ Post r :: post)%list ->
  posts_of post <> [] ->
  r = request
  /\ ((exists response,
         net (t ++ pre)%list r = Ok response
         /\ token_status_code response <> 200
         /\ exists next tail,
              post = Say (IssueRefused (token_status_code response)
                                       (token_text response))
                     :: Say (IssueAttempt next 3)
                     :: Post request :: tail)
      \/ (timed_out (net (t ++ pre)%list r)
          /\ exists this next tail,
               post = Say (ConnectTimedOut this 3)
                      :: Wait 5
                      :: Say (IssueAttempt next 3)
                      :: Post request :: tail)).
Proof.
  exact (token_loop_retries other_request_exception net base_url app_key
           app_secret 3 30 (Py.range 3) self t pre r post).
Qed.

End TokenIssueFacts.

Lemma get_access_token_retries_witness :
  paper_token_request = paper_token_request
  /\ ((exists response,
         slow_start_net [TokenIssue.Say (TokenIssue.IssueAttempt 1 3)]
                        paper_token_request = Ok response
         /\ TokenIssue.token_status_code response <> 200
         /\ exists next tail,
              slow_start_rest
              = TokenIssue.Say
                  (TokenIssue.IssueRefused
                     (TokenIssue.token_status_code response)
                     (TokenIssue.token_text response))
                :: TokenIssue.Say (TokenIssue.IssueAttempt next 3)
                :: TokenIssue.Post paper_token_request :: tail)
      \/ (timed_out
            (slow_start_net [TokenIssue.Say (TokenIssue.IssueAttempt 1 3)]
                            paper_token_request)
          /\ exists this next tail,
               slow_start_rest
               = TokenIssue.Say (TokenIssue.ConnectTimedOut this 3)
                 :: TokenIssue.Wait 5
                 :: TokenIssue.Say (TokenIssue.IssueAttempt next 3)
                 :: TokenIssue.Post paper_token_request :: tail)).
Proof.
  apply (get_access_token_retries (fun _ => false) slow_start_net
           "https://openapivts.koreainvestment.com:29443" "key" "secret"
           no_tokens []
           [TokenIssue.Say (TokenIssue.IssueAttempt 1 3)]
           paper_token_request slow_start_rest).
  - reflexivity.
  - discriminate.
Defined.

(** ** The method of a request *)

Section RequestMethod.

Import KISOpenAPI.
Local Open Scope string_scope.

Variable str_upper : string -> string.

Variable net : Network.
Variable url : string.
Variables headers params data : option (dict string).
Variables timeout max_retries : Z.

Lemma send_once_method (method method' : string) (r : Request) (t : trace) :
  str_upper method = str_upper method' ->
  request_of str_upper method url headers params data timeout = Some r ->
  send_once str_upper net method url headers params data timeout t
  = send_once str_upper net method' url headers params data timeout t.
Proof.
  intros Hupper Hknown. unfold send_once. unfold request_of in Hknown.
  rewrite <- Hupper.
  destruct (String.eqb (str_upper method) "GET"); [reflexivity|].
  destruct (String.eqb (str_upper method) "POST"); [reflexivity|discriminate].
Qed.

Lemma make_request_loop_method (method method' : string) (r : Request) :
  str_upper method = str_upper method' ->
  request_of str_upper method url headers params data timeout = Some r ->
  forall (attempts : list Z) (t : trace),
    make_request_loop str_upper net method url headers params data timeout max_retries
                      attempts t
    = make_request_loop str_upper net method' url headers params data timeout
                        max_retries attempts t.
Proof.
  intros Hupper Hknown attempts.
  induction attempts as [|attempt rest IH]; intros t; [reflexivity|].
  cbn [make_request_loop]. unfold try_except.
  rewrite (send_once_method method method' r t Hupper Hknown).
  destruct (send_once str_upper net method' url headers params data timeout t)
    as [[response|e] t1]; [reflexivity|].
  destruct (is_exception e); [|reflexivity].
  destruct e; try reflexivity;
    cbv beta iota delta [and_then emit sleep lift];
    destruct (attempt <? max_retries - 1)%Z; try reflexivity;
    apply IH.
Qed.

(** X20.  [make_request] reads a method that it supports through its
    upper-case form only: two spellings of GET, or of POST, give the same
    result and the same trace.  A method that it does not support comes
    back in the error as it was spelled. *)
Theorem make_request_method_case (method method' : string) (t : trace) :
  str_upper method = str_upper method' ->
  (forall r,
      request_of str_upper method url headers params data timeout = Some r ->
      make_request str_upper net method url headers params data timeout max_retries t
      = make_request str_upper net method' url headers params data timeout
                     max_retries t)
  /\ (request_of str_upper method url headers params data timeout = None ->
      0 < max_retries ->
      make_request str_upper net method url headers params data timeout max_retries t
      = (Raise (UnsupportedMethod method),
         (t ++ [Print (UnexpectedError (UnsupportedMethod method))])%list)
      /\ make_request str_upper net method' url headers params data timeout
                      max_retries t
         = (Raise (UnsupportedMethod method'),
            (t ++ [Print (UnexpectedError (UnsupportedMethod method'))])%list)).
Proof.
  intros Hupper. split.
  - intros r Hknown. unfold make_request.
    apply (make_request_loop_method method method' r Hupper Hknown).
  - intros Hnone Hpos.
    split; apply make_request_unknown_method; try exact Hpos; try exact Hnone.
    unfold request_of in *. rewrite <- Hupper. exact Hnone.
Qed.

End RequestMethod.

Lemma make_request_method_case_witness :
  KISOpenAPI.make_request KISOpenAPI.upper flaky_net "get" quote_url None None None 30 3 []
  = KISOpenAPI.make_request KISOpenAPI.upper flaky_net "GET" quote_url None None None 30 3 [].
Proof.
  exact (proj1 (make_request_method_case KISOpenAPI.upper flaky_net quote_url
                  None None None 30 3 "get" "GET" [] eq_refl)
           quote_request eq_refl).
Defined.
